(** * Slush-fund detection engine: a shallow embedding and its properties

    Source: [src/Secret/slush_fund_detector.py] (class [SlushFundDetector]).

    Conventions of the embedding.
    - The [amount] column is integer valued ([Z]); counts are [Z] as well.
      Python floats that the program computes from them (fractions, shares,
      confidence scores) are exact rationals ([Q]); a NumPy quotient, which
      may be infinite or NaN, lives in [npfloat].  Every comparison of a
      count or a quotient with one of the literal thresholds has the same
      outcome on the rationals as in binary64 as long as the table has
      fewer than 2^49 rows and the sums stay below 2^50; a product such as
      the round fraction times 100 is exact here, where binary64 may round
      it in the last place.
    - A [DataFrame] is the list of its rows together with the list of column
      labels that are present; reading an absent column raises [KeyError].
      What pandas does with cells of an unexpected type is not modelled.
    - The detectors receive the caller's table by reference and some assign
      to its columns, so the table is part of the state that is threaded
      through every call, next to the number of wall-clock readings taken.
    - What the Python runtime supplies (the wall clock, the date parser, the
      float formatter of f-strings, the iteration order of a [set]) is
      collected in the record [Runtime]. *)

From Stdlib Require Import ZArith QArith Qminmax Bool List String Ascii Lia.
From Stdlib Require Import DecimalString Permutation Sorted.
From Corelib Require Import PrimFloat.
Import ListNotations.

Local Open Scope string_scope.
Local Open Scope Z_scope.

(** ** Data model *)

(** [class RiskLevel(Enum)] *)
Inductive RiskLevel : Type := LOW | MEDIUM | HIGH | CRITICAL.

(** [RiskLevel.value] *)
Definition value (r : RiskLevel) : Z :=
  match r with LOW => 1 | MEDIUM => 2 | HIGH => 3 | CRITICAL => 4 end.

(** [RiskLevel.name] *)
Definition name (r : RiskLevel) : string :=
  match r with
  | LOW => "LOW" | MEDIUM => "MEDIUM" | HIGH => "HIGH" | CRITICAL => "CRITICAL"
  end.

Definition RiskLevel_eqb (a b : RiskLevel) : bool := value a =? value b.

(** A [datetime] / pandas [Timestamp]: nanoseconds since 1970-01-01T00:00. *)
Definition Timestamp : Type := Z.

(** [@dataclass class Alert] *)
Record Alert : Type := mkAlert {
  account_id : string;
  alert_type : string;
  risk_level : RiskLevel;
  confidence_score : Q;
  description : string;
  evidence : list string;
  timestamp : Timestamp;
  amount_involved : Q
}.

(** ** Python's [sorted]

    [sorted(xs, key=k, reverse=r)] computes the keys, and when [r] holds it
    reverses the list, sorts it stably in ascending order with [<] on the
    keys alone, and reverses the result.  The stable ascending sort is
    written as an insertion sort; a stable sort of a total preorder has one
    possible result, so the choice of algorithm is not observable. *)
Section Sorted.
Context {A K : Type}.
Variable key : A -> K.
Variable lt : K -> K -> bool.

Fixpoint insert (x : A) (s : list A) : list A :=
  match s with
  | [] => [x]
  | y :: s' => if lt (key y) (key x) then y :: insert x s' else x :: y :: s'
  end.

Fixpoint stable_sort (l : list A) : list A :=
  match l with
  | [] => []
  | x :: l' => insert x (stable_sort l')
  end.

Definition sorted (reverse : bool) (l : list A) : list A :=
  if reverse then rev (stable_sort (rev l)) else stable_sort l.
End Sorted.

(** [<] on floats that are neither infinite nor NaN. *)
Definition Qltb (a b : Q) : bool := negb (Qle_bool b a).

(** [<] on the tuples [(int, float)]: the first components decide unless
    they are equal. *)
Definition tuple_lt (a b : Z * Q) : bool :=
  if fst a =? fst b then Qltb (snd a) (snd b) else fst a <? fst b.

(** [lambda x: (x.risk_level.value, x.confidence_score)] *)
Definition priority_key (x : Alert) : Z * Q :=
  (value (risk_level x), confidence_score x).

(** [SlushFundDetector.prioritize_alerts] *)
Definition prioritize_alerts (alerts : list Alert) : list Alert :=
  sorted priority_key tuple_lt true alerts.

(** ** Numbers *)

(** A NumPy [float64] obtained from a quotient: finite, infinite or NaN. *)
Inductive npfloat : Type := Finite (q : Q) | PosInf | NegInf | NaN.

(** [a / b] on two NumPy [int64] scalars: never raises, division by zero
    gives an infinity or NaN. *)
Definition np_div (a b : Z) : npfloat :=
  if b =? 0 then
    if a =? 0 then NaN else if 0 <? a then PosInf else NegInf
  else Finite (inject_Z a / inject_Z b)%Q.

(** [x > c] for a NumPy float [x] and a finite constant [c]. *)
Definition np_gt (x : npfloat) (c : Q) : bool :=
  match x with
  | Finite q => Qltb c q
  | PosInf => true
  | NegInf | NaN => false
  end.

(** The builtin [min(a, b)]: [b] when [b < a], otherwise [a]. *)
Definition py_min (a b : Q) : Q := if Qltb b a then b else a.

(** [sum] of an integer column. *)
Definition sum (xs : list Z) : Z := fold_right Z.add 0 xs.

(** [len] *)
Definition len {T : Type} (xs : list T) : Z := Z.of_nat (List.length xs).

(** ** Text *)

(** [str(n)] for an [int]. *)
Definition str (n : Z) : string := NilZero.string_of_int (Z.to_int n).

(** [s * n] for a string [s]. *)
Fixpoint repeat_string (s : string) (n : nat) : string :=
  match n with
  | O => ""
  | S n' => s ++ repeat_string s n'
  end.

(** [str.lower] on the ASCII range. *)
Definition lower_ascii (c : ascii) : ascii :=
  let n := nat_of_ascii c in
  if (Nat.leb 65 n && Nat.leb n 90)%bool then ascii_of_nat (n + 32) else c.

Fixpoint lower (s : string) : string :=
  match s with
  | EmptyString => EmptyString
  | String c s' => String (lower_ascii c) (lower s')
  end.

(** [needle in haystack] *)
Fixpoint contains (needle haystack : string) : bool :=
  prefix needle haystack ||
  match haystack with
  | EmptyString => false
  | String _ rest => contains needle rest
  end.

(** [re.search('|'.join(words), s)] for words without metacharacters: the
    leftmost position where some word starts, and there the first word of
    the alternation that matches. *)
Fixpoint search (words : list string) (s : string) : option string :=
  match find (fun w => prefix w s) words with
  | Some w => Some w
  | None =>
      match s with
      | EmptyString => None
      | String _ rest => search words rest
      end
  end.

(** Digits grouped in threes from the right, as the [,] format option. *)
Fixpoint group_thousands (fuel : nat) (n : Z) : string :=
  match fuel with
  | O => str n
  | S fuel' =>
      if n <? 1000 then str n
      else
        let r := n mod 1000 in
        group_thousands fuel' (n / 1000) ++ "," ++
        (if r <? 10 then "00" else if r <? 100 then "0" else "") ++ str r
  end.

(** [format(n, ',')] for an [int]. *)
Definition format_int_comma (n : Z) : string :=
  if n <? 0 then "-" ++ group_thousands (Z.to_nat (Z.log2 (- n))) (- n)
  else group_thousands (Z.to_nat (Z.log2 n)) n.

(** A decimal number padded with zeros on the left to [width] digits. *)
Definition zero_pad (width : nat) (n : Z) : string :=
  let s := str n in
  repeat_string "0" (width - String.length s) ++ s.

(** ** Calendar *)

Definition ns_per_second : Z := 1000000000.
Definition ns_per_day : Z := 86400 * ns_per_second.

(** The number of the calendar day of a timestamp (days since 1970-01-01):
    the grouping key that [.dt.date] yields. *)
Definition day_number (t : Timestamp) : Z := t / ns_per_day.

(** Proleptic Gregorian [(year, month, day)] of a day number. *)
Definition civil_from_days (days : Z) : Z * Z * Z :=
  let z := days + 719468 in
  let era := z / 146097 in
  let doe := z - era * 146097 in
  let yoe := (doe - doe / 1460 + doe / 36524 - doe / 146096) / 365 in
  let doy := doe - (365 * yoe + yoe / 4 - yoe / 100) in
  let mp := (5 * doy + 2) / 153 in
  let d := doy - (153 * mp + 2) / 5 + 1 in
  let m := if mp <? 10 then mp + 3 else mp - 9 in
  let y := yoe + era * 400 + (if m <=? 2 then 1 else 0) in
  (y, m, d).

(** [Timestamp.day] and [Timestamp.month] *)
Definition day_of (t : Timestamp) : Z := snd (civil_from_days (day_number t)).
Definition month_of (t : Timestamp) : Z :=
  snd (fst (civil_from_days (day_number t))).
Definition year_of (t : Timestamp) : Z :=
  fst (fst (civil_from_days (day_number t))).

(** [t.strftime('%Y-%m-%d %H:%M:%S')] *)
Definition strftime (t : Timestamp) : string :=
  let secs := (t mod ns_per_day) / ns_per_second in
  zero_pad 4 (year_of t) ++ "-" ++ zero_pad 2 (month_of t) ++ "-" ++
  zero_pad 2 (day_of t) ++ " " ++ zero_pad 2 (secs / 3600) ++ ":" ++
  zero_pad 2 ((secs / 60) mod 60) ++ ":" ++ zero_pad 2 (secs mod 60).

(** [Timedelta.days]: whole days, rounded towards minus infinity. *)
Definition days (delta : Z) : Z := delta / ns_per_day.

(** ** The transaction table *)

(** A cell of the [date] column: already a timestamp, or text that
    [pd.to_datetime] still has to parse. *)
Inductive DateCell : Type := Stamp (t : Timestamp) | Text (s : string).

(** A row.  Text cells may be missing ([None] is pandas' NaN).  The last two
    fields hold the derived columns that the end-of-period detector stores
    in the table; a field whose label is not among the table's [columns] is
    not observable. *)
Record Row : Type := mkRow {
  tx_date : DateCell;
  tx_amount : Z;
  tx_description : option string;
  tx_counterparty : option string;
  tx_transaction_type : option string;
  tx_day_of_month : Z;
  tx_month : Z
}.

Record DataFrame : Type := mkFrame {
  columns : list string;
  rows : list Row
}.

(** [label in df.columns] *)
Definition has_column (label : string) (f : DataFrame) : bool :=
  existsb (String.eqb label) (columns f).

Inductive exn : Type :=
| KeyError (label : string)
| ValueError (text : string)
| AttributeError
| ZeroDivisionError
| IndexError.

(** [f[label]]: the column, or [KeyError]. *)
Definition getitem {T : Type} (label : string) (field : Row -> T)
    (f : DataFrame) : exn + list T :=
  if has_column label f then inr (map field (rows f)) else inl (KeyError label).

(** Selection by a boolean mask. *)
Fixpoint mask_list {T : Type} (mask : list bool) (xs : list T) : list T :=
  match mask, xs with
  | b :: mask', x :: xs' =>
      if b then x :: mask_list mask' xs' else mask_list mask' xs'
  | _, _ => []
  end.

(** [f[mask]] *)
Definition mask_rows (mask : list bool) (f : DataFrame) : DataFrame :=
  mkFrame (columns f) (mask_list mask (rows f)).

(** [f[label] = values], where [values] has one entry for every row: an
    existing column is overwritten in place, a new one is added after the
    others. *)
Definition setitem {T : Type} (label : string) (store : T -> Row -> Row)
    (values : list T) (f : DataFrame) : DataFrame :=
  mkFrame
    (if has_column label f then columns f else columns f ++ [label])
    (map (fun vr => store (fst vr) (snd vr)) (combine values (rows f))).

Definition store_date (c : DateCell) (r : Row) : Row :=
  mkRow c (tx_amount r) (tx_description r) (tx_counterparty r)
        (tx_transaction_type r) (tx_day_of_month r) (tx_month r).

Definition store_day_of_month (d : Z) (r : Row) : Row :=
  mkRow (tx_date r) (tx_amount r) (tx_description r) (tx_counterparty r)
        (tx_transaction_type r) d (tx_month r).

Definition store_month (m : Z) (r : Row) : Row :=
  mkRow (tx_date r) (tx_amount r) (tx_description r) (tx_counterparty r)
        (tx_transaction_type r) (tx_day_of_month r) m.

(** The values of a text column that are not missing. *)
Definition dropna (col : list (option string)) : list string :=
  flat_map (fun c => match c with Some s => [s] | None => [] end) col.

(** Distinct values in order of first appearance. *)
Fixpoint unique_from {T : Type} (eqb : T -> T -> bool) (seen l : list T)
    : list T :=
  match l with
  | [] => []
  | x :: l' =>
      if existsb (eqb x) seen then unique_from eqb seen l'
      else x :: unique_from eqb (x :: seen) l'
  end.

Definition unique {T : Type} (eqb : T -> T -> bool) (l : list T) : list T :=
  unique_from eqb [] l.

(** [Series.value_counts()]: the distinct values that are not missing with
    the number of their occurrences, most frequent first.  pandas leaves
    the order among equal counts open; here it is first appearance. *)
Definition value_counts (col : list (option string)) : list (string * Z) :=
  let present := dropna col in
  sorted snd Z.ltb true
         (map (fun s => (s, len (filter (String.eqb s) present)))
              (unique String.eqb present)).

(** [Series.diff()] on timestamps: nothing for the first row. *)
Fixpoint diff_from (prev : Z) (ts : list Z) : list (option Z) :=
  match ts with
  | [] => []
  | t :: ts' => Some (t - prev) :: diff_from t ts'
  end.

Definition diff (ts : list Z) : list (option Z) :=
  match ts with
  | [] => []
  | t :: ts' => None :: diff_from t ts'
  end.

(** The [.dt] accessor: defined on a column of timestamps only. *)
Fixpoint dt (col : list DateCell) : exn + list Timestamp :=
  match col with
  | [] => inr []
  | Stamp t :: col' =>
      match dt col' with
      | inr ts => inr (t :: ts)
      | inl e => inl e
      end
  | Text _ :: _ => inl AttributeError
  end.

(** ** The Python runtime *)

Record Runtime : Type := mkRuntime {
  (** the n-th reading of [datetime.now()] *)
  wall_clock : nat -> Timestamp;
  (** the date parser behind [pd.to_datetime]; [None] when it rejects *)
  parse_datetime : string -> option Timestamp;
  (** [format(x, spec)] for a float [x] *)
  format_float : string -> npfloat -> string;
  (** [', '.join(set(xs))], in the iteration order of the set *)
  join_set : list string -> string
}.

(** ** State and exceptions

    A computation receives the world (the caller's table and the number of
    clock readings so far) and returns a value or the exception raised,
    with the world as it then is: what was assigned before an exception
    stays assigned. *)
Record World : Type := mkWorld {
  frame : DataFrame;
  ticks : nat
}.

Definition M (A : Type) : Type := World -> (exn + A) * World.

Definition ret {A : Type} (a : A) : M A := fun w => (inr a, w).

Definition raise {A : Type} (e : exn) : M A := fun w => (inl e, w).

Definition bind {A B : Type} (m : M A) (k : A -> M B) : M B :=
  fun w =>
    match m w with
    | (inr a, w') => k a w'
    | (inl e, w') => (inl e, w')
    end.

Notation "x <- m ;; k" := (bind m (fun x => k))
  (at level 61, m at next level, right associativity).
Notation "m ;; k" := (bind m (fun _ => k))
  (at level 61, right associativity).

(** A computation that only returns or raises. *)
Definition lift {A : Type} (r : exn + A) : M A := fun w => (r, w).

(** The table the parameter [df] refers to. *)
Definition df : M DataFrame := fun w => (inr (frame w), w).

(** An assignment to a column of [df]. *)
Definition update (g : DataFrame -> DataFrame) : M unit :=
  fun w => (inr tt, mkWorld (g (frame w)) (ticks w)).

(** [df[label]] *)
Definition df_getitem {T : Type} (label : string) (field : Row -> T)
    : M (list T) :=
  f <- df ;; lift (getitem label field f).

(** [a / b] on Python [int]s. *)
Definition py_div (a b : Z) : M Q :=
  if b =? 0 then raise ZeroDivisionError else ret (inject_Z a / inject_Z b)%Q.

(** [n > x] for an [int] [n] and a float [x]. *)
Definition int_gt (n : Z) (x : Q) : bool := Qltb x (inject_Z n).

(** [xs.iloc[0]] *)
Definition iloc0 {T : Type} (xs : list T) : M T :=
  match xs with
  | x :: _ => ret x
  | [] => raise IndexError
  end.

(** ** The detection engine ([class SlushFundDetector]) *)

Section SlushFundDetector.
Variable rt : Runtime.

(** [datetime.now()] *)
Definition now : M Timestamp :=
  fun w => (inr (wall_clock rt (ticks w)), mkWorld (frame w) (S (ticks w))).

(** [pd.to_datetime]: timestamps are kept, text is parsed, and text that
    does not parse raises. *)
Fixpoint to_datetime (col : list DateCell) : exn + list Timestamp :=
  match col with
  | [] => inr []
  | c :: col' =>
      match c with
      | Stamp t =>
          match to_datetime col' with
          | inr ts => inr (t :: ts)
          | inl e => inl e
          end
      | Text s =>
          match parse_datetime rt s with
          | Some t =>
              match to_datetime col' with
              | inr ts => inr (t :: ts)
              | inl e => inl e
              end
          | None => inl (ValueError s)
          end
      end
  end.

(** [df['date'] = pd.to_datetime(df['date'])] *)
Definition assign_parsed_date : M unit :=
  col <- df_getitem "date" tx_date ;;
  parsed <- lift (to_datetime col) ;;
  update (setitem "date" store_date (map Stamp parsed)).

(** [self.suspicious_keywords] *)
Definition suspicious_keywords : list string :=
  [ "consulting"; "advisory"; "services"; "misc"; "miscellaneous";
    "general"; "expenses"; "petty cash"; "discretionary"; "contingency";
    "emergency"; "special projects"; "undefined"; "various";
    "entertainment"; "representation"; "goodwill"; "hospitality" ].

(** *** [detect_round_number_patterns] *)

Definition is_round (x : Z) : bool := (x mod 100 =? 0) || (x mod 50 =? 0).

Definition detect_round_number_patterns (account_id : string)
    : M (list Alert) :=
  amounts <- df_getitem "amount" tx_amount ;;
  f <- df ;;
  let round_numbers := mask_rows (map is_round amounts) f in
  let total_transactions := len (rows f) in
  if 10 <? total_transactions then
    round_percentage <- py_div (len (rows round_numbers)) total_transactions ;;
    if Qltb 0.6 round_percentage then
      let evidence :=
        [ str (len (rows round_numbers)) ++ " out of " ++
            str total_transactions ++ " transactions are round numbers";
          "Round number percentage: " ++
            format_float rt ".2%" (Finite round_percentage) ] in
      t <- now ;;
      involved <- lift (getitem "amount" tx_amount round_numbers) ;;
      ret [ mkAlert account_id "Round Number Pattern"
              (if Qltb round_percentage 0.8 then MEDIUM else HIGH)
              (py_min (round_percentage * 100) 95)
              "Unusually high percentage of round-number transactions"
              evidence t (inject_Z (sum involved)) ]
    else ret []
  else ret [].

(** *** [detect_suspicious_descriptions] *)

(** The keyword that [str.extract] finds in a lower-cased description. *)
Definition keyword_in (cell : option string) : option string :=
  match cell with
  | Some s => search suspicious_keywords (lower s)
  | None => None
  end.

Definition is_vague (cell : option string) : bool :=
  match keyword_in cell with Some _ => true | None => false end.

Definition detect_suspicious_descriptions (account_id : string)
    : M (list Alert) :=
  f <- df ;;
  if negb (has_column "description" f) then ret [] else
  descriptions <- df_getitem "description" tx_description ;;
  f <- df ;;
  let vague_descriptions := mask_rows (map is_vague descriptions) f in
  vague_alerts <-
    (if int_gt (len (rows vague_descriptions))
               (inject_Z (len (rows f)) * 0.3) then
       texts <- lift (getitem "description" tx_description
                        vague_descriptions) ;;
       let evidence :=
         [ "Found " ++ str (len (rows vague_descriptions)) ++
             " transactions with vague descriptions";
           "Common suspicious keywords: " ++
             join_set rt (dropna (map keyword_in texts)) ] in
       t <- now ;;
       involved <- lift (getitem "amount" tx_amount vague_descriptions) ;;
       ret [ mkAlert account_id "Vague Transaction Descriptions" MEDIUM 75
               "High frequency of vague or generic transaction descriptions"
               evidence t (inject_Z (sum involved)) ]
     else ret []) ;;
  descriptions <- df_getitem "description" tx_description ;;
  let description_counts := value_counts descriptions in
  let repeated_descriptions :=
    filter (fun dc => 5 <? snd dc) description_counts in
  repeated_alerts <-
    (if 0 <? len repeated_descriptions then
       let evidence :=
         map (fun dc => "Description '" ++ fst dc ++ "' appears " ++
                        str (snd dc) ++ " times")
             (firstn 5 repeated_descriptions) in
       t <- now ;;
       ret [ mkAlert account_id "Repeated Transaction Descriptions" MEDIUM 60
               "Multiple transactions with identical descriptions"
               evidence t 0 ]
     else ret []) ;;
  ret (vague_alerts ++ repeated_alerts)%list.

(** *** [detect_threshold_avoidance] *)

Definition thresholds : list Z := [10000; 5000; 3000; 1000].

(** A [for] loop whose body appends to [alerts]. *)
Fixpoint for_each {T : Type} (xs : list T)
    (body : T -> list Alert -> M (list Alert)) (alerts : list Alert)
    : M (list Alert) :=
  match xs with
  | [] => ret alerts
  | x :: xs' => alerts' <- body x alerts ;; for_each xs' body alerts'
  end.

(** [m1 & m2] on boolean columns. *)
Definition mask_and (m1 m2 : list bool) : list bool :=
  map (fun p => fst p && snd p) (combine m1 m2).

Definition threshold_body (account_id : string) (threshold : Z)
    (alerts : list Alert) : M (list Alert) :=
  lower_side <- df_getitem "amount" tx_amount ;;
  upper_side <- df_getitem "amount" tx_amount ;;
  f <- df ;;
  let near_threshold :=
    mask_rows
      (mask_and
         (map (fun a => Qle_bool (inject_Z threshold * 0.9) (inject_Z a))
              lower_side)
         (map (fun a => a <? threshold) upper_side)) f in
  if 3 <? len (rows near_threshold) then
    band <- lift (getitem "amount" tx_amount near_threshold) ;;
    let evidence :=
      [ str (len (rows near_threshold)) ++ " transactions between $" ++
          format_float rt ",.0f" (Finite (inject_Z threshold * 0.9)) ++
          " and $" ++ format_float rt ",.0f" (Finite (inject_Z threshold));
        "Average amount: $" ++
          format_float rt ",.2f" (np_div (sum band) (len band)) ] in
    let risk_level := if 10000 <=? threshold then HIGH else MEDIUM in
    t <- now ;;
    involved <- lift (getitem "amount" tx_amount near_threshold) ;;
    ret (alerts ++
         [ mkAlert account_id "Threshold Avoidance" risk_level 80
             ("Multiple transactions appear to avoid $" ++
              format_int_comma threshold ++ " reporting threshold")
             evidence t (inject_Z (sum involved)) ])%list
  else ret alerts.

Definition detect_threshold_avoidance (account_id : string)
    : M (list Alert) :=
  for_each thresholds (threshold_body account_id) [].

(** *** [detect_unusual_frequency_patterns] *)

(** The sort key of a row of a table whose [date] column was parsed. *)
Definition date_key (r : Row) : Z :=
  match tx_date r with Stamp t => t | Text _ => 0 end.

(** [f.sort_values('date')]: a new table. *)
Definition sort_values_date (f : DataFrame) : DataFrame :=
  mkFrame (columns f) (sorted date_key Z.ltb false (rows f)).

(** [days_since_last <= 1]; the comparison with a missing gap is false. *)
Definition within_a_day (gap : option Z) : bool :=
  match gap with Some d => d <=? 1 | None => false end.

Definition detect_unusual_frequency_patterns (account_id : string)
    : M (list Alert) :=
  f <- df ;;
  if negb (has_column "date" f) then ret [] else
  assign_parsed_date ;;
  f <- df ;;
  let df_sorted := sort_values_date f in
  col <- lift (getitem "date" tx_date df_sorted) ;;
  stamps <- lift (dt col) ;;
  let days_since_last := map (option_map days) (diff stamps) in
  let recent_activity :=
    mask_rows (map within_a_day days_since_last) df_sorted in
  f <- df ;;
  if int_gt (len (rows recent_activity)) (inject_Z (len (rows f)) * 0.4) then
    let evidence :=
      [ str (len (rows recent_activity)) ++
          " transactions occurred within 1 day of another transaction";
        "Indicates potential burst activity pattern" ] in
    t <- now ;;
    ret [ mkAlert account_id "Burst Transaction Pattern" MEDIUM 65
            "Unusual concentration of transactions in short time periods"
            evidence t 0 ]
  else ret [].

(** *** [detect_end_of_period_activities] *)

(** The check for clustering in the last days of a month. *)
Definition month_end_check (account_id : string) : M (list Alert) :=
  day_of_month <- df_getitem "day_of_month" tx_day_of_month ;;
  f <- df ;;
  let end_of_month := mask_rows (map (fun d => 28 <=? d) day_of_month) f in
  if int_gt (len (rows end_of_month)) (inject_Z (len (rows f)) * 0.25)
  then
    percentage <- py_div (len (rows end_of_month)) (len (rows f)) ;;
    let evidence :=
      [ str (len (rows end_of_month)) ++
          " transactions occur in last 3 days of month";
        "End-of-month transaction percentage: " ++
          format_float rt ".2%" (Finite percentage) ] in
    t <- now ;;
    involved <- lift (getitem "amount" tx_amount end_of_month) ;;
    ret [ mkAlert account_id "End-of-Period Clustering" MEDIUM 70
            "Unusual concentration of transactions at month-end"
            evidence t (inject_Z (sum involved)) ]
  else ret [].

(** The check for year-end and quarter-end patterns. *)
Definition quarter_end_check (account_id : string) : M (list Alert) :=
  month <- df_getitem "month" tx_month ;;
  f <- df ;;
  let quarter_ends :=
    mask_rows (map (fun m => existsb (Z.eqb m) [3; 6; 9; 12]) month) f in
  if int_gt (len (rows quarter_ends)) (inject_Z (len (rows f)) * 0.4)
  then
    let evidence :=
      [ "High concentration of transactions at quarter-ends: " ++
          str (len (rows quarter_ends)) ++ " transactions" ] in
    t <- now ;;
    ret [ mkAlert account_id "Quarter-End Pattern" MEDIUM 65
            "Unusual pattern of quarter-end transactions"
            evidence t 0 ]
  else ret [].

Definition detect_end_of_period_activities (account_id : string)
    : M (list Alert) :=
  f <- df ;;
  if negb (has_column "date" f) then ret [] else
  assign_parsed_date ;;
  col <- df_getitem "date" tx_date ;;
  stamps <- lift (dt col) ;;
  update (setitem "day_of_month" store_day_of_month (map day_of stamps)) ;;
  col <- df_getitem "date" tx_date ;;
  stamps <- lift (dt col) ;;
  update (setitem "month" store_month (map month_of stamps)) ;;
  month_end_alerts <- month_end_check account_id ;;
  quarter_alerts <- quarter_end_check account_id ;;
  ret (month_end_alerts ++ quarter_alerts)%list.

(** *** [detect_unusual_counterparties] *)

Definition is_name (k : string) (cell : option string) : bool :=
  match cell with Some c => String.eqb c k | None => false end.

(** The sums of [amounts] per name that is not missing, in ascending
    order of the names. *)
Definition group_sums (names : list (option string)) (amounts : list Z)
    : list (string * Z) :=
  map (fun k => (k, sum (mask_list (map (is_name k) names) amounts)))
      (sorted (fun k => k) String.ltb false
              (unique String.eqb (dropna names))).

(** [f.groupby('counterparty')['amount'].sum()] *)
Definition groupby_counterparty_amount (f : DataFrame)
    : exn + list (string * Z) :=
  match getitem "counterparty" tx_counterparty f with
  | inl e => inl e
  | inr names =>
      match getitem "amount" tx_amount f with
      | inl e => inl e
      | inr amounts => inr (group_sums names amounts)
      end
  end.

(** [s.sort_values(ascending=False)]; pandas leaves the order among equal
    totals open, here the earlier entry stays first. *)
Definition sort_values_descending (s : list (string * Z))
    : list (string * Z) :=
  sorted snd Z.ltb true s.

Definition detect_unusual_counterparties (account_id : string)
    : M (list Alert) :=
  f <- df ;;
  if negb (has_column "counterparty" f) then ret [] else
  names <- df_getitem "counterparty" tx_counterparty ;;
  let counterparty_counts := value_counts names in
  f <- df ;;
  grouped <- lift (groupby_counterparty_amount f) ;;
  let total_amount_by_counterparty := sort_values_descending grouped in
  if 0 <? len counterparty_counts then
    top <- iloc0 total_amount_by_counterparty ;;
    amounts <- df_getitem "amount" tx_amount ;;
    let top_counterparty_share := np_div (snd top) (sum amounts) in
    if np_gt top_counterparty_share 0.5 then
      top_name <- iloc0 total_amount_by_counterparty ;;
      let evidence :=
        [ "Top counterparty accounts for " ++
            format_float rt ".2%" top_counterparty_share ++
            " of total transaction volume";
          "Counterparty: " ++ fst top_name ] in
      t <- now ;;
      involved <- iloc0 total_amount_by_counterparty ;;
      ret [ mkAlert account_id "Counterparty Concentration" HIGH 80
              "High concentration of transactions with single counterparty"
              evidence t (inject_Z (snd involved)) ]
    else ret []
  else ret [].

(** *** [detect_cash_intensive_patterns] *)

(** [str.contains('cash|atm|withdrawal', case=False, na=False)] *)
Definition is_cash (cell : option string) : bool :=
  match cell with
  | Some s =>
      match search ["cash"; "atm"; "withdrawal"] (lower s) with
      | Some _ => true
      | None => false
      end
  | None => false
  end.

Definition detect_cash_intensive_patterns (account_id : string)
    : M (list Alert) :=
  f <- df ;;
  if negb (has_column "transaction_type" f) then ret [] else
  types <- df_getitem "transaction_type" tx_transaction_type ;;
  f <- df ;;
  let cash_transactions := mask_rows (map is_cash types) f in
  if 0 <? len (rows cash_transactions) then
    cash_percentage <- py_div (len (rows cash_transactions)) (len (rows f)) ;;
    cash_amounts <- lift (getitem "amount" tx_amount cash_transactions) ;;
    amounts <- df_getitem "amount" tx_amount ;;
    let cash_amount_percentage := np_div (sum cash_amounts) (sum amounts) in
    if Qltb 0.3 cash_percentage || np_gt cash_amount_percentage 0.4 then
      total_cash <- lift (getitem "amount" tx_amount cash_transactions) ;;
      let evidence :=
        [ "Cash transactions: " ++
            format_float rt ".2%" (Finite cash_percentage) ++
            " by count, " ++
            format_float rt ".2%" cash_amount_percentage ++ " by amount";
          "Total cash amount: $" ++
            format_float rt ",.2f" (Finite (inject_Z (sum total_cash))) ] in
      let risk_level :=
        if np_gt cash_amount_percentage 0.6 then HIGH else MEDIUM in
      t <- now ;;
      involved <- lift (getitem "amount" tx_amount cash_transactions) ;;
      ret [ mkAlert account_id "High Cash Activity" risk_level 75
              "Unusually high level of cash transactions"
              evidence t (inject_Z (sum involved)) ]
    else ret []
  else ret [].

(** *** [detect_layering_patterns] *)

(** The table [daily_activity]: one row per calendar day, one column per
    transaction type, each cell the sum of the amounts of that day and
    type, 0 where there is none. *)
Record DailyActivity : Type := mkDaily {
  daily_index : list Z;
  daily_columns : list string;
  daily_entries : list (Z * string * Z)
}.

Definition daily_value (a : DailyActivity) (day : Z) (label : string) : Z :=
  sum (map snd
           (filter (fun e => (fst (fst e) =? day) &&
                             String.eqb (snd (fst e)) label)
                   (daily_entries a))).

(** The rows that [groupby] keeps: those whose type is not missing. *)
Fixpoint typed_entries (ds : list Z) (ts : list (option string))
    (amounts : list Z) : list (Z * string * Z) :=
  match ds, ts, amounts with
  | d :: ds', Some t :: ts', a :: amounts' =>
      (d, t, a) :: typed_entries ds' ts' amounts'
  | _ :: ds', None :: ts', _ :: amounts' => typed_entries ds' ts' amounts'
  | _, _, _ => []
  end.

(** The sums of [amounts] per day and type, unstacked with 0 for the
    combinations that do not occur. *)
Definition unstack_sums (ds : list Z) (ts : list (option string))
    (amounts : list Z) : DailyActivity :=
  let entries := typed_entries ds ts amounts in
  mkDaily
    (sorted (fun d => d) Z.ltb false
            (unique Z.eqb (map (fun e => fst (fst e)) entries)))
    (sorted (fun k => k) String.ltb false
            (unique String.eqb (map (fun e => snd (fst e)) entries)))
    entries.

(** [f.groupby([f['date'].dt.date, 'transaction_type'])['amount'].sum()
      .unstack(fill_value=0)] *)
Definition groupby_day_type_amount (f : DataFrame) : exn + DailyActivity :=
  match getitem "date" tx_date f with
  | inl e => inl e
  | inr col =>
      match dt col with
      | inl e => inl e
      | inr stamps =>
          match getitem "transaction_type" tx_transaction_type f with
          | inl e => inl e
          | inr types =>
              match getitem "amount" tx_amount f with
              | inl e => inl e
              | inr amounts =>
                  inr (unstack_sums (map day_number stamps) types amounts)
              end
          end
      end
  end.

Definition detect_layering_patterns (account_id : string)
    : M (list Alert) :=
  f <- df ;;
  if negb (has_column "date" f) || negb (has_column "transaction_type" f)
  then ret [] else
  assign_parsed_date ;;
  f <- df ;;
  daily_activity <- lift (groupby_day_type_amount f) ;;
  if existsb (String.eqb "deposit") (daily_columns daily_activity) &&
     existsb (String.eqb "withdrawal") (daily_columns daily_activity)
  then
    let same_day_activity :=
      filter (fun d => (0 <? daily_value daily_activity d "deposit") &&
                       (0 <? daily_value daily_activity d "withdrawal"))
             (daily_index daily_activity) in
    if int_gt (len same_day_activity)
              (inject_Z (len (daily_index daily_activity)) * 0.3) then
      let evidence :=
        [ str (len same_day_activity) ++
            " days with both deposits and withdrawals";
          "Potential layering pattern detected" ] in
      t <- now ;;
      ret [ mkAlert account_id "Layering Pattern" HIGH 85
              "Rapid deposit and withdrawal patterns suggest potential layering"
              evidence t 0 ]
    else ret []
  else ret [].

(** *** [analyze_account] *)

(** [account_info.get(key, default)] *)
Fixpoint get (account_info : list (string * string)) (key default : string)
    : string :=
  match account_info with
  | [] => default
  | (k, v) :: rest => if String.eqb k key then v else get rest key default
  end.

Definition analyze_account (account_info : list (string * string))
    : M (list Alert) :=
  let alerts := [] in
  let account_id := get account_info "account_id" "unknown" in
  found <- detect_round_number_patterns account_id ;;
  let alerts := (alerts ++ found)%list in
  found <- detect_suspicious_descriptions account_id ;;
  let alerts := (alerts ++ found)%list in
  found <- detect_unusual_frequency_patterns account_id ;;
  let alerts := (alerts ++ found)%list in
  found <- detect_threshold_avoidance account_id ;;
  let alerts := (alerts ++ found)%list in
  found <- detect_end_of_period_activities account_id ;;
  let alerts := (alerts ++ found)%list in
  found <- detect_unusual_counterparties account_id ;;
  let alerts := (alerts ++ found)%list in
  found <- detect_cash_intensive_patterns account_id ;;
  let alerts := (alerts ++ found)%list in
  found <- detect_layering_patterns account_id ;;
  let alerts := (alerts ++ found)%list in
  ret (prioritize_alerts alerts).

(** *** [generate_report] *)

Definition nl : string := String (ascii_of_nat 10) "".

(** The bullet character U+2022 in UTF-8. *)
Definition bullet : string :=
  String (ascii_of_nat 226) (String (ascii_of_nat 128)
    (String (ascii_of_nat 162) "")).

(** The dictionary [risk_groups], keyed by risk level. *)
Definition risk_dict : Type := list (RiskLevel * list Alert).

Fixpoint lookup (d : risk_dict) (k : RiskLevel) : option (list Alert) :=
  match d with
  | [] => None
  | (k', v) :: d' => if RiskLevel_eqb k' k then Some v else lookup d' k
  end.

Fixpoint store (d : risk_dict) (k : RiskLevel) (v : list Alert) : risk_dict :=
  match d with
  | [] => [(k, v)]
  | (k', v') :: d' =>
      if RiskLevel_eqb k' k then (k', v) :: d' else (k', v') :: store d' k v
  end.

(** One pass of the grouping loop. *)
Definition group_alert (risk_groups : risk_dict) (alert : Alert) : risk_dict :=
  let risk_groups :=
    match lookup risk_groups (risk_level alert) with
    | None => store risk_groups (risk_level alert) []
    | Some _ => risk_groups
    end in
  match lookup risk_groups (risk_level alert) with
  | Some group => store risk_groups (risk_level alert) (group ++ [alert])
  | None => risk_groups
  end.

(** The text appended for one alert. *)
Definition render_alert (report : string) (alert : Alert) : string :=
  let report := report ++ nl ++ "Alert Type: " ++ alert_type alert ++ nl in
  let report :=
    report ++ "Confidence Score: " ++
    format_float rt ".1f" (Finite (confidence_score alert)) ++ "%" ++ nl in
  let report := report ++ "Description: " ++ description alert ++ nl in
  let report :=
    if Qltb 0 (amount_involved alert) then
      report ++ "Amount Involved: $" ++
      format_float rt ",.2f" (Finite (amount_involved alert)) ++ nl
    else report in
  let report := report ++ "Evidence:" ++ nl in
  let report :=
    fold_left (fun report e => report ++ "  " ++ bullet ++ " " ++ e ++ nl)
              (evidence alert) report in
  report ++ nl.

(** The text appended for one risk level. *)
Definition render_level (risk_groups : risk_dict) (report : string)
    (level : RiskLevel) : string :=
  match lookup risk_groups level with
  | Some group =>
      let report :=
        report ++ nl ++ name level ++ " RISK ALERTS (" ++ str (len group) ++
        ")" ++ nl in
      let report := report ++ repeat_string "-" 30 ++ nl in
      fold_left render_alert group report
  | None => report
  end.

Definition generate_report (alerts : list Alert) (account_id : string)
    : M string :=
  let report := "SLUSH FUND DETECTION REPORT" ++ nl in
  let report := report ++ repeat_string "=" 50 ++ nl in
  let report := report ++ "Account ID: " ++ account_id ++ nl in
  t <- now ;;
  let report := report ++ "Analysis Date: " ++ strftime t ++ nl in
  let report := report ++ "Total Alerts: " ++ str (len alerts) ++ nl ++ nl in
  match alerts with
  | [] => ret (report ++ "No suspicious patterns detected." ++ nl)
  | _ :: _ =>
      let risk_groups := fold_left group_alert alerts [] in
      ret (fold_left (render_level risk_groups)
                     [CRITICAL; HIGH; MEDIUM; LOW] report)
  end.

End SlushFundDetector.


(** ** Vocabulary of the statements *)

(** Orders of a list by the keys of its elements. *)
Definition ascending {A K : Type} (key : A -> K) (lt : K -> K -> bool)
    (a b : A) : Prop := lt (key b) (key a) = false.

Definition descending {A K : Type} (key : A -> K) (lt : K -> K -> bool)
    (a b : A) : Prop := lt (key a) (key b) = false.

(** [a] may stand before [b] in a list ranked by descending risk level and,
    within a level, descending confidence. *)
Definition outranks (a b : Alert) : Prop :=
  value (risk_level b) < value (risk_level a) \/
  (value (risk_level a) = value (risk_level b) /\
   (confidence_score b <= confidence_score a)%Q).

(** Equal risk level and equal confidence score. *)
Definition same_priority (a b : Alert) : bool :=
  RiskLevel_eqb (risk_level a) (risk_level b) &&
  Qeq_bool (confidence_score a) (confidence_score b).

(** An alert of which only the ranking fields and a label matter. *)
Definition ranked (label : string) (r : RiskLevel) (confidence : Q) : Alert :=
  mkAlert "ACC" label r confidence "" [] 0 0.

(** The outcome and the final world of a run. *)
Definition outcome {A : Type} (run : (exn + A) * World) : exn + A := fst run.
Definition world_after {A : Type} (run : (exn + A) * World) : World := snd run.

(** The [amount] column of a table. *)
Definition amounts_of (f : DataFrame) : list Z := map tx_amount (rows f).

(** The fraction of round amounts among all amounts. *)
Definition round_fraction (f : DataFrame) : Q :=
  (inject_Z (len (filter is_round (amounts_of f))) /
   inject_Z (len (rows f)))%Q.

(** [amount] lies in the band below [threshold] that the threshold
    detector inspects. *)
Definition in_band (threshold a : Z) : bool :=
  Qle_bool (inject_Z threshold * 0.9) (inject_Z a) && (a <? threshold).

Definition near_amounts (threshold : Z) (f : DataFrame) : list Z :=
  filter (in_band threshold) (amounts_of f).

(** Risk level, confidence and amount of an alert. *)
Definition alert_fields (a : Alert) : RiskLevel * Q * Q :=
  (risk_level a, confidence_score a, amount_involved a).

(** ** A runtime and tables for the examples *)

(** Nearest integer, ties to the even one. *)
Definition round_half_even (q : Q) : Z :=
  let d := Zpos (Qden q) in
  let below := Qnum q / d in
  let twice := 2 * (Qnum q mod d) in
  if twice <? d then below
  else if d <? twice then below + 1
  else if Z.even below then below else below + 1.

(** A rational in fixed-point notation. *)
Definition fixed (digits : nat) (comma : bool) (q : Q) : string :=
  let scale := 10 ^ Z.of_nat digits in
  let n := round_half_even (q * inject_Z scale) in
  (if n <? 0 then "-" else "") ++
  (if comma then format_int_comma (Z.abs n / scale)
   else str (Z.abs n / scale)) ++
  match digits with
  | O => ""
  | _ => "." ++ zero_pad digits (Z.abs n mod scale)
  end.

(** The four float formats the program uses, on exact rationals. *)
Definition sample_format (spec : string) (x : npfloat) : string :=
  match x with
  | Finite q =>
      if String.eqb spec ".2%" then fixed 2 false (q * 100) ++ "%"
      else if String.eqb spec ",.0f" then fixed 0 true q
      else if String.eqb spec ",.2f" then fixed 2 true q
      else fixed 1 false q
  | PosInf => "inf"
  | NegInf => "-inf"
  | NaN => "nan"
  end.

(** Day number of a proleptic Gregorian date. *)
Definition days_from_civil (y m d : Z) : Z :=
  let y' := if m <=? 2 then y - 1 else y in
  let era := y' / 400 in
  let yoe := y' - era * 400 in
  let doy := (153 * (if 2 <? m then m - 3 else m + 9) + 2) / 5 + d - 1 in
  era * 146097 + (yoe * 365 + yoe / 4 - yoe / 100 + doy) - 719468.

(** Midnight of the given date. *)
Definition midnight (y m d : Z) : Timestamp := days_from_civil y m d * ns_per_day.

(** The value of a string of decimal digits. *)
Fixpoint digits_value (acc : Z) (s : string) : option Z :=
  match s with
  | EmptyString => Some acc
  | String c s' =>
      let n := Z.of_nat (nat_of_ascii c) in
      if (48 <=? n) && (n <=? 57) then digits_value (10 * acc + (n - 48)) s'
      else None
  end.

(** A parser for dates written [YYYY-MM-DD]. *)
Definition parse_iso_date (s : string) : option Timestamp :=
  if (String.length s =? 10)%nat && String.eqb (substring 4 1 s) "-" &&
     String.eqb (substring 7 1 s) "-" then
    match digits_value 0 (substring 0 4 s), digits_value 0 (substring 5 2 s),
          digits_value 0 (substring 8 2 s) with
    | Some y, Some m, Some d =>
        if (1 <=? m) && (m <=? 12) && (1 <=? d) && (d <=? 31)
        then Some (midnight y m d) else None
    | _, _, _ => None
    end
  else None.

(** A clock that starts at 2024-01-01 00:00:00 and advances by one second
    with every reading. *)
Definition ticking_clock (n : nat) : Timestamp :=
  midnight 2024 1 1 + Z.of_nat n * ns_per_second.

Definition sample_runtime : Runtime :=
  mkRuntime ticking_clock parse_iso_date sample_format
            (fun xs => String.concat ", " (unique String.eqb xs)).

(** The same runtime with the clock stopped at [t]. *)
Definition frozen_runtime (t : Timestamp) : Runtime :=
  mkRuntime (fun _ => t) parse_iso_date sample_format
            (fun xs => String.concat ", " (unique String.eqb xs)).

Definition all_columns : list string :=
  ["date"; "amount"; "description"; "counterparty"; "transaction_type"].

(** A row of a table without derived columns. *)
Definition transaction (date : DateCell) (amount : Z)
    (description counterparty transaction_type : string) : Row :=
  mkRow date amount (Some description) (Some counterparty)
        (Some transaction_type) 0 0.

(** A payment with nothing remarkable but its amount. *)
Definition payment (amount : Z) : Row :=
  transaction (Text "2024-03-15") amount "rent" "landlord" "transfer".

(** Twenty payments, thirteen of them multiples of 100. *)
Definition round_sample : DataFrame :=
  mkFrame all_columns
    (map payment
       [ 100; 200; 300; 400; 500; 600; 700; 800; 900; 1100; 1200; 1300; 1400;
         33; 47; 151; 262; 373; 484; 595 ]).

(** Four payments just below 10000. *)
Definition threshold_sample : DataFrame :=
  mkFrame all_columns (map payment [9100; 9300; 9500; 9700]).

(** ** What the detectors read

    A detector reads of the table the number of rows, the five columns of
    the input contract and, of the [date] column, only the timestamps that
    [pd.to_datetime] makes of it.  [View] collects these readings; a column
    that is absent reads as the [KeyError] its access raises. *)
Record View : Type := mkView {
  size : Z;
  date_values : exn + list Timestamp;
  amount_values : exn + list Z;
  description_values : exn + list (option string);
  counterparty_values : exn + list (option string);
  type_values : exn + list (option string)
}.

Definition view (rt : Runtime) (f : DataFrame) : View :=
  mkView (len (rows f))
    (match getitem "date" tx_date f with
     | inr col => to_datetime rt col
     | inl e => inl e
     end)
    (getitem "amount" tx_amount f)
    (getitem "description" tx_description f)
    (getitem "counterparty" tx_counterparty f)
    (getitem "transaction_type" tx_transaction_type f).

(** Sequencing of results that may be exceptions. *)
Definition and_then {A B : Type} (r : exn + A) (k : A -> exn + B) : exn + B :=
  match r with
  | inr a => k a
  | inl e => inl e
  end.

Notation "'let?' x := r 'in' k" := (and_then r (fun x => k))
  (at level 10, x name, r at level 100, k at level 200, only parsing).

(** Each detector as a function of the view and of the number of clock
    readings taken before it starts. *)
Section Readings.
Variable rt : Runtime.
Variable account : string.

Definition round_number_alerts (v : View) (t : nat) : exn + list Alert :=
  let? amounts := amount_values v in
  let rounds := filter is_round amounts in
  let fraction := (inject_Z (len rounds) / inject_Z (size v))%Q in
  if (10 <? size v) && Qltb 0.6 fraction then
    inr [ mkAlert account "Round Number Pattern"
            (if Qltb fraction 0.8 then MEDIUM else HIGH)
            (py_min (fraction * 100) 95)
            "Unusually high percentage of round-number transactions"
            [ str (len rounds) ++ " out of " ++ str (size v) ++
                " transactions are round numbers";
              "Round number percentage: " ++
                format_float rt ".2%" (Finite fraction) ]
            (wall_clock rt t) (inject_Z (sum rounds)) ]
  else inr [].

Definition vague_alerts (v : View) (descriptions : list (option string))
    (t : nat) : exn + list Alert :=
  let vague := filter is_vague descriptions in
  if int_gt (len vague) (inject_Z (size v) * 0.3) then
    let? amounts := amount_values v in
    inr [ mkAlert account "Vague Transaction Descriptions" MEDIUM 75
            "High frequency of vague or generic transaction descriptions"
            [ "Found " ++ str (len vague) ++
                " transactions with vague descriptions";
              "Common suspicious keywords: " ++
                join_set rt (dropna (map keyword_in vague)) ]
            (wall_clock rt t)
            (inject_Z (sum (mask_list (map is_vague descriptions) amounts))) ]
  else inr [].

Definition repeated_alerts (descriptions : list (option string)) (t : nat)
    : list Alert :=
  let repeated := filter (fun dc => 5 <? snd dc) (value_counts descriptions) in
  if 0 <? len repeated then
    [ mkAlert account "Repeated Transaction Descriptions" MEDIUM 60
        "Multiple transactions with identical descriptions"
        (map (fun dc => "Description '" ++ fst dc ++ "' appears " ++
                        str (snd dc) ++ " times")
             (firstn 5 repeated))
        (wall_clock rt t) 0 ]
  else [].

Definition description_alerts (v : View) (t : nat) : exn + list Alert :=
  match description_values v with
  | inl _ => inr []
  | inr descriptions =>
      let? first := vague_alerts v descriptions t in
      inr (first ++ repeated_alerts descriptions (t + List.length first))%list
  end.

Fixpoint threshold_alerts_over (amounts : list Z) (ts : list Z) (t : nat)
    : list Alert :=
  match ts with
  | [] => []
  | threshold :: ts' =>
      let band := filter (in_band threshold) amounts in
      if 3 <? len band then
        mkAlert account "Threshold Avoidance"
          (if 10000 <=? threshold then HIGH else MEDIUM) 80
          ("Multiple transactions appear to avoid $" ++
           format_int_comma threshold ++ " reporting threshold")
          [ str (len band) ++ " transactions between $" ++
              format_float rt ",.0f" (Finite (inject_Z threshold * 0.9)) ++
              " and $" ++
              format_float rt ",.0f" (Finite (inject_Z threshold));
            "Average amount: $" ++
              format_float rt ",.2f" (np_div (sum band) (len band)) ]
          (wall_clock rt t) (inject_Z (sum band))
        :: threshold_alerts_over amounts ts' (S t)
      else threshold_alerts_over amounts ts' t
  end.

Definition threshold_alerts (v : View) (t : nat) : exn + list Alert :=
  let? amounts := amount_values v in
  inr (threshold_alerts_over amounts thresholds t).
(** The number of transactions that follow their predecessor, in order
    of time, within a day. *)
Definition burst_count (stamps : list Timestamp) : Z :=
  len (filter within_a_day
         (map (option_map days)
              (diff (sorted (fun x => x) Z.ltb false stamps)))).

Definition frequency_alerts (v : View) (t : nat) : exn + list Alert :=
  match date_values v with
  | inl (KeyError _) => inr []
  | inl e => inl e
  | inr stamps =>
      if int_gt (burst_count stamps) (inject_Z (size v) * 0.4) then
        inr [ mkAlert account "Burst Transaction Pattern" MEDIUM 65
                "Unusual concentration of transactions in short time periods"
                [ str (burst_count stamps) ++
                    " transactions occurred within 1 day of another transaction";
                  "Indicates potential burst activity pattern" ]
                (wall_clock rt t) 0 ]
      else inr []
  end.

Definition is_month_end (s : Timestamp) : bool := 28 <=? day_of s.

Definition is_quarter_end (s : Timestamp) : bool :=
  existsb (Z.eqb (month_of s)) [3; 6; 9; 12].

Definition month_end_alerts (v : View) (stamps : list Timestamp) (t : nat)
    : exn + list Alert :=
  let count := len (filter is_month_end stamps) in
  if int_gt count (inject_Z (size v) * 0.25) then
    let? amounts := amount_values v in
    inr [ mkAlert account "End-of-Period Clustering" MEDIUM 70
            "Unusual concentration of transactions at month-end"
            [ str count ++ " transactions occur in last 3 days of month";
              "End-of-month transaction percentage: " ++
                format_float rt ".2%"
                  (Finite (inject_Z count / inject_Z (size v))) ]
            (wall_clock rt t)
            (inject_Z (sum (mask_list (map is_month_end stamps) amounts))) ]
  else inr [].

Definition quarter_end_alerts (v : View) (stamps : list Timestamp) (t : nat)
    : list Alert :=
  let count := len (filter is_quarter_end stamps) in
  if int_gt count (inject_Z (size v) * 0.4) then
    [ mkAlert account "Quarter-End Pattern" MEDIUM 65
        "Unusual pattern of quarter-end transactions"
        [ "High concentration of transactions at quarter-ends: " ++
            str count ++ " transactions" ]
        (wall_clock rt t) 0 ]
  else [].

Definition end_of_period_alerts (v : View) (t : nat) : exn + list Alert :=
  match date_values v with
  | inl (KeyError _) => inr []
  | inl e => inl e
  | inr stamps =>
      let? first := month_end_alerts v stamps t in
      inr (first ++ quarter_end_alerts v stamps (t + List.length first))%list
  end.

Definition counterparty_alerts (v : View) (t : nat) : exn + list Alert :=
  match counterparty_values v with
  | inl _ => inr []
  | inr names =>
      let? amounts := amount_values v in
      let totals := sort_values_descending (group_sums names amounts) in
      if 0 <? len (value_counts names) then
        match totals with
        | [] => inl IndexError
        | top :: _ =>
            let share := np_div (snd top) (sum amounts) in
            if np_gt share 0.5 then
              inr [ mkAlert account "Counterparty Concentration" HIGH 80
                      "High concentration of transactions with single counterparty"
                      [ "Top counterparty accounts for " ++
                          format_float rt ".2%" share ++
                          " of total transaction volume";
                        "Counterparty: " ++ fst top ]
                      (wall_clock rt t) (inject_Z (snd top)) ]
            else inr []
        end
      else inr []
  end.

Definition cash_alerts (v : View) (t : nat) : exn + list Alert :=
  match type_values v with
  | inl _ => inr []
  | inr types =>
      let count := len (filter is_cash types) in
      if 0 <? count then
        let by_count := (inject_Z count / inject_Z (size v))%Q in
        let? amounts := amount_values v in
        let cash := sum (mask_list (map is_cash types) amounts) in
        let by_amount := np_div cash (sum amounts) in
        if Qltb 0.3 by_count || np_gt by_amount 0.4 then
          inr [ mkAlert account "High Cash Activity"
                  (if np_gt by_amount 0.6 then HIGH else MEDIUM) 75
                  "Unusually high level of cash transactions"
                  [ "Cash transactions: " ++
                      format_float rt ".2%" (Finite by_count) ++
                      " by count, " ++
                      format_float rt ".2%" by_amount ++ " by amount";
                    "Total cash amount: $" ++
                      format_float rt ",.2f" (Finite (inject_Z cash)) ]
                  (wall_clock rt t) (inject_Z cash) ]
        else inr []
      else inr []
  end.

(** The days on which both a positive deposit total and a positive
    withdrawal total occur. *)
Definition same_day_activity (a : DailyActivity) : list Z :=
  filter (fun d => (0 <? daily_value a d "deposit") &&
                   (0 <? daily_value a d "withdrawal"))
         (daily_index a).

Definition layering_alerts (v : View) (t : nat) : exn + list Alert :=
  match type_values v with
  | inl _ => inr []
  | inr types =>
      match date_values v with
      | inl (KeyError _) => inr []
      | inl e => inl e
      | inr stamps =>
          let? amounts := amount_values v in
          let daily := unstack_sums (map day_number stamps) types amounts in
          if existsb (String.eqb "deposit") (daily_columns daily) &&
             existsb (String.eqb "withdrawal") (daily_columns daily) &&
             int_gt (len (same_day_activity daily))
                    (inject_Z (len (daily_index daily)) * 0.3)
          then
            inr [ mkAlert account "Layering Pattern" HIGH 85
                    "Rapid deposit and withdrawal patterns suggest potential layering"
                    [ str (len (same_day_activity daily)) ++
                        " days with both deposits and withdrawals";
                      "Potential layering pattern detected" ]
                    (wall_clock rt t) 0 ]
          else inr []
      end
  end.
End Readings.

(** The table after [df['date'] = pd.to_datetime(df['date'])], where that
    statement runs to its end. *)
Definition parsed_frame (rt : Runtime) (f : DataFrame) : DataFrame :=
  match date_values (view rt f) with
  | inr stamps => setitem "date" store_date (map Stamp stamps) f
  | inl _ => f
  end.

(** The table after the three assignments of the end-of-period detector,
    where they run to their end. *)
Definition period_frame (rt : Runtime) (f : DataFrame) : DataFrame :=
  match date_values (view rt f) with
  | inr stamps =>
      setitem "month" store_month (map month_of stamps)
        (setitem "day_of_month" store_day_of_month (map day_of stamps)
           (setitem "date" store_date (map Stamp stamps) f))
  | inl _ => f
  end.

(** The detectors in the order in which [analyze_account] calls them, and
    next to them what each returns as a function of the view. *)
Definition battery (rt : Runtime) (account : string) : list (M (list Alert)) :=
  [ detect_round_number_patterns rt account;
    detect_suspicious_descriptions rt account;
    detect_unusual_frequency_patterns rt account;
    detect_threshold_avoidance rt account;
    detect_end_of_period_activities rt account;
    detect_unusual_counterparties rt account;
    detect_cash_intensive_patterns rt account;
    detect_layering_patterns rt account ].

Definition readings (rt : Runtime) (account : string)
    : list (View -> nat -> exn + list Alert) :=
  [ round_number_alerts rt account;
    description_alerts rt account;
    frequency_alerts rt account;
    threshold_alerts rt account;
    end_of_period_alerts rt account;
    counterparty_alerts rt account;
    cash_alerts rt account;
    layering_alerts rt account ].

(** Detector [d] returns what [g] makes of the view, and leaves a table
    with the same view. *)
Definition reads (rt : Runtime) (d : M (list Alert))
    (g : View -> nat -> exn + list Alert) : Prop :=
  forall w : World,
    exists w',
      d w = (g (view rt (frame w)) (ticks w), w') /\
      view rt (frame w') = view rt (frame w).

(** Detectors called one after the other, each extending [alerts]. *)
Fixpoint run_in_order (ds : list (M (list Alert))) (alerts : list Alert)
    : M (list Alert) :=
  match ds with
  | [] => ret alerts
  | d :: ds' => found <- d ;; run_in_order ds' (alerts ++ found)%list
  end.

(** Six payments with the same description, in a table without the
    [amount] column. *)
Definition no_amount_sample : DataFrame :=
  mkFrame ["date"; "description"; "counterparty"; "transaction_type"]
          (map payment [10; 20; 30; 40; 50; 60]).

(** The table without rows and without columns. *)
Definition empty_frame : DataFrame := mkFrame [] [].

(** The head of every report. *)
Definition report_header (account : string) (t : Timestamp) (total : Z)
    : string :=
  "SLUSH FUND DETECTION REPORT" ++ nl ++ repeat_string "=" 50 ++ nl ++
  "Account ID: " ++ account ++ nl ++
  "Analysis Date: " ++ strftime t ++ nl ++
  "Total Alerts: " ++ str total ++ nl ++ nl.

(** The alerts of the ranking example, with evidence and amounts. *)
Definition sample_alerts : list Alert :=
  [ mkAlert "ACC-12345" "Threshold Avoidance" HIGH 80
      "Multiple transactions appear to avoid $10,000 reporting threshold"
      ["4 transactions between $9,000 and $10,000"; "Average amount: $9,400.00"]
      (midnight 2024 1 1) 37600;
    mkAlert "ACC-12345" "Quarter-End Pattern" MEDIUM 65
      "Unusual pattern of quarter-end transactions"
      ["High concentration of transactions at quarter-ends: 20 transactions"]
      (midnight 2024 1 1) 0 ].

(** The text of a report, empty when the reporter raised. *)
Definition text_of (r : exn + string) : string :=
  match r with inr s => s | inl _ => "" end.

(** Four days with a deposit and a withdrawal each; the types are written
    as [deposit_label] and [withdrawal_label]. *)
Definition in_and_out (deposit_label withdrawal_label : string) : DataFrame :=
  mkFrame all_columns
    (flat_map
       (fun day =>
          [ transaction (Stamp (midnight 2024 5 day)) 700 "invoice" "client"
                        deposit_label;
            transaction (Stamp (midnight 2024 5 day)) 650 "payout" "supplier"
                        withdrawal_label ])
       [2; 3; 6; 7]).

(** The alert is the one the threshold detector writes for [threshold]. *)
Definition avoids (threshold : Z) (a : Alert) : bool :=
  String.eqb (description a)
    ("Multiple transactions appear to avoid $" ++
     format_int_comma threshold ++ " reporting threshold").

(** Twenty payments, twelve of them round: a round fraction of 0.6. *)
Definition round_boundary_sample : DataFrame :=
  mkFrame all_columns
    (map payment
       [ 100; 200; 300; 400; 500; 600; 700; 800; 900; 1100; 1200; 1350;
         33; 47; 151; 262; 373; 484; 595; 611 ]).

(** Three payments in the band below 10000, none in another band. *)
Definition threshold_boundary_sample : DataFrame :=
  mkFrame all_columns (map payment [9100; 9300; 9500; 120; 240]).

(** One counterparty with exactly half of the volume. *)
Definition counterparty_boundary_sample : DataFrame :=
  mkFrame all_columns
    [ transaction (Text "2024-03-15") 5000 "rent" "A" "transfer";
      transaction (Text "2024-04-15") 3000 "rent" "B" "transfer";
      transaction (Text "2024-05-15") 2000 "rent" "C" "transfer" ].

(** Ten payments, three of them with a vague description, none of the
    descriptions more than five times. *)
Definition description_boundary_sample : DataFrame :=
  mkFrame all_columns
    (map (fun d => transaction (Text "2024-03-15") 120 d "landlord" "transfer")
         [ "consulting"; "rent"; "rent"; "misc items"; "rent"; "lease"; "rent";
           "general store"; "rent"; "lease" ]).

(** Five payments, two of them within a day of the one before. *)
Definition frequency_boundary_sample : DataFrame :=
  mkFrame all_columns
    (map (fun d => transaction (Stamp (midnight 2024 1 d)) 120 "rent"
                               "landlord" "transfer")
         [1; 2; 12; 13; 31]).

(** Twenty payments, five of them on the 28th of January and eight in
    March. *)
Definition period_boundary_sample : DataFrame :=
  mkFrame all_columns
    (map (fun md => transaction (Stamp (midnight 2024 (fst md) (snd md))) 120
                                "rent" "landlord" "transfer")
         (repeat (1, 28) 5 ++ repeat (3, 10) 8 ++ repeat (2, 10) 7)%list).

(** Ten payments, three of them in cash with two fifths of the volume. *)
Definition cash_boundary_sample : DataFrame :=
  mkFrame all_columns
    (map (fun ta => transaction (Text "2024-03-15") (snd ta) "rent" "landlord"
                                (fst ta))
         [ ("ATM withdrawal", 400); ("Cash", 400); ("cash deposit", 400);
           ("transfer", 300); ("transfer", 300); ("transfer", 300);
           ("transfer", 300); ("transfer", 200); ("transfer", 200);
           ("transfer", 200) ]).

(** Ten days with a deposit, three of them with a withdrawal too. *)
Definition layering_boundary_sample : DataFrame :=
  mkFrame all_columns
    (map (fun d => transaction (Stamp (midnight 2024 5 d)) 700 "invoice"
                               "client" "deposit")
         [1; 2; 3; 4; 5; 6; 7; 8; 9; 10] ++
     map (fun d => transaction (Stamp (midnight 2024 5 d)) 650 "payout"
                               "supplier" "withdrawal")
         [1; 2; 3])%list.

(** ** The same expressions in binary64

    The expressions of the program in which a literal threshold meets a
    count or a quotient, written with the kernel's binary64 numbers. *)

(** [threshold * 0.9] *)
Definition binary64_band_floor (threshold : float) : float :=
  (threshold * 0.9)%float.

(** [count / total > limit] *)
Definition binary64_fraction_exceeds (count total limit : float) : bool :=
  (limit <? count / total)%float.

(** [count > total * share] *)
Definition binary64_count_exceeds (count total share : float) : bool :=
  (total * share <? count)%float.

(** [min(fraction * 100, 95)] *)
Definition binary64_confidence (count total : float) : float :=
  let scaled := (count / total * 100)%float in
  if (95 <? scaled)%float then 95%float else scaled.

(** ** Further vocabulary *)

(** [pd.to_datetime] accepts the cell. *)
Definition parses (rt : Runtime) (c : DateCell) : bool :=
  match c with
  | Stamp _ => true
  | Text s =>
      match parse_datetime rt s with Some _ => true | None => false end
  end.

(** The first text of a [date] column that [pd.to_datetime] rejects. *)
Fixpoint first_unparsed (rt : Runtime) (col : list DateCell) : option string :=
  match col with
  | [] => None
  | Stamp _ :: col' => first_unparsed rt col'
  | Text s :: col' =>
      match parse_datetime rt s with
      | Some _ => first_unparsed rt col'
      | None => Some s
      end
  end.

(** The table has no [date] column, or one that [pd.to_datetime] accepts. *)
Definition dates_parse (rt : Runtime) (f : DataFrame) : bool :=
  negb (has_column "date" f) || forallb (parses rt) (map tx_date (rows f)).

(** The alert types, in the order in which [analyze_account] can emit
    them. *)
Definition emission_order : list string :=
  [ "Round Number Pattern";
    "Vague Transaction Descriptions"; "Repeated Transaction Descriptions";
    "Burst Transaction Pattern";
    "Threshold Avoidance"; "Threshold Avoidance"; "Threshold Avoidance";
    "Threshold Avoidance";
    "End-of-Period Clustering"; "Quarter-End Pattern";
    "Counterparty Concentration";
    "High Cash Activity";
    "Layering Pattern" ].

(** [l] is [m] with some elements left out. *)
Inductive Subseq {T : Type} : list T -> list T -> Prop :=
| Subseq_nil : Subseq [] []
| Subseq_skip (l m : list T) (y : T) : Subseq l m -> Subseq l (y :: m)
| Subseq_take (l m : list T) (x : T) : Subseq l m -> Subseq (x :: l) (x :: m).

(** What every alert of the engine has in common. *)
Definition well_formed (account : string) (a : Alert) : Prop :=
  account_id a = account /\
  (risk_level a = MEDIUM \/ risk_level a = HIGH) /\
  (60 <= confidence_score a)%Q /\ (confidence_score a <= 95)%Q /\
  In (alert_type a) emission_order /\
  evidence a <> [].

(** The number of alerts of a type. *)
Definition count_type (type : string) (alerts : list Alert) : Z :=
  len (filter (fun a => String.eqb (alert_type a) type) alerts).

(** An alert without its creation time. *)
Definition untimed (a : Alert) : Alert :=
  mkAlert (account_id a) (alert_type a) (risk_level a) (confidence_score a)
          (description a) (evidence a) 0 (amount_involved a).

(** A result without the creation times of its alerts. *)
Definition untimed_result (r : exn + list Alert) : exn + list Alert :=
  match r with
  | inr alerts => inr (map untimed alerts)
  | inl e => inl e
  end.

(** The alerts of a risk level, in the order of the list. *)
Definition of_level (level : RiskLevel) (alerts : list Alert) : list Alert :=
  filter (fun a => RiskLevel_eqb (risk_level a) level) alerts.

(** A list as the value of a dictionary entry that exists only when the
    list is not empty. *)
Definition entry {T : Type} (l : list T) : option (list T) :=
  match l with
  | [] => None
  | _ :: _ => Some l
  end.

(** The text that a report gains for one risk level: nothing when no alert
    has the level, otherwise a heading with the number of alerts and the
    alerts of the level in the order of the list. *)
Definition report_section (rt : Runtime) (alerts : list Alert)
    (report : string) (level : RiskLevel) : string :=
  match of_level level alerts with
  | [] => report
  | a :: group =>
      let report :=
        report ++ nl ++ name level ++ " RISK ALERTS (" ++
        str (len (a :: group)) ++ ")" ++ nl in
      let report := report ++ repeat_string "-" 30 ++ nl in
      fold_left (render_alert rt) (a :: group) report
  end.

(** The number of entries of a list of timestamps that follow their
    predecessor by less than [limit]. *)
Fixpoint close_gaps (limit : Z) (ts : list Timestamp) : Z :=
  match ts with
  | [] => 0
  | a :: rest =>
      match rest with
      | [] => 0
      | b :: _ => (if b - a <? limit then 1 else 0) + close_gaps limit rest
      end
  end.

(** Three payments: the second 47 hours after the first, the third 48
    hours after the second. *)
Definition two_day_gaps_sample : DataFrame :=
  mkFrame all_columns
    (map (fun hours => transaction
                         (Stamp (midnight 2024 1 1 +
                                 hours * 3600 * ns_per_second))
                         120 "rent" "landlord" "transfer")
         [0; 47; 95]).

(** [part / total > num / den] as NumPy decides it for integer sums: a
    positive part of a total of zero is an infinite share, which exceeds
    every threshold; zero of zero is no number and exceeds none. *)
Definition share_exceeds (num den part total : Z) : bool :=
  if total =? 0 then 0 <? part
  else if 0 <? total then num * total <? den * part
  else den * part <? num * total.

(** The sum of the amounts of the rows of one counterparty. *)
Definition volume (names : list (option string)) (amounts : list Z)
    (k : string) : Z :=
  sum (mask_list (map (is_name k) names) amounts).

(** Two payments that cancel each other, the first of them in cash. *)
Definition zero_total_sample : DataFrame :=
  mkFrame all_columns
    [ transaction (Text "2024-03-15") 500 "rent" "tenant" "cash deposit";
      transaction (Text "2024-03-16") (-500) "refund" "landlord" "transfer" ].

(** ** The sample data ([create_sample_data])

    The function builds five columns from fixed lists and from draws of
    NumPy's global random generator and hands them to the [DataFrame]
    constructor.  Its amounts are floats, so its columns are kept as lists
    of cells of their own. *)

(** A value of a column handed to the [DataFrame] constructor. *)
Inductive Cell : Type :=
| DateValue (t : Timestamp)
| Number (x : Q)
| Word (s : string).

(** [xs * n] for a list [xs]. *)
Fixpoint repeat_list {T : Type} (xs : list T) (n : nat) : list T :=
  match n with
  | O => []
  | S n' => xs ++ repeat_list xs n'
  end.

(** [pd.date_range(start, end, freq='D')] for two midnights: the midnights
    from [start] to [stop], both included. *)
Definition date_range (start stop : Timestamp) : list Timestamp :=
  if stop <? start then []
  else map (fun d => start + Z.of_nat d * ns_per_day)
           (seq 0 (S (Z.to_nat ((stop - start) / ns_per_day)))).

(** [np.random]: the state of the global generator and the three draws
    that the function makes, each returning the state it leaves. *)
Record NumpyRandom : Type := mkNumpyRandom {
  generator : Type;
  (** [np.random.seed(n)] *)
  seed : Z -> generator;
  (** [np.random.choice(a, size=n)] *)
  choice : list Cell -> nat -> generator -> list Cell * generator;
  (** [np.random.normal(loc, scale, n).tolist()] *)
  normal : Q -> Q -> nat -> generator -> list Q * generator;
  (** [np.random.shuffle(xs)], which reorders the list [xs] in place *)
  shuffle : list Cell -> generator -> list Cell * generator
}.

(** What NumPy documents of the three draws: [choice] from a sequence that
    is not empty and [normal] return as many values as asked for, and
    [shuffle] permutes. *)
Definition numpy_contract (r : NumpyRandom) : Prop :=
  (forall a n g, a <> [] -> List.length (fst (choice r a n g)) = n) /\
  (forall loc scale n g, List.length (fst (normal r loc scale n g)) = n) /\
  (forall xs g, Permutation xs (fst (shuffle r xs g))).

(** [abs(x)] for a number. *)
Definition cell_abs (c : Cell) : Cell :=
  match c with
  | Number x => Number (if Qltb x 0 then (- x)%Q else x)
  | _ => c
  end.

(** [pd.DataFrame(data)] for a dictionary of lists: the columns must all
    have the same length. *)
Definition DataFrame_from_dict (data : list (string * list Cell))
    : exn + list (string * list Cell) :=
  match data with
  | [] => inr data
  | (_, first) :: rest =>
      if forallb (fun c => Nat.eqb (List.length (snd c)) (List.length first))
                 rest
      then inr data
      else inl (ValueError "All arrays must be of the same length")
  end.

(** The dictionary that [create_sample_data] hands to the constructor. *)
Definition sample_columns (r : NumpyRandom) : list (string * list Cell) :=
  let g := seed r 42 in
  let dates := date_range (midnight 2024 1 1) (midnight 2024 12 31) in
  let (sample_dates, g) := choice r (map DateValue dates) 200 g in
  let suspicious_amounts :=
    repeat_list [Number 9999; Number 4999; Number 2999] 10 in
  let (normal_amounts, g) := normal r 2500 1000 170 g in
  let round_amounts :=
    repeat_list [Number 5000; Number 10000; Number 15000] 10 in
  let all_amounts :=
    ((suspicious_amounts ++ map Number normal_amounts) ++
     round_amounts)%list in
  let (all_amounts, g) := shuffle r all_amounts g in
  let descriptions :=
    (repeat_list [ Word "Consulting services"; Word "Miscellaneous expenses";
                   Word "General services" ] 30 ++
     repeat_list [ Word "Equipment purchase"; Word "Office supplies";
                   Word "Travel expenses" ] 70)%list in
  let (descriptions, g) := shuffle r descriptions g in
  let counterparties :=
    (repeat_list [Word "ABC Consulting LLC"] 50 ++
     repeat_list [ Word "XYZ Services"; Word "Quick Solutions Inc";
                   Word "Business Partners" ] 50)%list in
  let (counterparties, g) := shuffle r counterparties g in
  let transaction_types :=
    repeat_list [Word "deposit"; Word "withdrawal"] 100 in
  let (transaction_types, g) := shuffle r transaction_types g in
  [ ("date", sample_dates);
    ("amount", map cell_abs all_amounts);
    ("description", descriptions);
    ("counterparty", counterparties);
    ("transaction_type", transaction_types) ].

(** [create_sample_data] *)
Definition create_sample_data (r : NumpyRandom)
    : exn + list (string * list Cell) :=
  DataFrame_from_dict (sample_columns r).

(** A generator that always draws the first value, the mean, and the
    identical permutation. *)
Definition constant_random : NumpyRandom :=
  mkNumpyRandom unit (fun _ => tt)
    (fun a n g => (repeat (hd (Number 0) a) n, g))
    (fun loc _ n g => (repeat loc n, g))
    (fun xs g => (xs, g)).

(** The number of rows whose description is [s]. *)
Definition occurrences (texts : list (option string)) (s : string) : Z :=
  len (filter (String.eqb s) (dropna texts)).

(** The descriptions that more than five rows have, in order of first
    appearance. *)
Definition frequent_descriptions (texts : list (option string))
    : list string :=
  filter (fun s => 5 <? occurrences texts s)
         (unique String.eqb (dropna texts)).

(** The sum of the amounts that the alerts of a list report. *)
Definition total_involved (alerts : list Alert) : Q :=
  fold_right Qplus 0%Q (map amount_involved alerts).

(** The amount lies in the band of a threshold whose band holds more than
    three amounts of the table. *)
Definition counted (f : DataFrame) (a : Z) : bool :=
  existsb (fun t => in_band t a && (3 <? len (near_amounts t f))) thresholds.

(** The timestamp that [pd.to_datetime] makes of the date of a row; 0
    stands for a text that does not parse. *)
Definition stamp_of (rt : Runtime) (r : Row) : Timestamp :=
  match tx_date r with
  | Stamp t => t
  | Text s => match parse_datetime rt s with Some t => t | None => 0 end
  end.

(** An alert without its evidence and its creation time. *)
Definition essence (a : Alert) : Alert :=
  mkAlert (account_id a) (alert_type a) (risk_level a) (confidence_score a)
          (description a) [] 0 (amount_involved a).

(** A result without the evidence and the creation times of its alerts. *)
Definition essence_of (r : exn + list Alert) : exn + list Alert :=
  match r with
  | inr alerts => inr (map essence alerts)
  | inl e => inl e
  end.

(** The rows of [round_sample] from the last to the first. *)
Definition reversed_sample : DataFrame :=
  mkFrame all_columns (rev (rows round_sample)).

(** The calendar day of a row. *)
Definition day_of_row (rt : Runtime) (r : Row) : Z :=
  day_number (stamp_of rt r).

(** The sum of the amounts of the rows of a day that have the type
    [label]. *)
Definition day_total (rt : Runtime) (rs : list Row) (d : Z) (label : string)
    : Z :=
  sum (map tx_amount
           (filter (fun r => (day_of_row rt r =? d) &&
                             is_name label (tx_transaction_type r)) rs)).

(** The days on which the rows of type 'deposit' and the rows of type
    'withdrawal' both have a positive sum. *)
Definition in_and_out_days (rt : Runtime) (rs : list Row) (days : list Z)
    : list Z :=
  filter (fun d => (0 <? day_total rt rs d "deposit") &&
                   (0 <? day_total rt rs d "withdrawal")) days.


(** * Properties *)

(** ** Sorting *)

Section SortedFacts.
Context {A K : Type}.
Variable key : A -> K.
Variable lt : K -> K -> bool.
Hypothesis lt_asym : forall a b, lt a b = true -> lt b a = false.
Hypothesis ge_trans :
  forall a b c, lt a b = false -> lt b c = false -> lt a c = false.

Lemma insert_perm (x : A) (s : list A) :
  Permutation (x :: s) (insert key lt x s).
Proof.
  induction s as [|y s IH]; simpl; [reflexivity|].
  destruct (lt (key y) (key x)); [|reflexivity].
  rewrite perm_swap. now apply perm_skip.
Qed.

Lemma stable_sort_perm (l : list A) : Permutation l (stable_sort key lt l).
Proof.
  induction l as [|x l IH]; simpl; [constructor|].
  rewrite <- insert_perm. now apply perm_skip.
Qed.

Lemma sorted_perm (reverse : bool) (l : list A) :
  Permutation l (sorted key lt reverse l).
Proof.
  unfold sorted. destruct reverse.
  - rewrite <- Permutation_rev, <- stable_sort_perm. apply Permutation_rev.
  - apply stable_sort_perm.
Qed.

Lemma insert_ascending (x : A) (s : list A) :
  StronglySorted (ascending key lt) s -> StronglySorted (ascending key lt) (insert key lt x s).
Proof.
  induction 1 as [|y s Hs IH Hy]; simpl.
  - repeat constructor.
  - destruct (lt (key y) (key x)) eqn:E.
    + constructor; [exact IH|].
      eapply Permutation_Forall; [apply insert_perm|].
      constructor; [|exact Hy]. unfold ascending. now apply lt_asym.
    + constructor; [now constructor|].
      constructor; [exact E|].
      eapply Forall_impl; [|exact Hy].
      intros z Hz. unfold ascending in *. now apply ge_trans with (key y).
Qed.

Lemma stable_sort_ascending (l : list A) :
  StronglySorted (ascending key lt) (stable_sort key lt l).
Proof.
  induction l as [|x l IH]; simpl; [constructor|now apply insert_ascending].
Qed.

Lemma StronglySorted_snoc (R : A -> A -> Prop) (l : list A) (x : A) :
  StronglySorted R l -> Forall (fun y => R y x) l ->
  StronglySorted R (l ++ [x]).
Proof.
  induction 1 as [|y l Hl IH Hy]; simpl; intros Hx.
  - repeat constructor.
  - inversion Hx; subst. constructor; [now apply IH|].
    apply Forall_app. split; [exact Hy|now repeat constructor].
Qed.

Lemma StronglySorted_weaken (R R' : A -> A -> Prop) (l : list A) :
  (forall a b, R a b -> R' a b) -> StronglySorted R l -> StronglySorted R' l.
Proof.
  intros HR. induction 1 as [|y l Hl IH Hy]; constructor; [exact IH|].
  eapply Forall_impl; [|exact Hy]. intros z. apply HR.
Qed.

Lemma StronglySorted_rev (R : A -> A -> Prop) (l : list A) :
  StronglySorted R l -> StronglySorted (fun a b => R b a) (rev l).
Proof.
  induction 1 as [|y l Hl IH Hy]; simpl; [constructor|].
  apply StronglySorted_snoc; [exact IH|].
  apply Forall_rev. exact Hy.
Qed.

Lemma sorted_reverse_descending (l : list A) :
  StronglySorted (descending key lt) (sorted key lt true l).
Proof.
  unfold sorted.
  apply (StronglySorted_rev (ascending key lt)). apply stable_sort_ascending.
Qed.

(** Stability, for a class [same k] of elements whose keys do not differ. *)
Variable same : A -> A -> bool.
Hypothesis same_tied :
  forall k x y, same k x = true -> same k y = true ->
                lt (key y) (key x) = false.

Lemma insert_filter (k x : A) (s : list A) :
  filter (same k) (insert key lt x s) = filter (same k) (x :: s).
Proof.
  induction s as [|y s IH]; simpl; [reflexivity|].
  destruct (lt (key y) (key x)) eqn:E; [|reflexivity].
  simpl. rewrite IH. simpl.
  destruct (same k x) eqn:Ex, (same k y) eqn:Ey; try reflexivity.
  rewrite (same_tied k x y Ex Ey) in E. discriminate.
Qed.

Lemma stable_sort_filter (k : A) (l : list A) :
  filter (same k) (stable_sort key lt l) = filter (same k) l.
Proof.
  induction l as [|x l IH]; simpl; [reflexivity|].
  rewrite insert_filter. simpl. now rewrite IH.
Qed.

Lemma sorted_stable (reverse : bool) (k : A) (l : list A) :
  filter (same k) (sorted key lt reverse l) = filter (same k) l.
Proof.
  unfold sorted. destruct reverse.
  - now rewrite filter_rev, stable_sort_filter, filter_rev, rev_involutive.
  - apply stable_sort_filter.
Qed.
End SortedFacts.

Lemma Qltb_true (a b : Q) : Qltb a b = true <-> (a < b)%Q.
Proof.
  unfold Qltb. rewrite negb_true_iff, <- not_true_iff_false, Qle_bool_iff.
  split; [apply Qnot_le_lt|apply Qlt_not_le].
Qed.

Lemma Qltb_false (a b : Q) : Qltb a b = false <-> (b <= a)%Q.
Proof.
  unfold Qltb. now rewrite negb_false_iff, Qle_bool_iff.
Qed.

Lemma tuple_lt_false (a b : Z * Q) :
  tuple_lt a b = false <->
  fst b < fst a \/ (fst a = fst b /\ (snd b <= snd a)%Q).
Proof.
  unfold tuple_lt. destruct (Z.eqb_spec (fst a) (fst b)) as [E|E].
  - rewrite Qltb_false. split; [now right|]. intros [H|[_ H]]; [lia|exact H].
  - rewrite Z.ltb_ge. split; [intros; left; lia|]. intros [H|[H _]]; lia.
Qed.

Lemma tuple_lt_asym (a b : Z * Q) : tuple_lt a b = true -> tuple_lt b a = false.
Proof.
  intros H. apply tuple_lt_false.
  unfold tuple_lt in H. destruct (Z.eqb_spec (fst a) (fst b)) as [E|E].
  - right. split; [now symmetry|]. apply Qltb_true in H. now apply Qlt_le_weak.
  - apply Z.ltb_lt in H. now left.
Qed.

Lemma tuple_ge_trans (a b c : Z * Q) :
  tuple_lt a b = false -> tuple_lt b c = false -> tuple_lt a c = false.
Proof.
  rewrite !tuple_lt_false.
  intros [H1|[H1 H1']] [H2|[H2 H2']]; try (left; lia).
  right. split; [lia|]. now apply Qle_trans with (snd b).
Qed.

Lemma same_priority_tied (k x y : Alert) :
  same_priority k x = true -> same_priority k y = true ->
  tuple_lt (priority_key y) (priority_key x) = false.
Proof.
  unfold same_priority, RiskLevel_eqb.
  rewrite !andb_true_iff, !Z.eqb_eq, !Qeq_bool_iff.
  intros [Hx Hx'] [Hy Hy']. apply tuple_lt_false. simpl. right.
  split; [lia|]. rewrite <- Hx', <- Hy'. apply Qle_refl.
Qed.

(** C1. [prioritize_alerts] returns a permutation of its input, ranked by
    descending risk level (LOW=1 < MEDIUM=2 < HIGH=3 < CRITICAL=4) and within
    a level by descending confidence; alerts of equal risk level and equal
    confidence keep the relative order they had in the input; and
    [MEDIUM/70, HIGH/60, HIGH/60, LOW/90] becomes
    [HIGH/60, HIGH/60, MEDIUM/70, LOW/90], the two HIGH/60 alerts in their
    original order. *)
Theorem prioritize_alerts_stable_descending :
  (value LOW = 1 /\ value MEDIUM = 2 /\ value HIGH = 3 /\ value CRITICAL = 4) /\
  (forall alerts : list Alert,
      Permutation alerts (prioritize_alerts alerts) /\
      StronglySorted outranks (prioritize_alerts alerts) /\
      forall a : Alert,
        filter (same_priority a) (prioritize_alerts alerts) =
        filter (same_priority a) alerts) /\
  prioritize_alerts
    [ ranked "m" MEDIUM 70; ranked "h1" HIGH 60; ranked "h2" HIGH 60;
      ranked "l" LOW 90 ] =
    [ ranked "h1" HIGH 60; ranked "h2" HIGH 60; ranked "m" MEDIUM 70;
      ranked "l" LOW 90 ].
Proof.
  split; [now repeat split|]. split; [|reflexivity].
  intros alerts. unfold prioritize_alerts. split; [apply sorted_perm|]. split.
  - eapply StronglySorted_weaken.
    2: { apply (sorted_reverse_descending priority_key tuple_lt).
         - exact tuple_lt_asym.
         - exact tuple_ge_trans. }
    intros a b H. apply tuple_lt_false in H. exact H.
  - intros a. apply sorted_stable. exact same_priority_tied.
Qed.

(** ** Running the primitives *)

Lemma mask_list_map {T U : Type} (field : T -> U) (p : U -> bool)
    (xs : list T) :
  mask_list (map p (map field xs)) xs = filter (fun x => p (field x)) xs.
Proof.
  induction xs as [|x xs IH]; simpl; [reflexivity|].
  rewrite IH. reflexivity.
Qed.

Lemma filter_map_swap {T U : Type} (field : T -> U) (p : U -> bool)
    (xs : list T) :
  map field (filter (fun x => p (field x)) xs) = filter p (map field xs).
Proof.
  induction xs as [|x xs IH]; simpl; [reflexivity|].
  destruct (p (field x)); simpl; now rewrite IH.
Qed.

Lemma has_column_mask_rows (label : string) (mask : list bool)
    (f : DataFrame) :
  has_column label (mask_rows mask f) = has_column label f.
Proof. reflexivity. Qed.

Lemma len_nonneg {T : Type} (xs : list T) : 0 <= len xs.
Proof. unfold len. lia. Qed.

Lemma len_filter_le {T : Type} (p : T -> bool) (xs : list T) :
  len (filter p xs) <= len xs.
Proof. unfold len. pose proof (filter_length_le p xs). lia. Qed.

Lemma len_map {T U : Type} (g : T -> U) (xs : list T) : len (map g xs) = len xs.
Proof. unfold len. now rewrite length_map. Qed.

Lemma py_min_Qmin (a b : Q) : (py_min a b == Qmin a b)%Q.
Proof.
  unfold py_min. destruct (Qltb b a) eqn:E.
  - apply Qltb_true in E. symmetry. apply Q.min_r. now apply Qlt_le_weak.
  - apply Qltb_false in E. symmetry. now apply Q.min_l.
Qed.

Lemma is_round_divide (x : Z) : is_round x = true <-> (100 | x) \/ (50 | x).
Proof.
  unfold is_round. rewrite orb_true_iff, !Z.eqb_eq.
  now rewrite !Z.mod_divide by discriminate.
Qed.

(** ** The round-number detector *)

Lemma detect_round_number_patterns_run (rt : Runtime) (account : string)
    (w : World) :
  has_column "amount" (frame w) = true ->
  let f := frame w in
  let rounds := filter is_round (amounts_of f) in
  detect_round_number_patterns rt account w =
  if (10 <? len (rows f)) && Qltb 0.6 (round_fraction f) then
    (inr [ mkAlert account "Round Number Pattern"
             (if Qltb (round_fraction f) 0.8 then MEDIUM else HIGH)
             (py_min (round_fraction f * 100) 95)
             "Unusually high percentage of round-number transactions"
             [ str (len rounds) ++ " out of " ++ str (len (rows f)) ++
                 " transactions are round numbers";
               "Round number percentage: " ++
                 format_float rt ".2%" (Finite (round_fraction f)) ]
             (wall_clock rt (ticks w)) (inject_Z (sum rounds)) ],
     mkWorld f (S (ticks w)))
  else (inr [], w).
Proof.
  intros H f rounds.
  unfold detect_round_number_patterns, df_getitem, bind, df, lift, getitem.
  rewrite H. cbn [mask_rows rows columns has_column].
  rewrite mask_list_map.
  assert (Hl : len (filter (fun x => is_round (tx_amount x)) (rows (frame w)))
               = len rounds).
  { unfold rounds, amounts_of. rewrite <- filter_map_swap. now rewrite len_map. }
  assert (Hs : map tx_amount
                 (filter (fun x => is_round (tx_amount x)) (rows (frame w)))
               = rounds).
  { unfold rounds, amounts_of. now rewrite filter_map_swap. }
  fold f. destruct (10 <? len (rows f)) eqn:En; [|reflexivity].
  cbn [andb]. unfold py_div.
  destruct (len (rows f) =? 0) eqn:E0.
  { apply Z.eqb_eq in E0. apply Z.ltb_lt in En. lia. }
  unfold ret, now. cbn [fst snd].
  unfold f in *. rewrite Hl. fold f. fold rounds.
  change (inject_Z (len rounds) / inject_Z (len (rows f)))%Q
    with (round_fraction f).
  destruct (Qltb 0.6 (round_fraction f)); [|reflexivity].
  cbn [frame ticks]. rewrite has_column_mask_rows. unfold f.
  rewrite H, Hs. reflexivity.
Qed.



(** ** The threshold band *)

Lemma in_band_iff (t a : Z) : in_band t a = true <-> 9 * t <= 10 * a /\ a < t.
Proof.
  unfold in_band. rewrite andb_true_iff, Qle_bool_iff, Z.ltb_lt.
  unfold Qle, Qmult, inject_Z. cbn [Qnum Qden].
  change (Z.pos (1 * 10)) with 10. lia.
Qed.

Lemma mask_and_map {T : Type} (p q : T -> bool) (xs : list T) :
  mask_and (map p xs) (map q xs) = map (fun x => p x && q x) xs.
Proof.
  unfold mask_and. induction xs as [|x xs IH]; cbn; [reflexivity|].
  now rewrite IH.
Qed.

Lemma rows_mask_rows (mask : list bool) (f : DataFrame) :
  rows (mask_rows mask f) = mask_list mask (rows f).
Proof. reflexivity. Qed.

Lemma near_threshold_rows (t : Z) (rs : list Row) :
  mask_list
    (mask_and
       (map (fun a => Qle_bool (inject_Z t * 0.9) (inject_Z a))
            (map tx_amount rs))
       (map (fun a => a <? t) (map tx_amount rs))) rs =
  filter (fun r => in_band t (tx_amount r)) rs.
Proof. rewrite mask_and_map. now rewrite mask_list_map. Qed.

(** ** The detectors as functions of what they read *)

Lemma map_mask_list {T U : Type} (field : T -> U) (mask : list bool)
    (xs : list T) :
  map field (mask_list mask xs) = mask_list mask (map field xs).
Proof.
  revert xs. induction mask as [|b mask IH]; intros [|x xs]; cbn;
    try reflexivity.
  destruct b; cbn; now rewrite IH.
Qed.

Lemma mask_list_self {T : Type} (p : T -> bool) (xs : list T) :
  mask_list (map p xs) xs = filter p xs.
Proof.
  induction xs as [|x xs IH]; cbn; [reflexivity|]. now rewrite IH.
Qed.

Lemma len_mask_list_map {T U : Type} (field : T -> U) (mask : list bool)
    (xs : list T) :
  len (mask_list mask xs) = len (mask_list mask (map field xs)).
Proof. now rewrite <- map_mask_list, len_map. Qed.

Lemma amount_values_missing (rt : Runtime) (f : DataFrame) :
  has_column "amount" f = false ->
  amount_values (view rt f) = inl (KeyError "amount").
Proof. intros H. unfold view, getitem. cbn [amount_values]. now rewrite H. Qed.

Lemma amount_values_present (rt : Runtime) (f : DataFrame) :
  has_column "amount" f = true ->
  amount_values (view rt f) = inr (amounts_of f).
Proof. intros H. unfold view, getitem. cbn [amount_values]. now rewrite H. Qed.

Lemma detect_round_number_patterns_reads (rt : Runtime) (account : string)
    (w : World) :
  exists w',
    detect_round_number_patterns rt account w =
      (round_number_alerts rt account (view rt (frame w)) (ticks w), w') /\
    frame w' = frame w.
Proof.
  destruct (has_column "amount" (frame w)) eqn:H.
  - rewrite (detect_round_number_patterns_run rt account w H).
    unfold round_number_alerts, view, getitem. cbn [amount_values size].
    rewrite H. cbn [and_then].
    change (map tx_amount (rows (frame w))) with (amounts_of (frame w)).
    change (inject_Z (len (filter is_round (amounts_of (frame w)))) /
            inject_Z (len (rows (frame w))))%Q with (round_fraction (frame w)).
    destruct (10 <? len (rows (frame w))); cbn [andb];
      [destruct (Qltb 0.6 (round_fraction (frame w)))|];
      eexists; split; reflexivity.
  - exists w. split; [|reflexivity].
    unfold detect_round_number_patterns, df_getitem, bind, df, lift, getitem.
    unfold round_number_alerts, view, getitem. cbn [amount_values].
    now rewrite H.
Qed.

Lemma has_column_setitem {T : Type} (l label : string)
    (store : T -> Row -> Row) (values : list T) (f : DataFrame) :
  has_column l (setitem label store values f) =
  has_column l f || String.eqb l label.
Proof.
  unfold setitem, has_column at 1. cbn [columns].
  destruct (has_column label f) eqn:E.
  - fold (has_column l f). destruct (String.eqb_spec l label) as [->|_].
    + rewrite E. reflexivity.
    + now rewrite orb_false_r.
  - rewrite existsb_app. cbn. now rewrite orb_false_r.
Qed.

Ltac unfold_run :=
  cbv beta iota zeta
      delta [bind df_getitem df lift ret raise now update getitem py_div iloc0
             assign_parsed_date].

Ltac rewrite_columns :=
  repeat match goal with
         | H : has_column _ _ = _ |- _ => rewrite H
         end.

Ltac decide_labels :=
  repeat match goal with
         | |- context [String.eqb ?a ?b] =>
             let r := eval vm_compute in (String.eqb a b) in
             match r with
             | true => change (String.eqb a b) with true
             | false => change (String.eqb a b) with false
             end
         end.

Ltac step1 :=
  cbv beta iota zeta; cbn [frame ticks fst snd and_then negb orb];
  rewrite ?has_column_mask_rows, ?rows_mask_rows, ?has_column_setitem;
  rewrite_columns; decide_labels; cbn [orb];
  rewrite ?orb_false_r, ?orb_true_r; cbv beta iota zeta.

Ltac step := repeat (progress step1).

Lemma detect_suspicious_descriptions_reads (rt : Runtime) (account : string)
    (w : World) :
  exists w',
    detect_suspicious_descriptions rt account w =
      (description_alerts rt account (view rt (frame w)) (ticks w), w') /\
    frame w' = frame w.
Proof.
  unfold description_alerts, vague_alerts, repeated_alerts, view.
  cbn [description_values amount_values size].
  unfold detect_suspicious_descriptions. unfold_run.
  destruct (has_column "description" (frame w)) eqn:Hd; cbn [negb];
    [|exists w; split; reflexivity].
  step.
  rewrite (len_mask_list_map tx_description), mask_list_self.
  set (vague := filter is_vague (map tx_description (rows (frame w)))).
  destruct (int_gt (len vague) (inject_Z (len (rows (frame w))) * 0.3)).
  - step. rewrite (map_mask_list tx_description), (map_mask_list tx_amount).
    rewrite ?mask_list_self. fold vague.
    destruct (has_column "amount" (frame w)) eqn:Ha; step.
    + cbn [List.length].
      replace (ticks w + 1)%nat with (S (ticks w)) by lia.
      destruct (0 <? len _); step; eexists; split; reflexivity.
    + eexists; split; reflexivity.
  - step. cbn [List.length].
    replace (ticks w + 0)%nat with (ticks w) by lia.
    destruct (0 <? len _); step; eexists; split; reflexivity.
Qed.

Lemma threshold_body_reads (rt : Runtime) (account : string) (t : Z)
    (alerts : list Alert) (w : World) :
  has_column "amount" (frame w) = true ->
  let found :=
    threshold_alerts_over rt account (amounts_of (frame w)) [t] (ticks w) in
  exists w',
    threshold_body rt account t alerts w = (inr (alerts ++ found)%list, w') /\
    frame w' = frame w /\ ticks w' = (ticks w + List.length found)%nat.
Proof.
  intros H.
  assert (Hs : map tx_amount
                 (filter (fun x => in_band t (tx_amount x)) (rows (frame w)))
               = filter (in_band t) (amounts_of (frame w))).
  { unfold amounts_of. now rewrite filter_map_swap. }
  unfold threshold_body. unfold_run. step.
  rewrite !near_threshold_rows. cbn [threshold_alerts_over].
  rewrite <- Hs, len_map.
  destruct (3 <? len _) eqn:E.
  - step. eexists. split; [reflexivity|]. split; [reflexivity|].
    cbn [ticks List.length]. lia.
  - exists w. rewrite app_nil_r. cbn [List.length]. repeat split. lia.
Qed.

Lemma threshold_alerts_over_cons (rt : Runtime) (account : string)
    (amounts : list Z) (t : Z) (ts : list Z) (k : nat) :
  threshold_alerts_over rt account amounts (t :: ts) k =
  (threshold_alerts_over rt account amounts [t] k ++
   threshold_alerts_over rt account amounts ts
     (k + List.length (threshold_alerts_over rt account amounts [t] k)))%list.
Proof.
  cbn [threshold_alerts_over]. destruct (3 <? len _); cbn [List.length app].
  - now replace (k + 1)%nat with (S k) by lia.
  - now replace (k + 0)%nat with k by lia.
Qed.

Lemma for_each_threshold_reads (rt : Runtime) (account : string)
    (ts : list Z) :
  forall (alerts : list Alert) (w : World),
    has_column "amount" (frame w) = true ->
    exists w',
      for_each ts (threshold_body rt account) alerts w =
        (inr (alerts ++
              threshold_alerts_over rt account (amounts_of (frame w)) ts
                                    (ticks w))%list, w') /\
      frame w' = frame w.
Proof.
  induction ts as [|t ts IH]; intros alerts w H.
  - exists w. cbn. unfold ret. rewrite app_nil_r. now split.
  - destruct (threshold_body_reads rt account t alerts w H)
      as (w1 & R1 & F1 & T1).
    assert (H1 : has_column "amount" (frame w1) = true) by now rewrite F1.
    destruct (IH (alerts ++
                  threshold_alerts_over rt account (amounts_of (frame w)) [t]
                                        (ticks w))%list w1 H1)
      as (w2 & R2 & F2).
    exists w2. split; [|now rewrite F2].
    cbn [for_each]. unfold bind at 1. rewrite R1, R2.
    rewrite (threshold_alerts_over_cons rt account _ t ts), F1, T1.
    now rewrite <- app_assoc.
Qed.

Lemma detect_threshold_avoidance_reads (rt : Runtime) (account : string)
    (w : World) :
  exists w',
    detect_threshold_avoidance rt account w =
      (threshold_alerts rt account (view rt (frame w)) (ticks w), w') /\
    frame w' = frame w.
Proof.
  unfold detect_threshold_avoidance, threshold_alerts, view, getitem.
  cbn [amount_values].
  destruct (has_column "amount" (frame w)) eqn:H; cbn [and_then].
  - destruct (for_each_threshold_reads rt account thresholds [] w H)
      as (w' & R & F).
    exists w'. split; [exact R|exact F].
  - exists w. split; [|reflexivity].
    cbn [thresholds for_each]. unfold threshold_body. unfold_run. now step.
Qed.

Lemma threshold_alerts_over_fields (rt : Runtime) (account : string)
    (amounts : list Z) (ts : list Z) :
  forall k,
    map alert_fields (threshold_alerts_over rt account amounts ts k) =
    map (fun t => (if 10000 <=? t then HIGH else MEDIUM, 80%Q,
                   inject_Z (sum (filter (in_band t) amounts))))
        (filter (fun t => 3 <? len (filter (in_band t) amounts)) ts).
Proof.
  induction ts as [|t ts IH]; intros k; cbn [threshold_alerts_over filter map];
    [reflexivity|].
  destruct (3 <? len (filter (in_band t) amounts)); cbn [map];
    now rewrite IH.
Qed.

(** C8. On a table that has the [amount] column the threshold detector
    looks at the thresholds 10000, 5000, 3000 and 1000 one after the other,
    counts for each the amounts in [0.9 t, t), and emits one alert for
    exactly those thresholds with more than 3 such amounts: HIGH from
    10000 upwards and MEDIUM below, confidence 80, amount the sum over the
    band.  The four amounts 9100, 9300, 9500, 9700 yield exactly one alert,
    HIGH, confidence 80, amount 37600. *)
Theorem threshold_avoidance_spec (rt : Runtime) (account : string)
    (w : World) :
  has_column "amount" (frame w) = true ->
  let f := frame w in
  let run := detect_threshold_avoidance rt account w in
  thresholds = [10000; 5000; 3000; 1000] /\
  (forall t a, in_band t a = true <-> 9 * t <= 10 * a /\ a < t) /\
  (exists alerts,
     outcome run = inr alerts /\
     map alert_fields alerts =
       map (fun t => (if 10000 <=? t then HIGH else MEDIUM, 80%Q,
                      inject_Z (sum (near_amounts t f))))
           (filter (fun t => 3 <? len (near_amounts t f)) thresholds)) /\
  (amounts_of f = [9100; 9300; 9500; 9700] ->
   exists a,
     outcome run = inr [a] /\ risk_level a = HIGH /\
     confidence_score a = 80%Q /\ amount_involved a = 37600%Q).
Proof.
  intros H f run.
  destruct (detect_threshold_avoidance_reads rt account w) as (w' & R & _).
  unfold threshold_alerts in R.
  rewrite (amount_values_present rt _ H) in R. cbn [and_then] in R. fold f in R.
  pose proof (threshold_alerts_over_fields rt account (amounts_of f)
                thresholds (ticks w)) as Hm.
  fold (near_amounts 10000 f) in Hm.
  remember (threshold_alerts_over rt account (amounts_of f) thresholds
              (ticks w)) as found eqn:Ef.
  clear Ef.
  assert (Hrun : outcome run = inr found) by (unfold run; now rewrite R).
  split; [reflexivity|]. split; [exact in_band_iff|]. split.
  - exists found. split; [exact Hrun|exact Hm].
  - intros Ha. unfold near_amounts in Hm. rewrite Ha in Hm. cbn in Hm.
    destruct found as [|a [|b found]]; try discriminate.
    exists a. split; [exact Hrun|]. unfold alert_fields in Hm.
    inversion Hm as [[E1 E2 E3]]. repeat split; assumption.
Qed.

(** The threshold detector on [threshold_sample]. *)
Lemma threshold_avoidance_spec_witness :
  exists a,
    outcome (detect_threshold_avoidance sample_runtime "ACC-12345"
               (mkWorld threshold_sample 0)) = inr [a] /\
    risk_level a = HIGH /\ confidence_score a = 80%Q /\
    amount_involved a = 37600%Q.
Proof.
  destruct (threshold_avoidance_spec sample_runtime "ACC-12345"
              (mkWorld threshold_sample 0) eq_refl) as (_ & _ & _ & Hex).
  apply Hex. reflexivity.
Defined.


(** ** The counterparty and cash detectors *)

Lemma group_sums_nonempty (names : list (option string)) (amounts : list Z) :
  (0 <? len (value_counts names)) = true ->
  sort_values_descending (group_sums names amounts) <> [].
Proof.
  intros H Hn.
  assert (Hlen : forall {T K : Type} (key : T -> K) lt r (l : list T),
             List.length (sorted key lt r l) = List.length l).
  { intros T K key lt r l. symmetry. apply Permutation_length.
    apply sorted_perm. }
  apply (f_equal (@List.length _)) in Hn.
  unfold sort_values_descending, group_sums in Hn.
  rewrite Hlen, length_map, Hlen in Hn.
  unfold value_counts, len in H.
  rewrite Hlen, length_map in H.
  cbn in Hn. rewrite Hn in H. discriminate.
Qed.

Lemma detect_unusual_counterparties_reads (rt : Runtime) (account : string)
    (w : World) :
  exists w',
    detect_unusual_counterparties rt account w =
      (counterparty_alerts rt account (view rt (frame w)) (ticks w), w') /\
    frame w' = frame w.
Proof.
  unfold counterparty_alerts, view. cbn [counterparty_values amount_values].
  unfold detect_unusual_counterparties, groupby_counterparty_amount.
  unfold_run.
  destruct (has_column "counterparty" (frame w)) eqn:Hc; step;
    [|exists w; split; reflexivity].
  destruct (has_column "amount" (frame w)) eqn:Ha; step;
    [|exists w; split; reflexivity].
  destruct (0 <? len (value_counts _)) eqn:Hn; step;
    [|exists w; split; reflexivity].
  pose proof (group_sums_nonempty _ (map tx_amount (rows (frame w))) Hn) as Hne.
  destruct (sort_values_descending _) as [|top rest]; [now elim Hne|].
  step. destruct (np_gt _ 0.5); step; eexists; split; reflexivity.
Qed.

Lemma detect_cash_intensive_patterns_reads (rt : Runtime) (account : string)
    (w : World) :
  exists w',
    detect_cash_intensive_patterns rt account w =
      (cash_alerts rt account (view rt (frame w)) (ticks w), w') /\
    frame w' = frame w.
Proof.
  unfold cash_alerts, view. cbn [type_values amount_values size].
  unfold detect_cash_intensive_patterns. unfold_run.
  destruct (has_column "transaction_type" (frame w)) eqn:Hc; step;
    [|exists w; split; reflexivity].
  rewrite (len_mask_list_map tx_transaction_type), mask_list_self.
  destruct (0 <? len (filter is_cash _)) eqn:Hn; step;
    [|exists w; split; reflexivity].
  destruct (len (rows (frame w)) =? 0) eqn:E0.
  { apply Z.eqb_eq in E0. apply Z.ltb_lt in Hn.
    pose proof (len_filter_le is_cash
                  (map tx_transaction_type (rows (frame w)))) as Hle.
    rewrite len_map in Hle. lia. }
  step. rewrite ?(map_mask_list tx_amount).
  destruct (has_column "amount" (frame w)) eqn:Ha; step;
    [|exists w; split; reflexivity].
  destruct (Qltb 0.3 _ || np_gt _ 0.4); step; eexists; split; reflexivity.
Qed.

(** ** Assignments to the table *)

Lemma to_datetime_length (rt : Runtime) (col : list DateCell) :
  forall ts, to_datetime rt col = inr ts -> List.length ts = List.length col.
Proof.
  induction col as [|c col IH]; cbn; intros ts H.
  - now inversion H.
  - destruct c as [t|s]; [|destruct (parse_datetime rt s)];
      try discriminate;
      destruct (to_datetime rt col) as [e|ts']; try discriminate;
      inversion H; subst; cbn; now rewrite (IH ts').
Qed.

Lemma to_datetime_stamps (rt : Runtime) (ts : list Timestamp) :
  to_datetime rt (map Stamp ts) = inr ts.
Proof. induction ts as [|t ts IH]; cbn; [reflexivity|now rewrite IH]. Qed.

Lemma to_datetime_error (rt : Runtime) (col : list DateCell) (e : exn) :
  to_datetime rt col = inl e -> exists s, e = ValueError s.
Proof.
  induction col as [|c col IH]; cbn; [discriminate|].
  destruct c as [t|s]; [|destruct (parse_datetime rt s)];
    try (destruct (to_datetime rt col); [|discriminate];
         intros H; inversion H; subst; now apply IH).
  intros H. inversion H. now exists s.
Qed.

Lemma dt_stamps (ts : list Timestamp) : dt (map Stamp ts) = inr ts.
Proof. induction ts as [|t ts IH]; cbn; [reflexivity|now rewrite IH]. Qed.

Lemma map_combine_keep {T U : Type} (field : Row -> U) (store : T -> Row -> Row)
    (values : list T) (rs : list Row) :
  (forall v r, field (store v r) = field r) ->
  List.length values = List.length rs ->
  map field (map (fun vr => store (fst vr) (snd vr)) (combine values rs)) =
  map field rs.
Proof.
  intros Hk. revert rs.
  induction values as [|v values IH]; intros [|r rs] Hl; cbn in *;
    try discriminate; [reflexivity|].
  rewrite Hk, IH; [reflexivity|lia].
Qed.

Lemma map_combine_set {T : Type} (field : Row -> T) (store : T -> Row -> Row)
    (values : list T) (rs : list Row) :
  (forall v r, field (store v r) = v) ->
  List.length values = List.length rs ->
  map field (map (fun vr => store (fst vr) (snd vr)) (combine values rs)) =
  values.
Proof.
  intros Hk. revert rs.
  induction values as [|v values IH]; intros [|r rs] Hl; cbn in *;
    try discriminate; [reflexivity|].
  rewrite Hk, IH; [reflexivity|lia].
Qed.

Lemma len_combine {T : Type} (store : T -> Row -> Row) (values : list T)
    (rs : list Row) :
  List.length values = List.length rs ->
  len (map (fun vr => store (fst vr) (snd vr)) (combine values rs)) = len rs.
Proof.
  intros Hl. unfold len. rewrite length_map, length_combine, Hl.
  now rewrite Nat.min_id.
Qed.

(** Two tables of which the detectors read the same. *)
Lemma view_ext (rt : Runtime) (f f' : DataFrame) :
  (forall l, In l all_columns -> has_column l f' = has_column l f) ->
  map tx_amount (rows f') = map tx_amount (rows f) ->
  map tx_description (rows f') = map tx_description (rows f) ->
  map tx_counterparty (rows f') = map tx_counterparty (rows f) ->
  map tx_transaction_type (rows f') = map tx_transaction_type (rows f) ->
  to_datetime rt (map tx_date (rows f')) = to_datetime rt (map tx_date (rows f)) ->
  view rt f' = view rt f.
Proof.
  intros Hc Ha Hd Hp Ht Hs. unfold view, getitem.
  rewrite !Hc by (cbn; tauto). rewrite Ha, Hd, Hp, Ht.
  assert (Hn : len (rows f') = len (rows f)).
  { unfold len. now rewrite <- (length_map tx_amount), Ha, length_map. }
  rewrite Hn. destruct (has_column "date" f); [now rewrite Hs|reflexivity].
Qed.

Lemma view_assign_date (rt : Runtime) (f : DataFrame)
    (parsed : list Timestamp) :
  has_column "date" f = true ->
  to_datetime rt (map tx_date (rows f)) = inr parsed ->
  view rt (setitem "date" store_date (map Stamp parsed) f) = view rt f.
Proof.
  intros Hd Hp.
  assert (Hl : List.length (map Stamp parsed) = List.length (rows f)).
  { rewrite length_map, (to_datetime_length rt _ _ Hp). apply length_map. }
  apply view_ext.
  - intros l Hl'. rewrite has_column_setitem.
    destruct (String.eqb_spec l "date") as [->|_];
      [now rewrite Hd|apply orb_false_r].
  - now apply map_combine_keep.
  - now apply map_combine_keep.
  - now apply map_combine_keep.
  - now apply map_combine_keep.
  - cbn [setitem rows]. rewrite map_combine_set by easy.
    now rewrite to_datetime_stamps.
Qed.

Lemma view_assign_derived (rt : Runtime) {T : Type} (label : string)
    (store : T -> Row -> Row) (values : list T) (f : DataFrame) :
  existsb (String.eqb label) all_columns = false ->
  (forall v r, tx_date (store v r) = tx_date r) ->
  (forall v r, tx_amount (store v r) = tx_amount r) ->
  (forall v r, tx_description (store v r) = tx_description r) ->
  (forall v r, tx_counterparty (store v r) = tx_counterparty r) ->
  (forall v r, tx_transaction_type (store v r) = tx_transaction_type r) ->
  List.length values = List.length (rows f) ->
  view rt (setitem label store values f) = view rt f.
Proof.
  intros Hn H1 H2 H3 H4 H5 Hl.
  apply view_ext; try (cbn [setitem rows]; now rewrite map_combine_keep).
  intros l Hin. rewrite has_column_setitem.
  destruct (String.eqb_spec l label) as [->|_]; [|apply orb_false_r].
  exfalso. apply not_true_iff_false in Hn. apply Hn.
  apply existsb_exists. exists label. split; [exact Hin|apply String.eqb_refl].
Qed.

(** ** The detectors that assign to the table *)

Lemma map_insert {A K : Type} (key : A -> K) (lt : K -> K -> bool) (x : A)
    (s : list A) :
  map key (insert key lt x s) = insert (fun k => k) lt (key x) (map key s).
Proof.
  induction s as [|y s IH]; cbn; [reflexivity|].
  destruct (lt (key y) (key x)); cbn; now rewrite ?IH.
Qed.

Lemma map_stable_sort {A K : Type} (key : A -> K) (lt : K -> K -> bool)
    (l : list A) :
  map key (stable_sort key lt l) = stable_sort (fun k => k) lt (map key l).
Proof.
  induction l as [|x l IH]; cbn; [reflexivity|].
  now rewrite map_insert, IH.
Qed.

Lemma stamped_dates (rs : list Row) :
  Forall (fun r => tx_date r = Stamp (date_key r)) rs ->
  map tx_date rs = map Stamp (map date_key rs).
Proof.
  induction 1 as [|r rs Hr _ IH]; cbn; [reflexivity|]. now rewrite <- Hr, IH.
Qed.

Lemma map_Stamp_inj (a b : list Timestamp) :
  map Stamp a = map Stamp b -> a = b.
Proof.
  revert b. induction a as [|x a IH]; intros [|y b] H; cbn in *;
    try discriminate; [reflexivity|].
  inversion H. f_equal. now apply IH.
Qed.

Lemma stamped_after_assignment (parsed : list Timestamp) (rs : list Row) :
  Forall (fun r => tx_date r = Stamp (date_key r))
         (map (fun vr => store_date (fst vr) (snd vr))
              (combine (map Stamp parsed) rs)).
Proof.
  revert rs. induction parsed as [|t parsed IH]; intros [|r rs]; cbn;
    constructor; [reflexivity|apply IH].
Qed.

Lemma length_diff (ts : list Z) : List.length (diff ts) = List.length ts.
Proof.
  destruct ts as [|t ts]; cbn; [reflexivity|]. f_equal.
  revert t. induction ts as [|u ts IH]; intros t; cbn; [reflexivity|].
  now rewrite IH.
Qed.

Lemma len_mask_list_count {T U : Type} (p : U -> bool) (gs : list U)
    (xs : list T) :
  List.length gs = List.length xs ->
  len (mask_list (map p gs) xs) = len (filter p gs).
Proof.
  revert xs. induction gs as [|g gs IH]; intros [|x xs] Hl; cbn in *;
    try discriminate; [reflexivity|].
  destruct (p g); unfold len in *; cbn [List.length];
    rewrite ?Nat2Z.inj_succ, (IH xs) by lia; reflexivity.
Qed.

Lemma length_sorted {A K : Type} (key : A -> K) (lt : K -> K -> bool)
    (r : bool) (l : list A) :
  List.length (sorted key lt r l) = List.length l.
Proof. symmetry. apply Permutation_length, sorted_perm. Qed.

Lemma has_column_sort_values_date (l : string) (f : DataFrame) :
  has_column l (sort_values_date f) = has_column l f.
Proof. reflexivity. Qed.

Lemma frequency_statistic (parsed : list Timestamp) (f : DataFrame) :
  List.length parsed = List.length (rows f) ->
  let f1 := setitem "date" store_date (map Stamp parsed) f in
  dt (map tx_date (rows (sort_values_date f1))) =
    inr (sorted (fun k => k) Z.ltb false parsed) /\
  forall ts, List.length ts = List.length parsed ->
    len (mask_list (map within_a_day (map (option_map days) (diff ts)))
           (rows (sort_values_date f1))) =
    len (filter within_a_day (map (option_map days) (diff ts))).
Proof.
  intros Hl f1.
  assert (Hst : Forall (fun r => tx_date r = Stamp (date_key r)) (rows f1))
    by apply stamped_after_assignment.
  assert (Hk : map date_key (rows f1) = parsed).
  { assert (E : map tx_date (rows f1) = map Stamp parsed).
    { cbn [f1 setitem rows]. apply map_combine_set; [easy|].
      now rewrite length_map. }
    apply stamped_dates in Hst. rewrite E in Hst.
    symmetry. now apply map_Stamp_inj. }
  split.
  - cbn [sort_values_date rows]. unfold sorted.
    rewrite stamped_dates.
    + now rewrite dt_stamps, map_stable_sort, Hk.
    + eapply Permutation_Forall; [apply stable_sort_perm|exact Hst].
  - intros ts Hts. apply len_mask_list_count.
    rewrite !length_map, length_diff. cbn [sort_values_date rows].
    rewrite length_sorted, Hts, <- Hk. now rewrite length_map.
Qed.

Lemma detect_unusual_frequency_patterns_reads (rt : Runtime)
    (account : string) (w : World) :
  exists w',
    detect_unusual_frequency_patterns rt account w =
      (frequency_alerts rt account (view rt (frame w)) (ticks w), w') /\
    frame w' = parsed_frame rt (frame w).
Proof.
  unfold frequency_alerts, parsed_frame, view. cbn [date_values size].
  unfold detect_unusual_frequency_patterns. unfold_run.
  destruct (has_column "date" (frame w)) eqn:Hd; step;
    [|exists w; split; reflexivity].
  destruct (to_datetime rt (map tx_date (rows (frame w)))) as [e|parsed] eqn:Hp;
    step.
  { destruct (to_datetime_error rt _ e Hp) as [s ->].
    exists w. split; reflexivity. }
  assert (Hl : List.length parsed = List.length (rows (frame w))).
  { rewrite (to_datetime_length rt _ _ Hp). apply length_map. }
  destruct (frequency_statistic parsed (frame w) Hl) as [Hdt Hcount].
  cbv zeta in Hdt, Hcount.
  rewrite has_column_sort_values_date, has_column_setitem, Hd. step.
  rewrite Hdt. step.
  rewrite Hcount by apply length_sorted.
  cbn [setitem rows]. rewrite len_combine by now rewrite length_map.
  fold (burst_count parsed).
  destruct (int_gt _ _); step; eexists; split; reflexivity.
Qed.

Lemma length_rows_setitem {T : Type} (label : string)
    (store : T -> Row -> Row) (values : list T) (f : DataFrame) :
  List.length values = List.length (rows f) ->
  List.length (rows (setitem label store values f)) = List.length (rows f).
Proof.
  intros Hl. cbn [setitem rows]. rewrite length_map, length_combine, Hl.
  apply Nat.min_id.
Qed.

Lemma column_after_setitem {T U : Type} (field : Row -> U) (label : string)
    (store : T -> Row -> Row) (values : list T) (f : DataFrame) :
  (forall v r, field (store v r) = field r) ->
  List.length values = List.length (rows f) ->
  map field (rows (setitem label store values f)) = map field (rows f).
Proof. intros. now apply map_combine_keep. Qed.

Lemma column_set_by_setitem {T : Type} (field : Row -> T) (label : string)
    (store : T -> Row -> Row) (values : list T) (f : DataFrame) :
  (forall v r, field (store v r) = v) ->
  List.length values = List.length (rows f) ->
  map field (rows (setitem label store values f)) = values.
Proof. intros. now apply map_combine_set. Qed.

Lemma len_filter_map {T U : Type} (g : T -> U) (p : U -> bool) (xs : list T) :
  len (filter p (map g xs)) = len (filter (fun x => p (g x)) xs).
Proof. now rewrite <- filter_map_swap, len_map. Qed.

Section PeriodFrames.
Variable parsed : list Timestamp.
Variable f : DataFrame.
Hypothesis Hl : List.length parsed = List.length (rows f).

Let f1 := setitem "date" store_date (map Stamp parsed) f.
Let f2 := setitem "day_of_month" store_day_of_month (map day_of parsed) f1.
Let f3 := setitem "month" store_month (map month_of parsed) f2.

Lemma period_lengths :
  List.length (rows f1) = List.length parsed /\
  List.length (rows f2) = List.length parsed /\
  List.length (rows f3) = List.length parsed.
Proof.
  assert (H1 : List.length (rows f1) = List.length parsed).
  { unfold f1. rewrite length_rows_setitem; rewrite ?length_map; lia. }
  assert (H2 : List.length (rows f2) = List.length parsed).
  { unfold f2. rewrite length_rows_setitem; rewrite ?length_map; lia. }
  repeat split; try assumption.
  unfold f3. rewrite length_rows_setitem; rewrite ?length_map; lia.
Qed.

Lemma period_dates :
  map tx_date (rows f1) = map Stamp parsed /\
  map tx_date (rows f2) = map Stamp parsed.
Proof.
  destruct period_lengths as (H1 & H2 & H3).
  assert (E1 : map tx_date (rows f1) = map Stamp parsed).
  { unfold f1. apply column_set_by_setitem; [easy|].
    rewrite length_map. lia. }
  split; [exact E1|]. unfold f2.
  rewrite column_after_setitem; [exact E1|easy|].
  rewrite length_map. lia.
Qed.

Lemma period_columns :
  map tx_day_of_month (rows f3) = map day_of parsed /\
  map tx_month (rows f3) = map month_of parsed /\
  map tx_amount (rows f3) = map tx_amount (rows f) /\
  len (rows f3) = len (rows f).
Proof.
  destruct period_lengths as (H1 & H2 & H3).
  repeat split.
  - unfold f3. rewrite column_after_setitem by (rewrite ?length_map; easy).
    unfold f2. apply column_set_by_setitem; rewrite ?length_map; easy.
  - unfold f3. apply column_set_by_setitem; rewrite ?length_map; easy.
  - unfold f3. rewrite column_after_setitem by (rewrite ?length_map; easy).
    unfold f2. rewrite column_after_setitem by (rewrite ?length_map; easy).
    unfold f1. apply column_after_setitem; rewrite ?length_map; easy.
  - unfold len. now rewrite H3, Hl.
Qed.

Lemma period_view (rt : Runtime) :
  has_column "date" f = true ->
  to_datetime rt (map tx_date (rows f)) = inr parsed ->
  view rt f3 = view rt f.
Proof.
  intros Hd Hp. destruct period_lengths as (H1 & H2 & H3).
  unfold f3. rewrite view_assign_derived;
    try easy; [|rewrite length_map; lia].
  unfold f2. rewrite view_assign_derived;
    try easy; [|rewrite length_map; lia].
  now apply view_assign_date.
Qed.
End PeriodFrames.

Lemma month_end_zero (count n : Z) :
  0 <= count <= n -> int_gt count (inject_Z n * 0.25) = true -> n <> 0.
Proof.
  intros Hc H ->. unfold int_gt in H. apply Qltb_true in H.
  unfold Qlt in H. cbn in H. lia.
Qed.

Lemma bind_inr {A B : Type} (m : M A) (k : A -> M B) (w w1 : World) (a : A) :
  m w = (inr a, w1) -> bind m k w = k a w1.
Proof. intros H. unfold bind. now rewrite H. Qed.

Lemma bind_inl {A B : Type} (m : M A) (k : A -> M B) (w w1 : World) (e : exn) :
  m w = (inl e, w1) -> bind m k w = (inl e, w1).
Proof. intros H. unfold bind. now rewrite H. Qed.

Section PeriodChecks.
Variable rt : Runtime.
Variable account : string.
Variable parsed : list Timestamp.
Variable f : DataFrame.
Hypothesis Hl : List.length parsed = List.length (rows f).

Let f3 :=
  setitem "month" store_month (map month_of parsed)
    (setitem "day_of_month" store_day_of_month (map day_of parsed)
       (setitem "date" store_date (map Stamp parsed) f)).

Lemma period_mask_count (p : Z -> bool) (g : Timestamp -> Z) :
  len (mask_list (map p (map g parsed)) (rows f3)) =
  len (filter (fun x => p (g x)) parsed).
Proof.
  destruct (period_lengths parsed f Hl) as (_ & _ & L3).
  rewrite len_mask_list_count by (now rewrite length_map).
  apply len_filter_map.
Qed.

Lemma month_end_check_run (w : World) :
  frame w = f3 ->
  exists w',
    month_end_check rt account w =
      (month_end_alerts rt account (view rt f) parsed (ticks w), w') /\
    frame w' = frame w /\
    forall first,
      month_end_alerts rt account (view rt f) parsed (ticks w) = inr first ->
      ticks w' = (ticks w + List.length first)%nat.
Proof.
  intros E.
  destruct (period_columns parsed f Hl) as (C1 & C2 & C3 & C4).
  fold f3 in C1, C2, C3, C4.
  unfold month_end_alerts, view. cbn [size amount_values].
  unfold month_end_check. unfold_run. rewrite E. unfold f3 at 1.
  step. fold f3.
  rewrite C1, C4, (map_mask_list tx_amount), C3, period_mask_count, map_map.
  change (fun x : Timestamp => 28 <=? day_of x) with is_month_end.
  set (count := len (filter is_month_end parsed)).
  destruct (int_gt count (inject_Z (len (rows f)) * 0.25)) eqn:E1; step.
  - destruct (len (rows f) =? 0) eqn:E0.
    { exfalso. apply Z.eqb_eq in E0.
      apply (month_end_zero count (len (rows f))); [|exact E1|exact E0].
      split; [apply len_nonneg|]. unfold count.
      pose proof (len_filter_le is_month_end parsed) as Hle.
      unfold len in *. lia. }
    step. unfold f3 at 1. step. fold f3.
    destruct (has_column "amount" f) eqn:Ha; step.
    + eexists. split; [reflexivity|]. split; [cbn [frame]; congruence|].
      intros first H. inversion H. cbn [List.length ticks]. lia.
    + eexists. split; [reflexivity|]. split; [cbn [frame]; congruence|].
      discriminate.
  - exists w. split; [reflexivity|]. split; [congruence|].
    intros first H. inversion H. cbn [List.length]. lia.
Qed.

Lemma quarter_end_check_run (w : World) :
  frame w = f3 ->
  exists w',
    quarter_end_check rt account w =
      (inr (quarter_end_alerts rt account (view rt f) parsed (ticks w)), w') /\
    frame w' = frame w.
Proof.
  intros E.
  destruct (period_columns parsed f Hl) as (C1 & C2 & C3 & C4).
  fold f3 in C1, C2, C3, C4.
  unfold quarter_end_alerts, view. cbn [size].
  unfold quarter_end_check. unfold_run. rewrite E. unfold f3 at 1.
  step. fold f3.
  rewrite C2, C4, period_mask_count.
  change (fun x : Timestamp => existsb (Z.eqb (month_of x)) [3; 6; 9; 12])
    with is_quarter_end.
  destruct (int_gt _ _); step.
  - eexists. split; [reflexivity|]. cbn [frame]; congruence.
  - exists w. split; [reflexivity|congruence].
Qed.
End PeriodChecks.

Lemma detect_end_of_period_activities_reads (rt : Runtime)
    (account : string) (w : World) :
  exists w',
    detect_end_of_period_activities rt account w =
      (end_of_period_alerts rt account (view rt (frame w)) (ticks w), w') /\
    frame w' = period_frame rt (frame w).
Proof.
  unfold end_of_period_alerts, period_frame.
  unfold detect_end_of_period_activities.
  destruct (has_column "date" (frame w)) eqn:Hd.
  2: { unfold view, getitem. cbn [date_values]. unfold_run. step.
       exists w. split; reflexivity. }
  destruct (to_datetime rt (map tx_date (rows (frame w)))) as [e|parsed] eqn:Hp.
  { unfold view, getitem. cbn [date_values]. unfold_run. step.
    rewrite Hp. step.
    destruct (to_datetime_error rt _ e Hp) as [s ->].
    exists w. split; reflexivity. }
  assert (Hl : List.length parsed = List.length (rows (frame w))).
  { rewrite (to_datetime_length rt _ _ Hp). apply length_map. }
  destruct (period_dates parsed (frame w) Hl) as (D1 & D2).
  assert (Hv : date_values (view rt (frame w)) = inr parsed).
  { unfold view, getitem. cbn [date_values]. now rewrite Hd. }
  rewrite Hv.
  set (w3 := mkWorld
               (setitem "month" store_month (map month_of parsed)
                  (setitem "day_of_month" store_day_of_month
                     (map day_of parsed)
                     (setitem "date" store_date (map Stamp parsed) (frame w))))
               (ticks w)).
  destruct (month_end_check_run rt account parsed (frame w) Hl w3 eq_refl)
    as (w4 & R4 & F4 & T4).
  unfold_run. step. rewrite Hp. step.
  rewrite D1, dt_stamps. step. rewrite D2, dt_stamps. step.
  fold w3. rewrite R4. change (ticks w3) with (ticks w) in *.
  destruct (month_end_alerts rt account (view rt (frame w)) parsed (ticks w))
    as [e|first] eqn:E1; step.
  - exists w4. split; [reflexivity|]. now rewrite F4.
  - assert (F4' : frame w4 =
              setitem "month" store_month (map month_of parsed)
                (setitem "day_of_month" store_day_of_month (map day_of parsed)
                   (setitem "date" store_date (map Stamp parsed) (frame w))))
      by now rewrite F4.
    destruct (quarter_end_check_run rt account parsed (frame w) Hl w4 F4')
      as (w5 & R5 & F5).
    rewrite R5. step. rewrite (T4 first eq_refl).
    exists w5. split; [reflexivity|]. now rewrite F5.
Qed.

Lemma view_period_frame (rt : Runtime) (f : DataFrame) :
  view rt (period_frame rt f) = view rt f.
Proof.
  unfold period_frame.
  destruct (date_values (view rt f)) as [e|parsed] eqn:E; [reflexivity|].
  unfold view, getitem in E. cbn [date_values] in E.
  destruct (has_column "date" f) eqn:Hd; [|discriminate].
  apply period_view; [|exact Hd|exact E].
  rewrite (to_datetime_length rt _ _ E). apply length_map.
Qed.

Lemma view_parsed_frame (rt : Runtime) (f : DataFrame) :
  view rt (parsed_frame rt f) = view rt f.
Proof.
  unfold parsed_frame.
  destruct (date_values (view rt f)) as [e|parsed] eqn:E; [reflexivity|].
  unfold view, getitem in E. cbn [date_values] in E.
  destruct (has_column "date" f) eqn:Hd; [|discriminate].
  now apply view_assign_date.
Qed.

Lemma detect_layering_patterns_reads (rt : Runtime) (account : string)
    (w : World) :
  exists w',
    detect_layering_patterns rt account w =
      (layering_alerts rt account (view rt (frame w)) (ticks w), w') /\
    frame w' = if has_column "transaction_type" (frame w)
               then parsed_frame rt (frame w) else frame w.
Proof.
  unfold layering_alerts, same_day_activity, parsed_frame, view.
  cbn [date_values type_values amount_values].
  unfold detect_layering_patterns, groupby_day_type_amount. unfold_run.
  destruct (has_column "transaction_type" (frame w)) eqn:Ht;
    destruct (has_column "date" (frame w)) eqn:Hd; step;
    try (exists w; split; reflexivity).
  destruct (to_datetime rt (map tx_date (rows (frame w)))) as [e|parsed] eqn:Hp;
    step.
  { destruct (to_datetime_error rt _ e Hp) as [s ->].
    exists w. split; reflexivity. }
  assert (Hl : List.length (map Stamp parsed) = List.length (rows (frame w))).
  { rewrite length_map, (to_datetime_length rt _ _ Hp). apply length_map. }
  rewrite (column_set_by_setitem tx_date) by easy.
  rewrite dt_stamps. step.
  rewrite !column_after_setitem by easy.
  destruct (has_column "amount" (frame w)) eqn:Ha; step;
    [|eexists; split; reflexivity].
  set (daily := unstack_sums (map day_number parsed)
                  (map tx_transaction_type (rows (frame w)))
                  (map tx_amount (rows (frame w)))).
  destruct (existsb (String.eqb "deposit") (daily_columns daily) &&
            existsb (String.eqb "withdrawal") (daily_columns daily));
    cbn [andb]; [|eexists; split; reflexivity].
  destruct (int_gt _ _); step; eexists; split; reflexivity.
Qed.

(** ** The detectors and the table they share *)

Lemma battery_reads (rt : Runtime) (account : string) :
  Forall2 (reads rt) (battery rt account) (readings rt account).
Proof.
  repeat constructor; intros w.
  - destruct (detect_round_number_patterns_reads rt account w) as (w' & R & F).
    exists w'. now rewrite F.
  - destruct (detect_suspicious_descriptions_reads rt account w)
      as (w' & R & F).
    exists w'. now rewrite F.
  - destruct (detect_unusual_frequency_patterns_reads rt account w)
      as (w' & R & F).
    exists w'. rewrite F. split; [exact R|apply view_parsed_frame].
  - destruct (detect_threshold_avoidance_reads rt account w) as (w' & R & F).
    exists w'. now rewrite F.
  - destruct (detect_end_of_period_activities_reads rt account w)
      as (w' & R & F).
    exists w'. rewrite F. split; [exact R|apply view_period_frame].
  - destruct (detect_unusual_counterparties_reads rt account w)
      as (w' & R & F).
    exists w'. now rewrite F.
  - destruct (detect_cash_intensive_patterns_reads rt account w)
      as (w' & R & F).
    exists w'. now rewrite F.
  - destruct (detect_layering_patterns_reads rt account w) as (w' & R & F).
    exists w'. rewrite F. split; [exact R|].
    destruct (has_column "transaction_type" (frame w));
      [apply view_parsed_frame|reflexivity].
Qed.

(** C3.  A detector whose column is absent is to return no alerts.  The
    round-number detector and the threshold detector do not: on every
    table without the [amount] column both raise [KeyError] for 'amount'. *)
Theorem missing_amount_column_raises (rt : Runtime) (account : string)
    (w : World) :
  has_column "amount" (frame w) = false ->
  outcome (detect_round_number_patterns rt account w) =
    inl (KeyError "amount") /\
  outcome (detect_threshold_avoidance rt account w) = inl (KeyError "amount").
Proof.
  intros H. split.
  - destruct (detect_round_number_patterns_reads rt account w) as (w' & R & _).
    rewrite R. unfold outcome, round_number_alerts. cbn [fst].
    now rewrite amount_values_missing.
  - destruct (detect_threshold_avoidance_reads rt account w) as (w' & R & _).
    rewrite R. unfold outcome, threshold_alerts. cbn [fst].
    now rewrite amount_values_missing.
Qed.

(** Both detectors raise on [no_amount_sample]. *)
Lemma missing_amount_column_raises_witness :
  outcome (detect_round_number_patterns sample_runtime "ACC-12345"
             (mkWorld no_amount_sample 0)) = inl (KeyError "amount") /\
  outcome (detect_threshold_avoidance sample_runtime "ACC-12345"
             (mkWorld no_amount_sample 0)) = inl (KeyError "amount").
Proof.
  apply (missing_amount_column_raises sample_runtime "ACC-12345"
           (mkWorld no_amount_sample 0)).
  reflexivity.
Defined.

(** The detectors whose column is guarded skip a table without it. *)
Lemma guarded_columns_skip (rt : Runtime) (account : string) (w : World) :
  (has_column "description" (frame w) = false ->
   outcome (detect_suspicious_descriptions rt account w) = inr []) /\
  (has_column "date" (frame w) = false ->
   outcome (detect_unusual_frequency_patterns rt account w) = inr [] /\
   outcome (detect_end_of_period_activities rt account w) = inr [] /\
   outcome (detect_layering_patterns rt account w) = inr []) /\
  (has_column "counterparty" (frame w) = false ->
   outcome (detect_unusual_counterparties rt account w) = inr []) /\
  (has_column "transaction_type" (frame w) = false ->
   outcome (detect_cash_intensive_patterns rt account w) = inr [] /\
   outcome (detect_layering_patterns rt account w) = inr []).
Proof.
  destruct (detect_suspicious_descriptions_reads rt account w) as (? & R1 & _).
  destruct (detect_unusual_frequency_patterns_reads rt account w)
    as (? & R2 & _).
  destruct (detect_end_of_period_activities_reads rt account w)
    as (? & R3 & _).
  destruct (detect_unusual_counterparties_reads rt account w) as (? & R4 & _).
  destruct (detect_cash_intensive_patterns_reads rt account w) as (? & R5 & _).
  destruct (detect_layering_patterns_reads rt account w) as (? & R6 & _).
  rewrite R1, R2, R3, R4, R5, R6. unfold outcome. cbn [fst].
  unfold description_alerts, frequency_alerts, end_of_period_alerts,
    counterparty_alerts, cash_alerts, layering_alerts, view, getitem.
  cbn [description_values date_values counterparty_values type_values].
  split; [|split; [|split]].
  - intros Hc. now rewrite Hc.
  - intros Hc. rewrite Hc. repeat split.
    now destruct (has_column "transaction_type" (frame w)).
  - intros Hc. now rewrite Hc.
  - intros Hc. now rewrite Hc.
Qed.

(** ** The orchestrator *)

Lemma analyze_account_in_order (rt : Runtime)
    (account_info : list (string * string)) (w : World) :
  analyze_account rt account_info w =
  bind (run_in_order (battery rt (get account_info "account_id" "unknown")) [])
       (fun alerts => ret (prioritize_alerts alerts)) w.
Proof.
  unfold analyze_account, battery, run_in_order, bind.
  repeat match goal with
         | |- context [match ?d ?w0 with _ => _ end] =>
             match type of w0 with
             | World => destruct (d w0) as [[?|?] ?]; try reflexivity
             end
         end.
Qed.

Lemma run_in_order_raises (ds after : list (M (list Alert)))
    (d : M (list Alert)) :
  forall (start alerts : list Alert) (w w1 w2 : World) (e : exn),
    run_in_order ds start w = (inr alerts, w1) ->
    d w1 = (inl e, w2) ->
    run_in_order (ds ++ d :: after) start w = (inl e, w2).
Proof.
  induction ds as [|d0 ds IH]; intros start alerts w w1 w2 e Hrun Hd; cbn.
  - cbn in Hrun. unfold ret in Hrun. inversion Hrun; subst.
    unfold bind. now rewrite Hd.
  - cbn in Hrun. unfold bind in *.
    destruct (d0 w) as [[e0|found] w0]; [discriminate|].
    now apply IH with alerts w1.
Qed.

(** C2, as the code has it.  [analyze_account] calls the eight detectors in
    a fixed order and isolates none of them: when the detectors before one
    have returned and that one raises, [analyze_account] raises the same
    exception and returns no alerts; when all eight return, it returns
    their alerts, concatenated in the order of the calls and prioritized. *)
Theorem analyze_account_propagates (rt : Runtime)
    (account_info : list (string * string)) (w : World) :
  let account := get account_info "account_id" "unknown" in
  (forall before d after alerts w1 e w2,
      battery rt account = (before ++ d :: after)%list ->
      run_in_order before [] w = (inr alerts, w1) ->
      d w1 = (inl e, w2) ->
      analyze_account rt account_info w = (inl e, w2)) /\
  (forall alerts w1,
      run_in_order (battery rt account) [] w = (inr alerts, w1) ->
      analyze_account rt account_info w = (inr (prioritize_alerts alerts), w1)).
Proof.
  intros account. split.
  - intros before d after alerts w1 e w2 Hb Hrun Hd.
    rewrite analyze_account_in_order. fold account. rewrite Hb.
    unfold bind at 1.
    now rewrite (run_in_order_raises before after d [] alerts w w1 w2 e).
  - intros alerts w1 Hrun. rewrite analyze_account_in_order. fold account.
    unfold bind at 1. now rewrite Hrun.
Qed.

(** On [no_amount_sample] the first detector raises and with it the whole
    analysis. *)
Lemma analyze_account_propagates_witness :
  exists w2,
    analyze_account sample_runtime [("account_id", "ACC-12345")]
                    (mkWorld no_amount_sample 0) =
    (inl (KeyError "amount"), w2).
Proof.
  eexists.
  apply (proj1 (analyze_account_propagates sample_runtime
                  [("account_id", "ACC-12345")] (mkWorld no_amount_sample 0)))
    with (before := [])
         (d := detect_round_number_patterns sample_runtime "ACC-12345")
         (after := tl (battery sample_runtime "ACC-12345"))
         (alerts := []) (w1 := mkWorld no_amount_sample 0).
  - reflexivity.
  - reflexivity.
  - reflexivity.
Defined.

(** On [no_amount_sample] the round-number detector raises, the
    description detector alone would report the repeated description, and
    [analyze_account] returns no alerts but raises. *)
Lemma one_failure_aborts_analysis :
  let w := mkWorld no_amount_sample 0 in
  outcome (detect_round_number_patterns sample_runtime "ACC-12345" w) =
    inl (KeyError "amount") /\
  (exists a,
      outcome (detect_suspicious_descriptions sample_runtime "ACC-12345" w) =
        inr [a] /\
      alert_type a = "Repeated Transaction Descriptions") /\
  outcome (analyze_account sample_runtime [("account_id", "ACC-12345")] w) =
    inl (KeyError "amount") /\
  ~ exists alerts,
      outcome (analyze_account sample_runtime [("account_id", "ACC-12345")] w) =
        inr alerts.
Proof.
  cbv zeta. split; [reflexivity|]. split.
  - eexists. split; reflexivity.
  - split; [reflexivity|]. intros [alerts H]. discriminate H.
Qed.

(** ** The table without rows *)

Lemma view_without_rows (rt : Runtime) (cols : list string) :
  let has l := has_column l (mkFrame cols []) in
  view rt (mkFrame cols []) =
  mkView 0
    (if has "date" then inr [] else inl (KeyError "date"))
    (if has "amount" then inr [] else inl (KeyError "amount"))
    (if has "description" then inr [] else inl (KeyError "description"))
    (if has "counterparty" then inr [] else inl (KeyError "counterparty"))
    (if has "transaction_type" then inr []
     else inl (KeyError "transaction_type")).
Proof.
  cbv zeta. unfold view, getitem. cbn [rows map len List.length Z.of_nat].
  now destruct (has_column "date" _).
Qed.

Lemma readings_without_rows (rt : Runtime) (account : string)
    (cols : list string) :
  has_column "amount" (mkFrame cols []) = true ->
  Forall (fun g => forall t, g (view rt (mkFrame cols [])) t = inr [])
         (readings rt account).
Proof.
  intros Ha. rewrite view_without_rows. cbv zeta. rewrite Ha.
  repeat constructor; intros t;
    unfold description_alerts, frequency_alerts, end_of_period_alerts,
      counterparty_alerts, cash_alerts, layering_alerts;
    cbn [description_values date_values counterparty_values type_values];
    repeat match goal with
           | |- context [has_column ?l ?f] => destruct (has_column l f)
           end;
    reflexivity.
Qed.

Lemma run_in_order_silent (rt : Runtime) (v : View)
    (ds : list (M (list Alert))) (gs : list (View -> nat -> exn + list Alert)) :
  Forall2 (reads rt) ds gs ->
  Forall (fun g => forall t, g v t = inr []) gs ->
  forall (alerts : list Alert) (w : World),
    view rt (frame w) = v ->
    exists w',
      run_in_order ds alerts w = (inr alerts, w') /\
      view rt (frame w') = v.
Proof.
  induction 1 as [|d g ds gs Hd _ IH]; intros Hs alerts w Hv.
  - exists w. now split.
  - inversion Hs as [|? ? Hg Hgs]; subst.
    destruct (Hd w) as (w1 & R1 & V1).
    destruct (IH Hgs alerts w1 V1) as (w2 & R2 & V2).
    exists w2. split; [|exact V2].
    cbn [run_in_order]. unfold bind. rewrite R1, Hg, app_nil_r. exact R2.
Qed.

Lemma Forall2_Forall_outcome (rt : Runtime) (w : World)
    (ds : list (M (list Alert))) (gs : list (View -> nat -> exn + list Alert)) :
  Forall2 (reads rt) ds gs ->
  Forall (fun g => forall t, g (view rt (frame w)) t = inr []) gs ->
  Forall (fun d => outcome (d w) = inr []) ds.
Proof.
  induction 1 as [|d g ds gs Hd _ IH]; intros Hs; constructor;
    inversion Hs as [|? ? Hg Hgs]; subst.
  - destruct (Hd w) as (w1 & R1 & _). rewrite R1. apply Hg.
  - now apply IH.
Qed.

Lemma append_assoc (a b c : string) : ((a ++ b) ++ c = a ++ (b ++ c))%string.
Proof. induction a as [|x a IH]; cbn; [reflexivity|now rewrite IH]. Qed.



(** ** Assignments to the shared table *)

Lemma Forall2_In_l {A B : Type} (R : A -> B -> Prop) (l : list A)
    (l' : list B) (x : A) :
  Forall2 R l l' -> In x l -> exists y, In y l' /\ R x y.
Proof.
  induction 1 as [|a b l l' Hab _ IH]; intros Hin; [destruct Hin|].
  destruct Hin as [<-|Hin].
  - exists b. split; [now left|exact Hab].
  - destruct (IH Hin) as (y & Hy & Hxy). exists y. split; [now right|exact Hxy].
Qed.

(** C5, as the code has it.  Five detectors leave the caller's table as it
    is.  The frequency, end-of-period and layering detectors assign to it:
    each replaces the [date] column by its parsed timestamps, and the
    end-of-period detector also stores the columns [day_of_month] and
    [month], which stay in the table.  No detector changes what the
    detectors read (the number of rows, the parsed dates, the amount,
    description, counterparty and transaction_type columns), so what a
    detector returns does not depend on which detector ran before it. *)
Theorem detectors_share_the_table (rt : Runtime) (account : string) :
  (forall w,
      frame (world_after (detect_round_number_patterns rt account w)) =
        frame w /\
      frame (world_after (detect_suspicious_descriptions rt account w)) =
        frame w /\
      frame (world_after (detect_threshold_avoidance rt account w)) =
        frame w /\
      frame (world_after (detect_unusual_counterparties rt account w)) =
        frame w /\
      frame (world_after (detect_cash_intensive_patterns rt account w)) =
        frame w) /\
  (forall w,
      frame (world_after (detect_unusual_frequency_patterns rt account w)) =
        parsed_frame rt (frame w) /\
      frame (world_after (detect_end_of_period_activities rt account w)) =
        period_frame rt (frame w) /\
      frame (world_after (detect_layering_patterns rt account w)) =
        if has_column "transaction_type" (frame w)
        then parsed_frame rt (frame w) else frame w) /\
  (forall d w,
      In d (battery rt account) ->
      view rt (frame (world_after (d w))) = view rt (frame w)) /\
  (forall d1 d2 w t,
      In d1 (battery rt account) -> In d2 (battery rt account) ->
      outcome (d2 (mkWorld (frame (world_after (d1 w))) t)) =
      outcome (d2 (mkWorld (frame w) t))).
Proof.
  assert (Hview : forall d w, In d (battery rt account) ->
                    view rt (frame (world_after (d w))) = view rt (frame w)).
  { intros d w Hin.
    destruct (Forall2_In_l _ _ _ d (battery_reads rt account) Hin)
      as (g & _ & Hg).
    destruct (Hg w) as (w' & R & V). now rewrite R. }
  split; [|split; [|split]].
  - intros w.
    destruct (detect_round_number_patterns_reads rt account w) as (? & R1 & F1).
    destruct (detect_suspicious_descriptions_reads rt account w)
      as (? & R2 & F2).
    destruct (detect_threshold_avoidance_reads rt account w) as (? & R3 & F3).
    destruct (detect_unusual_counterparties_reads rt account w)
      as (? & R4 & F4).
    destruct (detect_cash_intensive_patterns_reads rt account w)
      as (? & R5 & F5).
    rewrite R1, R2, R3, R4, R5. unfold world_after. cbn [snd]. now repeat split.
  - intros w.
    destruct (detect_unusual_frequency_patterns_reads rt account w)
      as (? & R1 & F1).
    destruct (detect_end_of_period_activities_reads rt account w)
      as (? & R2 & F2).
    destruct (detect_layering_patterns_reads rt account w) as (? & R3 & F3).
    rewrite R1, R2, R3. unfold world_after. cbn [snd]. now repeat split.
  - intros d w Hin. now apply Hview.
  - intros d1 d2 w t H1 H2.
    destruct (Forall2_In_l _ _ _ d2 (battery_reads rt account) H2)
      as (g & _ & Hg).
    destruct (Hg (mkWorld (frame (world_after (d1 w))) t)) as (wa & Ra & _).
    destruct (Hg (mkWorld (frame w) t)) as (wb & Rb & _).
    rewrite Ra, Rb. unfold outcome. cbn [fst frame ticks].
    now rewrite (Hview d1 w H1).
Qed.

(** On [round_sample], after the end-of-period detector the table
    has two more columns, filled with the day and the month of every row,
    and its dates are timestamps where they were text. *)
Lemma end_of_period_detector_writes_table :
  let w := mkWorld round_sample 0 in
  let after :=
    frame (world_after
             (detect_end_of_period_activities sample_runtime "ACC-12345" w)) in
  columns after = (all_columns ++ ["day_of_month"; "month"])%list /\
  map tx_day_of_month (rows after) = repeat 15 20 /\
  map tx_month (rows after) = repeat 3 20 /\
  map tx_date (rows round_sample) = repeat (Text "2024-03-15") 20 /\
  map tx_date (rows after) = repeat (Stamp (midnight 2024 3 15)) 20 /\
  after <> round_sample.
Proof.
  cbv zeta. repeat split; try (vm_compute; reflexivity).
  intros H. apply (f_equal columns) in H. vm_compute in H. discriminate H.
Qed.

(** ** The reporter *)




(** ** The layering detector *)

Lemma In_unique_from {T : Type} (eqb : T -> T -> bool) (x : T) (l : list T) :
  forall seen, In x (unique_from eqb seen l) -> In x l.
Proof.
  induction l as [|y l IH]; intros seen H; cbn in *; [exact H|].
  destruct (existsb (eqb y) seen).
  - right. now apply IH with seen.
  - destruct H as [H|H]; [now left|right; now apply IH with (y :: seen)].
Qed.

Lemma In_typed_entries (d : Z) (t : string) (a : Z) (ds : list Z)
    (ts : list (option string)) :
  forall amounts,
    In (d, t, a) (typed_entries ds ts amounts) -> In (Some t) ts.
Proof.
  revert ds. induction ts as [|c ts IH]; intros ds amounts H.
  - destruct ds; cbn in H; destruct H.
  - destruct ds as [|d0 ds]; [destruct H|].
    destruct amounts as [|a0 amounts]; [destruct c; destruct H|].
    destruct c as [t0|]; cbn in H.
    + destruct H as [H|H]; [inversion H; now left|right; eauto].
    + right. eauto.
Qed.

Lemma daily_column_is_a_type (label : string) (ds : list Z)
    (ts : list (option string)) (amounts : list Z) :
  existsb (String.eqb label) (daily_columns (unstack_sums ds ts amounts)) = true ->
  In (Some label) ts.
Proof.
  intros H. apply existsb_exists in H. destruct H as (x & Hin & Hx).
  apply String.eqb_eq in Hx. subst x.
  unfold unstack_sums in Hin. cbn [daily_columns] in Hin.
  eapply Permutation_in in Hin;
    [|apply Permutation_sym, (sorted_perm (fun k => k) String.ltb false)].
  apply In_unique_from in Hin. apply in_map_iff in Hin.
  destruct Hin as ([[d t] a] & E & Hin). cbn in E. subst t.
  now apply In_typed_entries in Hin.
Qed.

(** C10.  The layering detector looks for the types that are exactly
    [deposit] and [withdrawal]: on a table in which one of the two does
    not occur in the [transaction_type] column it returns no alerts,
    whatever the days look like.  Four days with a [Deposit] and a
    [Withdrawal] each give no layering alert, while the cash detector,
    which ignores case, reports them; written in lower case the same days
    give a layering alert. *)
Theorem layering_matches_types_exactly (rt : Runtime) (account : string)
    (w : World) :
  (~ In (Some "deposit") (map tx_transaction_type (rows (frame w))) \/
   ~ In (Some "withdrawal") (map tx_transaction_type (rows (frame w)))) ->
  (forall alerts,
      outcome (detect_layering_patterns rt account w) = inr alerts ->
      alerts = []) /\
  (forall stamps,
      has_column "amount" (frame w) = true ->
      date_values (view rt (frame w)) = inr stamps ->
      outcome (detect_layering_patterns rt account w) = inr []) /\
  outcome (detect_layering_patterns sample_runtime "ACC-12345"
             (mkWorld (in_and_out "Deposit" "Withdrawal") 0)) = inr [] /\
  (exists a,
      outcome (detect_cash_intensive_patterns sample_runtime "ACC-12345"
                 (mkWorld (in_and_out "Deposit" "Withdrawal") 0)) = inr [a]) /\
  (exists a,
      outcome (detect_layering_patterns sample_runtime "ACC-12345"
                 (mkWorld (in_and_out "deposit" "withdrawal") 0)) = inr [a]).
Proof.
  intros Hno.
  destruct (detect_layering_patterns_reads rt account w) as (w' & R & _).
  rewrite R. unfold outcome. cbn [fst].
  assert (Hg : forall alerts,
             layering_alerts rt account (view rt (frame w)) (ticks w) =
               inr alerts -> alerts = []).
  { unfold layering_alerts, view, getitem.
    cbn [type_values date_values amount_values].
    destruct (has_column "transaction_type" (frame w));
      [|intros alerts H; now inversion H].
    destruct (has_column "date" (frame w));
      [|intros alerts H; now inversion H].
    destruct (to_datetime rt _) as [e|stamps];
      [destruct e; intros alerts H; now inversion H|].
    destruct (has_column "amount" (frame w)); [|discriminate].
    cbn [and_then].
    set (daily := unstack_sums _ _ _).
    destruct (existsb (String.eqb "deposit") (daily_columns daily)) eqn:E1;
      [|intros alerts H; now inversion H].
    destruct (existsb (String.eqb "withdrawal") (daily_columns daily)) eqn:E2;
      [|intros alerts H; now inversion H].
    apply daily_column_is_a_type in E1, E2. tauto. }
  split; [exact Hg|]. split; [|split; [|split]].
  - intros stamps Ha Hs.
    destruct (layering_alerts rt account (view rt (frame w)) (ticks w))
      as [e|alerts] eqn:E.
    + exfalso. revert E. unfold layering_alerts. rewrite Hs.
      rewrite (amount_values_present rt _ Ha). cbn [and_then].
      destruct (type_values _); [discriminate|].
      now destruct (_ && _ && _).
    + now rewrite (Hg alerts eq_refl).
  - reflexivity.
  - eexists. reflexivity.
  - eexists. reflexivity.
Qed.

(** The layering detector on four days written with capitals. *)
Lemma layering_matches_types_exactly_witness :
  outcome (detect_layering_patterns sample_runtime "ACC-12345"
             (mkWorld (in_and_out "Deposit" "Withdrawal") 0)) = inr [].
Proof.
  apply (layering_matches_types_exactly sample_runtime "ACC-12345"
           (mkWorld (in_and_out "Deposit" "Withdrawal") 0))
    with (stamps := flat_map (fun day => [ midnight 2024 5 day;
                                           midnight 2024 5 day ])
                             [2; 3; 6; 7]).
  - left. cbn. intros H.
    repeat (destruct H as [H|H]; [discriminate H|]). exact H.
  - reflexivity.
  - reflexivity.
Defined.

(** ** Boundaries *)

Lemma np_div_at_boundary (a b num : Z) (den : positive) :
  Zpos den * a = num * b -> np_gt (np_div a b) (num # den) = false.
Proof.
  intros H. unfold np_div.
  destruct (Z.eqb_spec b 0) as [->|Hb].
  - assert (a = 0) by lia. subst a. reflexivity.
  - cbn [np_gt]. apply Qltb_false.
    assert (E : (inject_Z a / inject_Z b == num # den)%Q).
    { apply Qmult_inj_r with (inject_Z b).
      - unfold Qeq. cbn. lia.
      - rewrite Qmult_comm, Qmult_div_r by (unfold Qeq; cbn; lia).
        unfold Qeq. cbn. lia. }
    rewrite E. apply Qle_refl.
Qed.

Lemma int_gt_at_boundary (k : Z) (x : Q) :
  (inject_Z k == x)%Q -> int_gt k x = false.
Proof.
  intros H. unfold int_gt. apply Qltb_false. rewrite H. apply Qle_refl.
Qed.

Lemma Qltb_at_boundary (x c : Q) : (x == c)%Q -> Qltb c x = false.
Proof. intros H. apply Qltb_false. rewrite H. apply Qle_refl. Qed.

Lemma threshold_alerts_over_quiet (rt : Runtime) (account : string)
    (amounts : list Z) (ts : list Z) :
  (forall t, In t ts -> len (filter (in_band t) amounts) <= 3) ->
  forall k, threshold_alerts_over rt account amounts ts k = [].
Proof.
  induction ts as [|t ts IH]; intros H k; cbn [threshold_alerts_over];
    [reflexivity|].
  replace (3 <? len (filter (in_band t) amounts)) with false.
  - apply IH. intros t' Ht'. apply H. now right.
  - symmetry. apply Z.ltb_ge. apply H. now left.
Qed.

Lemma threshold_alerts_over_avoids (rt : Runtime) (account : string)
    (amounts : list Z) (t : Z) (ts : list Z) :
  In t thresholds ->
  (forall t', In t' ts -> In t' thresholds) ->
  len (filter (in_band t) amounts) = 3 ->
  forall k,
    filter (avoids t) (threshold_alerts_over rt account amounts ts k) = [].
Proof.
  intros Ht Hts H3. induction ts as [|t' ts IH]; intros k;
    cbn [threshold_alerts_over]; [reflexivity|].
  assert (Hrest : forall t'', In t'' ts -> In t'' thresholds)
    by (intros t'' Hin; apply Hts; now right).
  destruct (3 <? len (filter (in_band t') amounts)) eqn:E; [|now apply IH].
  cbn [filter]. rewrite (IH Hrest).
  replace (avoids t _) with false; [reflexivity|].
  symmetry. unfold avoids. cbn [description].
  assert (Ht' : In t' thresholds) by (apply Hts; now left).
  assert (Hne : t' <> t) by (intros ->; rewrite H3 in E; discriminate).
  cbn in Ht, Ht'.
  repeat (destruct Ht as [<-|Ht]; [|]);
    repeat (destruct Ht' as [<-|Ht']; [|]);
    try contradiction; try (now elim Hne); reflexivity.
Qed.



(** ** The numbers of the examples in binary64 *)

(** The lower ends of the four bands are the integers 9000, 4500, 2700 and
    900, as in the rational [in_band]. *)
Example binary64_band_floors :
  (PrimFloat.eqb (binary64_band_floor 10000) 9000 &&
   PrimFloat.eqb (binary64_band_floor 5000) 4500 &&
   PrimFloat.eqb (binary64_band_floor 3000) 2700 &&
   PrimFloat.eqb (binary64_band_floor 1000) 900)%bool = true /\
  Forall (fun t => (inject_Z t * 0.9 == inject_Z (9 * t / 10))%Q) thresholds.
Proof. split; [reflexivity|]. repeat constructor. Qed.

(** 13 round amounts in 20: above 0.6, below 0.8, confidence 65 exactly. *)
Example binary64_round_example :
  binary64_fraction_exceeds 13 20 0.6 = true /\
  binary64_fraction_exceeds 13 20 0.8 = false /\
  PrimFloat.eqb (13 / 20) 0.8 = false /\
  PrimFloat.eqb (binary64_confidence 13 20) 65 = true.
Proof. repeat split. Qed.

(** On the boundaries the comparisons are false, as on the rationals. *)
Example binary64_boundaries :
  binary64_fraction_exceeds 12 20 0.6 = false /\
  binary64_fraction_exceeds 5000 10000 0.5 = false /\
  binary64_fraction_exceeds 3 10 0.3 = false /\
  binary64_fraction_exceeds 1200 3000 0.4 = false /\
  binary64_count_exceeds 3 10 0.3 = false /\
  binary64_count_exceeds 2 5 0.4 = false /\
  binary64_count_exceeds 5 20 0.25 = false /\
  binary64_count_exceeds 8 20 0.4 = false.
Proof. repeat split. Qed.

(** ** Further properties of the engine *)

(** *** Dates that parse *)

Lemma to_datetime_first_unparsed (rt : Runtime) (col : list DateCell) :
  match first_unparsed rt col with
  | Some s => to_datetime rt col = inl (ValueError s)
  | None => exists ts, to_datetime rt col = inr ts
  end.
Proof.
  induction col as [|[t|s] col IH]; cbn [first_unparsed to_datetime].
  - now exists [].
  - destruct (first_unparsed rt col).
    + now rewrite IH.
    + destruct IH as (ts & ->). now exists (t :: ts).
  - destruct (parse_datetime rt s) as [t|]; [|reflexivity].
    destruct (first_unparsed rt col).
    + now rewrite IH.
    + destruct IH as (ts & ->). now exists (t :: ts).
Qed.

Lemma first_unparsed_In (rt : Runtime) (col : list DateCell) (s : string) :
  first_unparsed rt col = Some s ->
  In (Text s) col /\ parse_datetime rt s = None.
Proof.
  induction col as [|[t|s'] col IH]; cbn [first_unparsed]; intros H.
  - discriminate.
  - destruct (IH H). split; [now right|assumption].
  - destruct (parse_datetime rt s') eqn:E.
    + destruct (IH H). split; [now right|assumption].
    + injection H as <-. split; [now left|assumption].
Qed.

Lemma first_unparsed_parses (rt : Runtime) (col : list DateCell) :
  first_unparsed rt col = None <-> forallb (parses rt) col = true.
Proof.
  induction col as [|[t|s] col IH]; cbn [first_unparsed forallb parses andb].
  - tauto.
  - exact IH.
  - destruct (parse_datetime rt s); cbn [andb]; [exact IH|].
    split; discriminate.
Qed.

(** The [date] column as the detectors read it. *)
Lemma date_values_cases (rt : Runtime) (f : DataFrame) :
  date_values (view rt f) =
  if has_column "date" f then to_datetime rt (map tx_date (rows f))
  else inl (KeyError "date").
Proof.
  unfold view, getitem. cbn [date_values]. now destruct (has_column "date" f).
Qed.

Lemma date_values_parse (rt : Runtime) (f : DataFrame) :
  dates_parse rt f = true ->
  date_values (view rt f) = inl (KeyError "date") \/
  exists stamps, date_values (view rt f) = inr stamps.
Proof.
  unfold dates_parse. rewrite date_values_cases.
  destruct (has_column "date" f); cbn [negb orb]; intros H; [right|now left].
  apply first_unparsed_parses in H.
  pose proof (to_datetime_first_unparsed rt (map tx_date (rows f))) as P.
  now rewrite H in P.
Qed.

Lemma date_values_rejects (rt : Runtime) (f : DataFrame) :
  has_column "date" f = true -> dates_parse rt f = false ->
  exists s,
    first_unparsed rt (map tx_date (rows f)) = Some s /\
    date_values (view rt f) = inl (ValueError s).
Proof.
  unfold dates_parse. rewrite date_values_cases. intros ->. cbn [negb orb].
  intros H.
  pose proof (to_datetime_first_unparsed rt (map tx_date (rows f))) as P.
  destruct (first_unparsed rt (map tx_date (rows f))) as [s|] eqn:E.
  - now exists s.
  - apply first_unparsed_parses in E. congruence.
Qed.

(** *** What the readings return *)

Lemma Forall_readings (rt : Runtime) (account : string)
    (P : (View -> nat -> exn + list Alert) -> Prop) :
  P (round_number_alerts rt account) ->
  P (description_alerts rt account) ->
  P (frequency_alerts rt account) ->
  P (threshold_alerts rt account) ->
  P (end_of_period_alerts rt account) ->
  P (counterparty_alerts rt account) ->
  P (cash_alerts rt account) ->
  P (layering_alerts rt account) ->
  Forall P (readings rt account).
Proof. intros. unfold readings. repeat constructor; assumption. Qed.

Ltac split_ifs :=
  repeat match goal with
         | |- context [if ?c then _ else _] => destruct c eqn:?
         end.

(** With the [amount] column and dates that parse, every reading is a list
    of alerts. *)
Lemma readings_return (rt : Runtime) (account : string) (v : View)
    (amounts : list Z) :
  amount_values v = inr amounts ->
  ((exists l, date_values v = inl (KeyError l)) \/
   exists stamps, date_values v = inr stamps) ->
  Forall (fun g => forall t, exists l, g v t = inr l) (readings rt account).
Proof.
  intros Ha Hd. apply Forall_readings; intros t.
  - unfold round_number_alerts. rewrite Ha. cbn [and_then].
    split_ifs; eexists; reflexivity.
  - unfold description_alerts, vague_alerts.
    destruct (description_values v); [eexists; reflexivity|].
    rewrite Ha. split_ifs; cbn [and_then]; eexists; reflexivity.
  - unfold frequency_alerts.
    destruct Hd as [(lab & ->)|(stamps & ->)]; [eexists; reflexivity|].
    split_ifs; eexists; reflexivity.
  - unfold threshold_alerts. rewrite Ha. cbn [and_then]. eexists; reflexivity.
  - unfold end_of_period_alerts, month_end_alerts.
    destruct Hd as [(lab & ->)|(stamps & ->)]; [eexists; reflexivity|].
    rewrite Ha. split_ifs; cbn [and_then]; eexists; reflexivity.
  - unfold counterparty_alerts.
    destruct (counterparty_values v) as [|names]; [eexists; reflexivity|].
    rewrite Ha. cbn [and_then].
    destruct (0 <? len (value_counts names)) eqn:E; [|eexists; reflexivity].
    pose proof (group_sums_nonempty names amounts E) as N.
    destruct (sort_values_descending (group_sums names amounts));
      [contradiction|].
    split_ifs; eexists; reflexivity.
  - unfold cash_alerts.
    destruct (type_values v); [eexists; reflexivity|].
    rewrite Ha. cbn [and_then]. split_ifs; eexists; reflexivity.
  - unfold layering_alerts.
    destruct (type_values v); [eexists; reflexivity|].
    destruct Hd as [(lab & ->)|(stamps & ->)]; [eexists; reflexivity|].
    rewrite Ha. cbn [and_then]. split_ifs; eexists; reflexivity.
Qed.

(** A reading that is an exception is the exception of the [amount] or of
    the [date] column. *)
Lemma readings_raise (rt : Runtime) (account : string) (v : View) :
  Forall (fun g => forall t e,
              g v t = inl e ->
              amount_values v = inl e \/ date_values v = inl e)
         (readings rt account).
Proof.
  apply Forall_readings; intros t e.
  - unfold round_number_alerts.
    destruct (amount_values v); cbn [and_then]; [intros [= ->]; now left|].
    split_ifs; discriminate.
  - unfold description_alerts, vague_alerts.
    destruct (description_values v); [discriminate|].
    destruct (int_gt _ _); cbn [and_then]; [|discriminate].
    destruct (amount_values v); cbn [and_then]; [intros [= ->]; now left|].
    discriminate.
  - unfold frequency_alerts.
    destruct (date_values v) as [[]|]; try discriminate;
      try (intros [= <-]; now right).
    split_ifs; discriminate.
  - unfold threshold_alerts.
    destruct (amount_values v); cbn [and_then]; [intros [= ->]; now left|].
    discriminate.
  - unfold end_of_period_alerts, month_end_alerts.
    destruct (date_values v) as [[]|]; try discriminate;
      try (intros [= <-]; now right).
    destruct (int_gt _ _); cbn [and_then]; [|discriminate].
    destruct (amount_values v); cbn [and_then]; [intros [= ->]; now left|].
    discriminate.
  - unfold counterparty_alerts.
    destruct (counterparty_values v) as [|names]; [discriminate|].
    destruct (amount_values v) as [|amounts]; cbn [and_then];
      [intros [= ->]; now left|].
    destruct (0 <? len (value_counts names)) eqn:E; [|discriminate].
    pose proof (group_sums_nonempty names amounts E) as N.
    destruct (sort_values_descending (group_sums names amounts));
      [contradiction|].
    split_ifs; discriminate.
  - unfold cash_alerts.
    destruct (type_values v); [discriminate|].
    destruct (0 <? _); [|discriminate].
    destruct (amount_values v); cbn [and_then]; [intros [= ->]; now left|].
    split_ifs; discriminate.
  - unfold layering_alerts.
    destruct (type_values v); [discriminate|].
    destruct (date_values v) as [[]|]; try discriminate;
      try (intros [= <-]; now right).
    destruct (amount_values v); cbn [and_then]; [intros [= ->]; now left|].
    split_ifs; discriminate.
Qed.

(** *** Detectors run one after the other *)

(** The detectors of a list that read the view [v] either all return, each
    what its reading makes of [v], or the run ends with the exception of
    one of the readings. *)
Lemma run_in_order_reads (rt : Runtime) (v : View)
    (ds : list (M (list Alert))) (gs : list (View -> nat -> exn + list Alert)) :
  Forall2 (reads rt) ds gs ->
  forall (alerts : list Alert) (w : World),
    view rt (frame w) = v ->
    (exists founds w',
        run_in_order ds alerts w = (inr (alerts ++ List.concat founds)%list, w') /\
        Forall2 (fun g found => exists t, g v t = inr found) gs founds /\
        view rt (frame w') = v) \/
    (exists e w' g t,
        run_in_order ds alerts w = (inl e, w') /\ In g gs /\ g v t = inl e).
Proof.
  induction 1 as [|d g ds gs Hd _ IH]; intros alerts w Hv.
  - left. exists [], w. cbn [List.concat run_in_order]. rewrite app_nil_r.
    split; [reflexivity|]. split; [constructor|assumption].
  - destruct (Hd w) as (w1 & R1 & V1). rewrite Hv in R1, V1.
    cbn [run_in_order]. unfold bind. rewrite R1.
    destruct (g v (ticks w)) as [e|found] eqn:G.
    + right. exists e, w1, g, (ticks w).
      split; [reflexivity|]. split; [now left|assumption].
    + destruct (IH (alerts ++ found)%list w1 V1)
        as [(founds & w2 & R2 & F2 & V2)|(e & w2 & g' & t & R2 & I2 & G2)].
      * left. exists (found :: founds), w2. cbn [List.concat].
        rewrite app_assoc. split; [assumption|]. split; [|assumption].
        constructor; [now exists (ticks w)|assumption].
      * right. exists e, w2, g', t.
        split; [assumption|]. split; [now right|assumption].
Qed.

Lemma analyze_account_returns (rt : Runtime)
    (account_info : list (string * string)) (w : World) :
  has_column "amount" (frame w) = true ->
  dates_parse rt (frame w) = true ->
  exists alerts w', analyze_account rt account_info w = (inr alerts, w').
Proof.
  intros Ha Hd. rewrite analyze_account_in_order.
  set (account := get account_info "account_id" "unknown").
  pose proof (readings_return rt account (view rt (frame w)) _
                (amount_values_present rt _ Ha)) as R.
  assert (D : (exists l, date_values (view rt (frame w)) = inl (KeyError l)) \/
              exists stamps, date_values (view rt (frame w)) = inr stamps).
  { destruct (date_values_parse rt _ Hd) as [E|E]; [left; now exists "date"|now right]. }
  specialize (R D).
  destruct (run_in_order_reads rt _ _ _ (battery_reads rt account) [] w eq_refl)
    as [(founds & w' & E & _)|(e & w' & g & t & _ & I & G)].
  - unfold bind. rewrite E. eexists _, _. reflexivity.
  - rewrite Forall_forall in R. destruct (R g I t) as (l & L). congruence.
Qed.

Lemma detectors_return (rt : Runtime) (account : string) (w : World) :
  has_column "amount" (frame w) = true ->
  dates_parse rt (frame w) = true ->
  Forall (fun d => exists alerts, outcome (d w) = inr alerts)
         (battery rt account).
Proof.
  intros Ha Hd.
  pose proof (readings_return rt account (view rt (frame w)) _
                (amount_values_present rt _ Ha)) as R.
  assert (D : (exists l, date_values (view rt (frame w)) = inl (KeyError l)) \/
              exists stamps, date_values (view rt (frame w)) = inr stamps).
  { destruct (date_values_parse rt _ Hd) as [E|E]; [left; now exists "date"|now right]. }
  specialize (R D). clear D.
  pose proof (battery_reads rt account) as B.
  induction B as [|d g ds gs Hdg _ IH]; constructor;
    inversion R as [|? ? Hg Hgs]; subst.
  - destruct (Hdg w) as (w1 & R1 & _). rewrite R1. apply Hg.
  - now apply IH.
Qed.

Lemma analyze_account_without_amount (rt : Runtime)
    (account_info : list (string * string)) (w : World) :
  has_column "amount" (frame w) = false ->
  exists w',
    analyze_account rt account_info w = (inl (KeyError "amount"), w') /\
    frame w' = frame w /\ ticks w' = ticks w.
Proof.
  intros Ha. rewrite analyze_account_in_order.
  unfold battery. cbn [run_in_order]. unfold bind at 1 2.
  unfold detect_round_number_patterns. unfold_run. rewrite Ha.
  exists w. repeat split.
Qed.

Lemma analyze_account_rejected_date (rt : Runtime)
    (account_info : list (string * string)) (w : World) (s : string) :
  has_column "amount" (frame w) = true ->
  has_column "date" (frame w) = true ->
  first_unparsed rt (map tx_date (rows (frame w))) = Some s ->
  exists w',
    analyze_account rt account_info w = (inl (ValueError s), w') /\
    frame w' = frame w.
Proof.
  intros Ha Hd Hs. rewrite analyze_account_in_order.
  set (account := get account_info "account_id" "unknown").
  set (v := view rt (frame w)).
  assert (Av : amount_values v = inr (amounts_of (frame w)))
    by now apply amount_values_present.
  assert (Dv : date_values v = inl (ValueError s)).
  { unfold v. rewrite date_values_cases, Hd.
    pose proof (to_datetime_first_unparsed rt (map tx_date (rows (frame w)))) as P.
    now rewrite Hs in P. }
  unfold battery. cbn [run_in_order].
  destruct (detect_round_number_patterns_reads rt account w) as (w1 & R1 & F1).
  fold v in R1.
  assert (exists l1, round_number_alerts rt account v (ticks w) = inr l1)
    as (l1 & L1).
  { unfold round_number_alerts. rewrite Av. cbn [and_then].
    split_ifs; eexists; reflexivity. }
  rewrite L1 in R1.
  destruct (detect_suspicious_descriptions_reads rt account w1) as (w2 & R2 & F2).
  rewrite F1 in R2. fold v in R2.
  assert (exists l2, description_alerts rt account v (ticks w1) = inr l2)
    as (l2 & L2).
  { unfold description_alerts, vague_alerts.
    destruct (description_values v); [eexists; reflexivity|].
    rewrite Av. split_ifs; cbn [and_then]; eexists; reflexivity. }
  rewrite L2 in R2.
  destruct (detect_unusual_frequency_patterns_reads rt account w2)
    as (w3 & R3 & F3).
  rewrite F2, F1 in R3, F3. fold v in R3.
  assert (L3 : frequency_alerts rt account v (ticks w2) = inl (ValueError s)).
  { unfold frequency_alerts. now rewrite Dv. }
  rewrite L3 in R3.
  exists w3. split.
  - unfold bind. rewrite R1, R2, R3. reflexivity.
  - rewrite F3. unfold parsed_frame. fold v. now rewrite Dv.
Qed.

(** *** Lists with elements left out *)

Lemma Subseq_nil_l {T : Type} (m : list T) : Subseq [] m.
Proof. induction m; constructor; assumption. Qed.

Lemma Subseq_refl {T : Type} (m : list T) : Subseq m m.
Proof. induction m; constructor; assumption. Qed.

Lemma Subseq_app {T : Type} (a b c d : list T) :
  Subseq a b -> Subseq c d -> Subseq (a ++ c) (b ++ d).
Proof.
  intros H1 H2. induction H1; cbn [app];
    [assumption|now apply Subseq_skip|now apply Subseq_take].
Qed.

Lemma Subseq_length {T : Type} (l m : list T) :
  Subseq l m -> (List.length l <= List.length m)%nat.
Proof. induction 1; cbn [List.length]; lia. Qed.

Lemma Subseq_filter {T : Type} (p : T -> bool) (l m : list T) :
  Subseq l m -> Subseq (filter p l) (filter p m).
Proof.
  induction 1; cbn [filter]; try destruct (p _);
    [constructor|now apply Subseq_skip|assumption|now apply Subseq_take
    |assumption].
Qed.

Lemma Subseq_concat {T : Type} (ls ms : list (list T)) :
  Forall2 Subseq ls ms -> Subseq (List.concat ls) (List.concat ms).
Proof.
  induction 1; cbn [List.concat]; [constructor|now apply Subseq_app].
Qed.

Lemma Permutation_filter_length {T : Type} (p : T -> bool) (l m : list T) :
  Permutation l m -> List.length (filter p l) = List.length (filter p m).
Proof.
  induction 1; cbn [filter]; repeat destruct (p _); cbn [List.length]; lia.
Qed.

(** *** The alerts of the readings *)

Ltac in_emission_order :=
  cbn; repeat (first [left; reflexivity | right]).

Ltac well_formed_alert :=
  unfold well_formed;
  cbn [account_id risk_level confidence_score alert_type evidence];
  split; [|split; [|split; [|split; [|split]]]];
  [ reflexivity
  | first [now left | now right | idtac]
  | try (unfold Qle; cbn; lia)
  | try (unfold Qle; cbn; lia)
  | in_emission_order
  | try discriminate ].

Lemma inr_eq {A B : Type} (a b : B) : @inr A B a = inr b -> a = b.
Proof. now intros [=]. Qed.

Ltac take_result :=
  let H := fresh in intros H; apply inr_eq in H; subst.

Ltac single_alert :=
  first [apply Forall_nil | apply Forall_cons; [|apply Forall_nil]].

Lemma round_confidence (fraction : Q) :
  Qltb 0.6 fraction = true ->
  (60 <= py_min (fraction * 100) 95)%Q /\ (py_min (fraction * 100) 95 <= 95)%Q.
Proof.
  intros H. apply Qltb_true in H. unfold py_min.
  destruct (Qltb 95 (fraction * 100)) eqn:E.
  - split; unfold Qle; cbn; lia.
  - apply Qltb_false in E. split; [|exact E].
    destruct fraction as [n d]. unfold Qlt, Qle, Qmult in *. cbn in *. lia.
Qed.

Lemma threshold_alerts_over_well_formed (rt : Runtime) (account : string)
    (amounts : list Z) (ts : list Z) :
  forall k,
    Forall (well_formed account)
           (threshold_alerts_over rt account amounts ts k) /\
    Subseq (map alert_type (threshold_alerts_over rt account amounts ts k))
           (map (fun _ => "Threshold Avoidance") ts).
Proof.
  induction ts as [|t ts IH]; intros k; cbn [threshold_alerts_over map].
  - split; constructor.
  - destruct (3 <? len _).
    + destruct (IH (S k)) as (W & S). split.
      * constructor; [|exact W].
        well_formed_alert. destruct (10000 <=? t); [now right|now left].
      * cbn [map alert_type]. now constructor.
    + destruct (IH k) as (W & S). split; [exact W|now constructor].
Qed.

Lemma readings_well_formed (rt : Runtime) (account : string) (v : View) :
  Forall (fun g => forall t l,
              g v t = inr l -> Forall (well_formed account) l)
         (readings rt account).
Proof.
  apply Forall_readings; intros t l.
  - unfold round_number_alerts.
    destruct (amount_values v); cbn [and_then]; [discriminate|].
    destruct (10 <? size v); cbn [andb]; [|take_result; constructor].
    destruct (Qltb 0.6 _) eqn:E; take_result; single_alert.
    destruct (round_confidence _ E). well_formed_alert; try assumption.
    destruct (Qltb _ 0.8); [now left|now right].
  - unfold description_alerts, vague_alerts, repeated_alerts.
    destruct (description_values v) as [|ds]; [take_result; constructor|].
    assert (R : forall k,
               Forall (well_formed account)
                 (if 0 <? len (filter (fun dc => 5 <? snd dc) (value_counts ds))
                  then [ mkAlert account "Repeated Transaction Descriptions"
                           MEDIUM 60
                           "Multiple transactions with identical descriptions"
                           (map (fun dc => "Description '" ++ fst dc ++
                                           "' appears " ++ str (snd dc) ++
                                           " times")
                                (firstn 5
                                   (filter (fun dc => 5 <? snd dc)
                                           (value_counts ds))))
                           (wall_clock rt k) 0 ]
                  else [])).
    { intros k. destruct (0 <? len _) eqn:E; single_alert.
      well_formed_alert.
      destruct (filter _ (value_counts ds)); [discriminate E|discriminate]. }
    destruct (int_gt _ _); cbn [and_then].
    + destruct (amount_values v); cbn [and_then]; [discriminate|].
      take_result. cbn [app]. apply Forall_cons; [|apply R].
      well_formed_alert.
    + take_result. apply R.
  - unfold frequency_alerts.
    destruct (date_values v) as [[]|]; try discriminate;
      try (take_result; constructor).
    destruct (int_gt _ _); take_result; single_alert.
    well_formed_alert.
  - unfold threshold_alerts.
    destruct (amount_values v); cbn [and_then]; [discriminate|].
    take_result. apply threshold_alerts_over_well_formed.
  - unfold end_of_period_alerts, month_end_alerts, quarter_end_alerts.
    destruct (date_values v) as [[]|]; try discriminate;
      try (take_result; constructor).
    destruct (int_gt _ (inject_Z (size v) * 0.25)); cbn [and_then].
    + destruct (amount_values v); cbn [and_then]; [discriminate|].
      take_result. cbn [app]. apply Forall_cons; [well_formed_alert|].
      destruct (int_gt _ _); single_alert. well_formed_alert.
    + take_result. cbn [app].
      destruct (int_gt _ _); single_alert. well_formed_alert.
  - unfold counterparty_alerts.
    destruct (counterparty_values v); [take_result; constructor|].
    destruct (amount_values v); cbn [and_then]; [discriminate|].
    destruct (0 <? _); [|take_result; constructor].
    destruct (sort_values_descending _); [discriminate|].
    destruct (np_gt _ _); take_result; single_alert.
    well_formed_alert.
  - unfold cash_alerts.
    destruct (type_values v); [take_result; constructor|].
    destruct (0 <? _); [|take_result; constructor].
    destruct (amount_values v); cbn [and_then]; [discriminate|].
    destruct (_ || _); take_result; single_alert.
    well_formed_alert. destruct (np_gt _ 0.6); [now right|now left].
  - unfold layering_alerts.
    destruct (type_values v); [take_result; constructor|].
    destruct (date_values v) as [[]|]; try discriminate;
      try (take_result; constructor).
    destruct (amount_values v); cbn [and_then]; [discriminate|].
    destruct (_ && _); take_result; single_alert.
    well_formed_alert.
Qed.

Ltac subseq_alerts :=
  cbn [map alert_type app];
  repeat first [ apply Subseq_nil | apply Subseq_take | apply Subseq_skip ].

(** The alert types of each reading, in order, with some left out. *)
Lemma readings_types (rt : Runtime) (account : string) (v : View) :
  Forall2 (fun g types => forall t l,
               g v t = inr l -> Subseq (map alert_type l) types)
          (readings rt account)
          [ ["Round Number Pattern"];
            ["Vague Transaction Descriptions";
             "Repeated Transaction Descriptions"];
            ["Burst Transaction Pattern"];
            ["Threshold Avoidance"; "Threshold Avoidance";
             "Threshold Avoidance"; "Threshold Avoidance"];
            ["End-of-Period Clustering"; "Quarter-End Pattern"];
            ["Counterparty Concentration"];
            ["High Cash Activity"];
            ["Layering Pattern"] ].
Proof.
  unfold readings. repeat apply Forall2_cons; try apply Forall2_nil;
    intros t l.
  - unfold round_number_alerts.
    destruct (amount_values v); cbn [and_then]; [discriminate|].
    destruct (_ && _); take_result; subseq_alerts.
  - unfold description_alerts, vague_alerts, repeated_alerts.
    destruct (description_values v) as [|ds]; [take_result; subseq_alerts|].
    destruct (int_gt _ _); cbn [and_then].
    + destruct (amount_values v); cbn [and_then]; [discriminate|].
      take_result. destruct (0 <? _); subseq_alerts.
    + take_result. destruct (0 <? _); subseq_alerts.
  - unfold frequency_alerts.
    destruct (date_values v) as [[]|]; try discriminate;
      try (take_result; subseq_alerts).
    destruct (int_gt _ _); take_result; subseq_alerts.
  - unfold threshold_alerts.
    destruct (amount_values v); cbn [and_then]; [discriminate|].
    take_result. apply (threshold_alerts_over_well_formed rt account _ thresholds).
  - unfold end_of_period_alerts, month_end_alerts, quarter_end_alerts.
    destruct (date_values v) as [[]|]; try discriminate;
      try (take_result; subseq_alerts).
    destruct (int_gt _ (inject_Z (size v) * 0.25)); cbn [and_then].
    + destruct (amount_values v); cbn [and_then]; [discriminate|].
      take_result. destruct (int_gt _ _); subseq_alerts.
    + take_result. destruct (int_gt _ _); subseq_alerts.
  - unfold counterparty_alerts.
    destruct (counterparty_values v); [take_result; subseq_alerts|].
    destruct (amount_values v); cbn [and_then]; [discriminate|].
    destruct (0 <? _); [|take_result; subseq_alerts].
    destruct (sort_values_descending _); [discriminate|].
    destruct (np_gt _ _); take_result; subseq_alerts.
  - unfold cash_alerts.
    destruct (type_values v); [take_result; subseq_alerts|].
    destruct (0 <? _); [|take_result; subseq_alerts].
    destruct (amount_values v); cbn [and_then]; [discriminate|].
    destruct (_ || _); take_result; subseq_alerts.
  - unfold layering_alerts.
    destruct (type_values v); [take_result; subseq_alerts|].
    destruct (date_values v) as [[]|]; try discriminate;
      try (take_result; subseq_alerts).
    destruct (amount_values v); cbn [and_then]; [discriminate|].
    destruct (_ && _); take_result; subseq_alerts.
Qed.

(** *** What [analyze_account] returns *)

(** The alerts of a run that returns: the prioritized concatenation of what
    the readings make of the view of the caller's table. *)
Lemma analyze_account_emits (rt : Runtime)
    (account_info : list (string * string)) (w w' : World)
    (alerts : list Alert) :
  analyze_account rt account_info w = (inr alerts, w') ->
  exists founds,
    alerts = prioritize_alerts (List.concat founds) /\
    Forall2 (fun g found => exists t, g (view rt (frame w)) t = inr found)
            (readings rt (get account_info "account_id" "unknown")) founds /\
    view rt (frame w') = view rt (frame w).
Proof.
  rewrite analyze_account_in_order.
  set (account := get account_info "account_id" "unknown").
  destruct (run_in_order_reads rt _ _ _ (battery_reads rt account) [] w eq_refl)
    as [(founds & w1 & E & F & V)|(e & w1 & g & t & E & _)];
    unfold bind; rewrite E; [|discriminate].
  unfold ret. cbn [app]. intros [= <- <-]. now exists founds.
Qed.

Lemma Forall2_Forall_l {A B : Type} (R : A -> B -> Prop) (P : A -> Prop)
    (Q : B -> Prop) (l : list A) (m : list B) :
  (forall a b, P a -> R a b -> Q b) ->
  Forall P l -> Forall2 R l m -> Forall Q m.
Proof.
  intros H Hl Hlm. induction Hlm; constructor;
    inversion Hl; subst; eauto.
Qed.

Lemma Forall2_compose {A B C : Type} (R : A -> B -> Prop) (S : A -> C -> Prop)
    (T : B -> C -> Prop) (l : list A) (m : list B) (n : list C) :
  (forall a b c, R a b -> S a c -> T b c) ->
  Forall2 R l m -> Forall2 S l n -> Forall2 T m n.
Proof.
  intros H Hlm. revert n. induction Hlm; intros n Hln; inversion Hln; subst;
    constructor; eauto.
Qed.

Lemma Forall_concat {T : Type} (P : T -> Prop) (ls : list (list T)) :
  Forall (Forall P) ls -> Forall P (List.concat ls).
Proof.
  induction 1; cbn [List.concat]; [constructor|].
  apply Forall_app. now split.
Qed.

Lemma Forall2_types (v : View)
    (gs : list (View -> nat -> exn + list Alert)) (groups : list (list string))
    (founds : list (list Alert)) :
  Forall2 (fun g types => forall t l,
               g v t = inr l -> Subseq (map alert_type l) types) gs groups ->
  Forall2 (fun g found => exists t, g v t = inr found) gs founds ->
  Forall2 Subseq (map (map alert_type) founds) groups.
Proof.
  intros T. revert founds.
  induction T as [|g types gs groups Hg _ IH]; intros founds F;
    inversion F as [|? found ? founds' (t & E) Hfs]; subst; cbn [map].
  - apply Forall2_nil.
  - apply Forall2_cons; [exact (Hg t found E)|now apply IH].
Qed.

Lemma emitted_well_formed (rt : Runtime) (account : string) (v : View)
    (founds : list (list Alert)) :
  Forall2 (fun g found => exists t, g v t = inr found)
          (readings rt account) founds ->
  Forall (well_formed account) (List.concat founds) /\
  Subseq (map alert_type (List.concat founds)) emission_order.
Proof.
  intros F. split.
  - apply Forall_concat.
    apply (Forall2_Forall_l _ _ _ _ _ (fun g found P R =>
             match R with ex_intro _ t E => P t found E end)
             (readings_well_formed rt account v) F).
  - rewrite concat_map.
    exact (Subseq_concat _ _
             (Forall2_types v _ _ _ (readings_types rt account v) F)).
Qed.




(** X3.  Every alert that [analyze_account] returns carries the account id
    of the call ('unknown' when [account_info] has no 'account_id'), has
    risk level MEDIUM or HIGH, never LOW or CRITICAL, a confidence score
    from 60 to 95, one of the ten alert types and at least one line of
    evidence. *)
Theorem alerts_are_well_formed (rt : Runtime)
    (account_info : list (string * string)) (w : World)
    (alerts : list Alert) :
  outcome (analyze_account rt account_info w) = inr alerts ->
  Forall (well_formed (get account_info "account_id" "unknown")) alerts /\
  (~ In "account_id" (map fst account_info) ->
   Forall (fun a => account_id a = "unknown") alerts).
Proof.
  intros H.
  destruct (analyze_account rt account_info w) as [r w'] eqn:E.
  cbn [outcome fst] in H. subst r.
  destruct (analyze_account_emits rt account_info w w' alerts E)
    as (founds & -> & F & _).
  destruct (emitted_well_formed rt _ _ founds F) as (W & _).
  assert (P : Forall (well_formed (get account_info "account_id" "unknown"))
                     (prioritize_alerts (List.concat founds))).
  { eapply Permutation_Forall; [|exact W]. apply sorted_perm. }
  split; [exact P|].
  intros N.
  assert (G : get account_info "account_id" "unknown" = "unknown").
  { clear -N. induction account_info as [|[k x] rest IH]; [reflexivity|].
    cbn [get]. cbn [map fst In] in N.
    destruct (String.eqb_spec k "account_id") as [->|_]; [tauto|].
    apply IH. tauto. }
  rewrite G in P. revert P. apply Forall_impl. now intros a (A & _).
Qed.

(** Without an 'account_id' the alerts for four payments below 10000 carry
    the account id 'unknown'. *)
Lemma alerts_are_well_formed_witness :
  exists alerts,
    outcome (analyze_account sample_runtime [("customer_id", "CUST-67890")]
               (mkWorld threshold_sample 0)) = inr alerts /\
    alerts <> [] /\
    Forall (well_formed "unknown") alerts.
Proof.
  eexists. split; [vm_compute; reflexivity|]. split; [discriminate|].
  apply (alerts_are_well_formed sample_runtime [("customer_id", "CUST-67890")]
           (mkWorld threshold_sample 0)).
  vm_compute. reflexivity.
Defined.

Lemma len_filter_cons {T : Type} (p : T -> bool) (x : T) (l : list T) :
  len (filter p (x :: l)) = (if p x then 1 else 0) + len (filter p l).
Proof.
  cbn [filter]. destruct (p x); unfold len; cbn [List.length]; lia.
Qed.

Lemma count_in_emission_order (type : string) :
  len (filter (fun s => String.eqb s type) emission_order) <=
  if String.eqb type "Threshold Avoidance" then 4 else 1.
Proof.
  destruct (String.eqb_spec type "Threshold Avoidance") as [->|N];
    [vm_compute; intros X; discriminate X|].
  unfold emission_order. rewrite !len_filter_cons.
  change (len (filter (fun s => String.eqb s type) [])) with 0.
  repeat match goal with
         | |- context [String.eqb ?n type] =>
             destruct (String.eqb_spec n type) as [<-|?];
             [first [congruence | vm_compute; intros X; discriminate X]|]
         end.
  lia.
Qed.

(** X4.  [analyze_account] returns at most thirteen alerts: read in the
    order of their emission, their types are the list of the thirteen
    possible alerts with some left out, so every type occurs at most once,
    except 'Threshold Avoidance', which occurs at most four times. *)
Theorem at_most_thirteen_alerts (rt : Runtime)
    (account_info : list (string * string)) (w : World)
    (alerts : list Alert) :
  outcome (analyze_account rt account_info w) = inr alerts ->
  (exists emitted,
      alerts = prioritize_alerts emitted /\
      Subseq (map alert_type emitted) emission_order) /\
  len alerts <= 13 /\
  forall type,
    count_type type alerts <=
    if String.eqb type "Threshold Avoidance" then 4 else 1.
Proof.
  intros H.
  destruct (analyze_account rt account_info w) as [r w'] eqn:E.
  cbn [outcome fst] in H. subst r.
  destruct (analyze_account_emits rt account_info w w' alerts E)
    as (founds & -> & F & _).
  destruct (emitted_well_formed rt _ _ founds F) as (_ & S).
  set (emitted := List.concat founds) in *.
  assert (P : Permutation emitted (prioritize_alerts emitted))
    by apply sorted_perm.
  split; [now exists emitted|]. split.
  - unfold len. rewrite <- (Permutation_length P).
    apply Subseq_length in S. rewrite length_map in S.
    change (List.length emission_order) with 13%nat in S. lia.
  - intros type. unfold count_type, len.
    rewrite <- (Permutation_filter_length _ _ _ P).
    apply (Subseq_filter (fun s => String.eqb s type)) in S.
    apply Subseq_length in S.
    pose proof (count_in_emission_order type) as C. unfold len in C.
    assert (L : List.length (filter (fun a => String.eqb (alert_type a) type)
                               emitted) =
                List.length (filter (fun s => String.eqb s type)
                               (map alert_type emitted))).
    { clear. induction emitted as [|a l IH]; [reflexivity|].
      cbn [map filter]. destruct (String.eqb _ _); cbn [List.length]; lia. }
    lia.
Qed.

(** Four payments below 10000 give one threshold alert among no more than
    thirteen. *)
Lemma at_most_thirteen_alerts_witness :
  exists alerts,
    outcome (analyze_account sample_runtime [("account_id", "ACC-12345")]
               (mkWorld threshold_sample 0)) = inr alerts /\
    len alerts <= 13 /\
    count_type "Threshold Avoidance" alerts = 1.
Proof.
  eexists. split; [vm_compute; reflexivity|].
  split; [|vm_compute; reflexivity].
  apply (at_most_thirteen_alerts sample_runtime [("account_id", "ACC-12345")]
           (mkWorld threshold_sample 0)).
  vm_compute. reflexivity.
Defined.

(** *** Sorting what is sorted *)

Lemma stable_sort_sorted {A K : Type} (key : A -> K) (lt : K -> K -> bool)
    (l : list A) :
  StronglySorted (ascending key lt) l -> stable_sort key lt l = l.
Proof.
  induction 1 as [|x l Hl IH Hx]; cbn [stable_sort]; [reflexivity|].
  rewrite IH. destruct l as [|y l']; [reflexivity|]. cbn [insert].
  inversion Hx as [|? ? Hy _]; subst. unfold ascending in Hy. now rewrite Hy.
Qed.

Lemma outranks_descending (a b : Alert) :
  outranks a b <-> descending priority_key tuple_lt a b.
Proof.
  unfold outranks, descending. rewrite tuple_lt_false. reflexivity.
Qed.

Lemma prioritize_alerts_ranked (alerts : list Alert) :
  StronglySorted outranks (prioritize_alerts alerts).
Proof.
  apply StronglySorted_weaken with (R := descending priority_key tuple_lt).
  - intros a b. apply outranks_descending.
  - apply sorted_reverse_descending;
      [exact tuple_lt_asym|exact tuple_ge_trans].
Qed.

Lemma prioritize_alerts_sorted (alerts : list Alert) :
  StronglySorted outranks alerts -> prioritize_alerts alerts = alerts.
Proof.
  intros H. unfold prioritize_alerts, sorted.
  rewrite stable_sort_sorted; [apply rev_involutive|].
  apply StronglySorted_rev in H.
  apply StronglySorted_weaken with (R := fun a b => outranks b a);
    [|exact H].
  intros a b. apply outranks_descending.
Qed.

Lemma map_sorted_same_key {A K : Type} (key : A -> K) (lt : K -> K -> bool)
    (g : A -> A) (reverse : bool) (l : list A) :
  (forall x, key (g x) = key x) ->
  map g (sorted key lt reverse l) = sorted key lt reverse (map g l).
Proof.
  intros Hk.
  assert (I : forall x s, map g (insert key lt x s) =
                          insert key lt (g x) (map g s)).
  { intros x s. induction s as [|y s IH]; [reflexivity|].
    cbn [insert map]. rewrite !Hk.
    destruct (lt (key y) (key x)); cbn [map]; [now rewrite IH|reflexivity]. }
  assert (S : forall s, map g (stable_sort key lt s) =
                        stable_sort key lt (map g s)).
  { induction s as [|y s IH]; [reflexivity|].
    cbn [stable_sort map]. now rewrite I, IH. }
  unfold sorted. destruct reverse; [|apply S].
  now rewrite map_rev, S, map_rev.
Qed.

(** *** Assigning a column its own values *)

Lemma setitem_same {T : Type} (label : string) (field : Row -> T)
    (store : T -> Row -> Row) (f : DataFrame) :
  has_column label f = true ->
  (forall r, store (field r) r = r) ->
  setitem label store (map field (rows f)) f = f.
Proof.
  intros H Hs. unfold setitem. rewrite H. destruct f as [cols rs].
  cbn [columns rows]. f_equal.
  induction rs as [|r rs IH]; [reflexivity|].
  cbn [map combine fst snd]. now rewrite Hs, IH.
Qed.

Lemma store_date_same (r : Row) : store_date (tx_date r) r = r.
Proof. now destruct r. Qed.

Lemma store_day_of_month_same (r : Row) :
  store_day_of_month (tx_day_of_month r) r = r.
Proof. now destruct r. Qed.

Lemma store_month_same (r : Row) : store_month (tx_month r) r = r.
Proof. now destruct r. Qed.

(** The table that the assignments of the detectors leave has the parsed
    dates and the two derived columns. *)
Lemma period_frame_columns (rt : Runtime) (f : DataFrame)
    (stamps : list Timestamp) :
  date_values (view rt f) = inr stamps ->
  let f3 := period_frame rt f in
  has_column "date" f3 = true /\
  has_column "day_of_month" f3 = true /\
  has_column "month" f3 = true /\
  map tx_date (rows f3) = map Stamp stamps /\
  map tx_day_of_month (rows f3) = map day_of stamps /\
  map tx_month (rows f3) = map month_of stamps.
Proof.
  intros E f3. subst f3. unfold period_frame. rewrite E.
  rewrite date_values_cases in E.
  destruct (has_column "date" f) eqn:Hd; [|discriminate].
  assert (Hl : List.length stamps = List.length (rows f)).
  { rewrite (to_datetime_length rt _ _ E). apply length_map. }
  destruct (period_lengths stamps f Hl) as (L1 & L2 & L3).
  destruct (period_dates stamps f Hl) as (D1 & D2).
  destruct (period_columns stamps f Hl) as (C1 & C2 & _).
  rewrite !has_column_setitem, Hd. cbn [orb].
  repeat split; try assumption; try (now rewrite ?orb_true_r).
  rewrite column_after_setitem; [exact D2|easy|].
  rewrite length_map. lia.
Qed.

Lemma parsed_frame_dates (rt : Runtime) (f : DataFrame)
    (stamps : list Timestamp) :
  date_values (view rt f) = inr stamps ->
  has_column "date" (parsed_frame rt f) = true /\
  map tx_date (rows (parsed_frame rt f)) = map Stamp stamps.
Proof.
  intros E. unfold parsed_frame. rewrite E.
  rewrite date_values_cases in E.
  destruct (has_column "date" f) eqn:Hd; [|discriminate].
  assert (Hl : List.length stamps = List.length (rows f)).
  { rewrite (to_datetime_length rt _ _ E). apply length_map. }
  rewrite has_column_setitem, Hd. split; [reflexivity|].
  apply (period_dates stamps f Hl).
Qed.

Lemma period_frame_parsed_frame (rt : Runtime) (f : DataFrame) :
  period_frame rt (parsed_frame rt f) = period_frame rt f.
Proof.
  destruct (date_values (view rt f)) as [e|stamps] eqn:E.
  - unfold parsed_frame. now rewrite E.
  - destruct (parsed_frame_dates rt f stamps E) as (H & D).
    unfold period_frame at 1. rewrite view_parsed_frame, E.
    rewrite <- D, (setitem_same "date" tx_date store_date _ H store_date_same).
    unfold period_frame, parsed_frame. now rewrite E.
Qed.

Lemma period_frame_fixed (rt : Runtime) (f : DataFrame) :
  period_frame rt (period_frame rt f) = period_frame rt f /\
  parsed_frame rt (period_frame rt f) = period_frame rt f.
Proof.
  destruct (date_values (view rt f)) as [e|stamps] eqn:E.
  - unfold period_frame, parsed_frame. now rewrite !E.
  - destruct (period_frame_columns rt f stamps E)
      as (H1 & H2 & H3 & D1 & D2 & D3).
    set (f3 := period_frame rt f) in *.
    assert (P : setitem "date" store_date (map Stamp stamps) f3 = f3).
    { rewrite <- D1. apply setitem_same; [exact H1|exact store_date_same]. }
    split.
    + unfold period_frame at 1. fold f3. unfold f3 at 1.
      rewrite view_period_frame, E. fold f3. rewrite P.
      rewrite <- D2,
        (setitem_same "day_of_month" tx_day_of_month store_day_of_month _ H2
                      store_day_of_month_same).
      rewrite <- D3. apply setitem_same; [exact H3|exact store_month_same].
    + unfold parsed_frame. unfold f3 at 1.
      rewrite view_period_frame, E. exact P.
Qed.

(** *** Readings at different times *)

Lemma threshold_alerts_over_untimed (rt : Runtime) (account : string)
    (amounts : list Z) (ts : list Z) :
  forall k k',
    map untimed (threshold_alerts_over rt account amounts ts k) =
    map untimed (threshold_alerts_over rt account amounts ts k').
Proof.
  induction ts as [|t ts IH]; intros k k'; cbn [threshold_alerts_over];
    [reflexivity|].
  destruct (3 <? len _); [|apply IH].
  cbn [map]. f_equal. apply IH.
Qed.

(** The clock reading at which a detector starts shows in the timestamps
    of its alerts and nowhere else. *)
Lemma readings_untimed (rt : Runtime) (account : string) (v : View) :
  Forall (fun g => forall t t',
              untimed_result (g v t) = untimed_result (g v t'))
         (readings rt account).
Proof.
  apply Forall_readings; intros t t'.
  - unfold round_number_alerts.
    destruct (amount_values v); cbn [and_then]; [reflexivity|].
    destruct (_ && _); reflexivity.
  - unfold description_alerts, vague_alerts, repeated_alerts.
    destruct (description_values v); [reflexivity|].
    destruct (int_gt _ _); cbn [and_then].
    + destruct (amount_values v); cbn [and_then]; [reflexivity|].
      cbn [untimed_result]. destruct (0 <? _); reflexivity.
    + cbn [untimed_result]. destruct (0 <? _); reflexivity.
  - unfold frequency_alerts.
    destruct (date_values v) as [[]|]; try reflexivity.
    destruct (int_gt _ _); reflexivity.
  - unfold threshold_alerts.
    destruct (amount_values v); cbn [and_then]; [reflexivity|].
    cbn [untimed_result]. f_equal. apply threshold_alerts_over_untimed.
  - unfold end_of_period_alerts, month_end_alerts, quarter_end_alerts.
    destruct (date_values v) as [[]|]; try reflexivity.
    destruct (int_gt _ (inject_Z (size v) * 0.25)); cbn [and_then].
    + destruct (amount_values v); cbn [and_then]; [reflexivity|].
      cbn [untimed_result]. destruct (int_gt _ _); reflexivity.
    + cbn [untimed_result]. destruct (int_gt _ _); reflexivity.
  - unfold counterparty_alerts.
    destruct (counterparty_values v); [reflexivity|].
    destruct (amount_values v); cbn [and_then]; [reflexivity|].
    destruct (0 <? _); [|reflexivity].
    destruct (sort_values_descending _); [reflexivity|].
    destruct (np_gt _ _); reflexivity.
  - unfold cash_alerts.
    destruct (type_values v); [reflexivity|].
    destruct (0 <? _); [|reflexivity].
    destruct (amount_values v); cbn [and_then]; [reflexivity|].
    destruct (_ || _); reflexivity.
  - unfold layering_alerts.
    destruct (type_values v); [reflexivity|].
    destruct (date_values v) as [[]|]; try reflexivity.
    destruct (amount_values v); cbn [and_then]; [reflexivity|].
    destruct (_ && _); reflexivity.
Qed.

(** Two runs of the detectors on tables with the same view return the
    same alerts but for their timestamps. *)
Lemma run_in_order_again (rt : Runtime) (v : View)
    (ds : list (M (list Alert))) (gs : list (View -> nat -> exn + list Alert)) :
  Forall2 (reads rt) ds gs ->
  Forall (fun g => forall t t',
              untimed_result (g v t) = untimed_result (g v t')) gs ->
  forall (start1 start2 alerts1 : list Alert) (w1 w1' w2 : World),
    view rt (frame w1) = v -> view rt (frame w2) = v ->
    map untimed start1 = map untimed start2 ->
    run_in_order ds start1 w1 = (inr alerts1, w1') ->
    exists alerts2 w2',
      run_in_order ds start2 w2 = (inr alerts2, w2') /\
      map untimed alerts1 = map untimed alerts2.
Proof.
  induction 1 as [|d g ds gs Hd _ IH];
    intros U start1 start2 alerts1 w1 w1' w2 V1 V2 S R.
  - cbn [run_in_order] in *. unfold ret in *. injection R as <- <-.
    now exists start2, w2.
  - apply Forall_cons_iff in U. destruct U as (Ug & Ugs).
    cbn [run_in_order] in *. unfold bind in *.
    destruct (Hd w1) as (wa & Ra & Va). destruct (Hd w2) as (wb & Rb & Vb).
    rewrite V1 in Ra. rewrite V2 in Rb. rewrite Ra in R. rewrite Rb.
    specialize (Ug (ticks w1) (ticks w2)).
    destruct (g v (ticks w1)) as [e|found1]; [discriminate R|].
    destruct (g v (ticks w2)) as [e|found2]; [discriminate Ug|].
    cbn [untimed_result] in Ug. apply inr_eq in Ug.
    apply (IH Ugs (start1 ++ found1)%list (start2 ++ found2)%list alerts1
              wa w1' wb); try congruence.
    now rewrite !map_app, S, Ug.
Qed.

(** *** The table after the analysis *)

Lemma analyze_account_frame (rt : Runtime)
    (account_info : list (string * string)) (w w' : World)
    (alerts : list Alert) :
  analyze_account rt account_info w = (inr alerts, w') ->
  frame w' = period_frame rt (frame w).
Proof.
  rewrite analyze_account_in_order.
  set (account := get account_info "account_id" "unknown").
  unfold battery. cbn [run_in_order]. unfold bind, ret. intros H.
  destruct (detect_round_number_patterns_reads rt account w) as (w1 & R1 & F1).
  rewrite R1 in H.
  destruct (round_number_alerts _ _ _ _); [discriminate H|].
  destruct (detect_suspicious_descriptions_reads rt account w1)
    as (w2 & R2 & F2).
  rewrite R2 in H.
  destruct (description_alerts _ _ _ _); [discriminate H|].
  destruct (detect_unusual_frequency_patterns_reads rt account w2)
    as (w3 & R3 & F3).
  rewrite R3 in H.
  destruct (frequency_alerts _ _ _ _); [discriminate H|].
  destruct (detect_threshold_avoidance_reads rt account w3) as (w4 & R4 & F4).
  rewrite R4 in H.
  destruct (threshold_alerts _ _ _ _); [discriminate H|].
  destruct (detect_end_of_period_activities_reads rt account w4)
    as (w5 & R5 & F5).
  rewrite R5 in H.
  destruct (end_of_period_alerts _ _ _ _); [discriminate H|].
  destruct (detect_unusual_counterparties_reads rt account w5)
    as (w6 & R6 & F6).
  rewrite R6 in H.
  destruct (counterparty_alerts _ _ _ _); [discriminate H|].
  destruct (detect_cash_intensive_patterns_reads rt account w6)
    as (w7 & R7 & F7).
  rewrite R7 in H.
  destruct (cash_alerts _ _ _ _); [discriminate H|].
  destruct (detect_layering_patterns_reads rt account w7) as (w8 & R8 & F8).
  rewrite R8 in H.
  destruct (layering_alerts _ _ _ _); [discriminate H|].
  injection H as _ <-.
  rewrite F7, F6, F5, F4, F3, F2, F1 in F8.
  rewrite period_frame_parsed_frame in F8.
  destruct (period_frame_fixed rt (frame w)) as (_ & P).
  rewrite P in F8. now destruct (has_column _ _).
Qed.

(** X5.  Prioritizing changes nothing in a list that is ranked already, by
    descending risk level and, within a level, descending confidence.  So
    prioritizing twice is prioritizing once, and what [analyze_account]
    returns is a fixed point of [prioritize_alerts]. *)
Theorem prioritize_alerts_fixed_points :
  (forall alerts,
      StronglySorted outranks alerts -> prioritize_alerts alerts = alerts) /\
  (forall alerts,
      prioritize_alerts (prioritize_alerts alerts) = prioritize_alerts alerts) /\
  (forall rt account_info w alerts,
      outcome (analyze_account rt account_info w) = inr alerts ->
      StronglySorted outranks alerts /\ prioritize_alerts alerts = alerts).
Proof.
  split; [exact prioritize_alerts_sorted|]. split.
  - intros alerts. apply prioritize_alerts_sorted, prioritize_alerts_ranked.
  - intros rt account_info w alerts H.
    destruct (analyze_account rt account_info w) as [r w'] eqn:E.
    cbn [outcome fst] in H. subst r.
    destruct (analyze_account_emits rt account_info w w' alerts E)
      as (founds & -> & _).
    split; [apply prioritize_alerts_ranked|].
    apply prioritize_alerts_sorted, prioritize_alerts_ranked.
Qed.

(** X6.  When [analyze_account] returns, the caller's table is the table it
    was given with the [date] column parsed and the columns [day_of_month]
    and [month] derived from it (and the very table it was given when there
    is no [date] column); what the detectors read of it is unchanged.  That
    table is settled: a second analysis of it returns the same alerts but
    for their timestamps and leaves it as it is. *)
Theorem analysis_settles_the_table (rt : Runtime)
    (account_info : list (string * string)) (w w1 : World)
    (alerts : list Alert) :
  analyze_account rt account_info w = (inr alerts, w1) ->
  frame w1 = period_frame rt (frame w) /\
  (has_column "date" (frame w) = false -> frame w1 = frame w) /\
  (forall stamps,
      to_datetime rt (map tx_date (rows (frame w))) = inr stamps ->
      has_column "date" (frame w) = true ->
      has_column "day_of_month" (frame w1) = true /\
      has_column "month" (frame w1) = true /\
      map tx_date (rows (frame w1)) = map Stamp stamps /\
      map tx_day_of_month (rows (frame w1)) = map day_of stamps /\
      map tx_month (rows (frame w1)) = map month_of stamps) /\
  view rt (frame w1) = view rt (frame w) /\
  exists alerts2 w2,
    analyze_account rt account_info w1 = (inr alerts2, w2) /\
    frame w2 = frame w1 /\
    map untimed alerts2 = map untimed alerts.
Proof.
  intros H. pose proof (analyze_account_frame rt account_info w w1 alerts H) as F.
  split; [exact F|]. split; [|split; [|split]].
  - intros Hd. rewrite F. unfold period_frame.
    now rewrite date_values_cases, Hd.
  - intros stamps Hs Hd. rewrite F.
    assert (E : date_values (view rt (frame w)) = inr stamps)
      by now rewrite date_values_cases, Hd.
    destruct (period_frame_columns rt (frame w) stamps E)
      as (_ & H2 & H3 & D1 & D2 & D3).
    repeat split; assumption.
  - rewrite F. apply view_period_frame.
  - assert (V : view rt (frame w1) = view rt (frame w))
      by (rewrite F; apply view_period_frame).
    rewrite analyze_account_in_order in H.
    set (account := get account_info "account_id" "unknown") in *.
    unfold bind in H.
    destruct (run_in_order (battery rt account) [] w) as [[e|emitted] wa] eqn:R;
      [discriminate H|].
    unfold ret in H. injection H as <- <-.
    destruct (run_in_order_again rt (view rt (frame w)) _ _
                (battery_reads rt account)
                (readings_untimed rt account _) [] [] emitted w wa wa
                eq_refl V eq_refl R) as (emitted2 & w2 & R2 & U).
    exists (prioritize_alerts emitted2), w2.
    assert (A : analyze_account rt account_info wa =
                (inr (prioritize_alerts emitted2), w2)).
    { rewrite analyze_account_in_order. fold account. unfold bind.
      now rewrite R2. }
    split; [exact A|]. split.
    + rewrite (analyze_account_frame rt account_info wa w2 _ A), F.
      apply period_frame_fixed.
    + unfold prioritize_alerts.
      rewrite !(map_sorted_same_key priority_key tuple_lt untimed) by reflexivity.
      now rewrite U.
Qed.

(** The analysis of four payments adds the two derived columns, and a
    second analysis leaves the table as the first left it. *)
Lemma analysis_settles_the_table_witness :
  let run :=
    analyze_account sample_runtime [("account_id", "ACC-12345")]
                    (mkWorld threshold_sample 0) in
  columns (frame (world_after run)) =
    (all_columns ++ ["day_of_month"; "month"])%list /\
  frame (world_after run) = period_frame sample_runtime threshold_sample /\
  frame (world_after
           (analyze_account sample_runtime [("account_id", "ACC-12345")]
                            (world_after run))) =
    frame (world_after run).
Proof.
  intros run.
  destruct (analysis_settles_the_table sample_runtime
              [("account_id", "ACC-12345")] (mkWorld threshold_sample 0)
              (world_after run)
              (match outcome run with inr l => l | inl _ => [] end))
    as (F & _ & _ & _ & alerts2 & w2 & A & F2 & _).
  { vm_compute. reflexivity. }
  split; [vm_compute; reflexivity|]. split; [exact F|].
  rewrite A. exact F2.
Defined.

(** *** The dictionary of the reporter *)

Lemma RiskLevel_eqb_eq (a b : RiskLevel) : RiskLevel_eqb a b = true <-> a = b.
Proof. destruct a, b; cbn; split; congruence. Qed.

Lemma RiskLevel_eqb_refl (a : RiskLevel) : RiskLevel_eqb a a = true.
Proof. now apply RiskLevel_eqb_eq. Qed.

Lemma lookup_store_same (d : risk_dict) (k : RiskLevel) (v : list Alert) :
  lookup (store d k v) k = Some v.
Proof.
  induction d as [|[k' v'] d IH]; cbn [store lookup].
  - now rewrite RiskLevel_eqb_refl.
  - destruct (RiskLevel_eqb k' k) eqn:E; cbn [lookup]; now rewrite E.
Qed.

Lemma lookup_store_other (d : risk_dict) (k k' : RiskLevel) (v : list Alert) :
  RiskLevel_eqb k k' = false -> lookup (store d k v) k' = lookup d k'.
Proof.
  intros N. induction d as [|[k0 v0] d IH]; cbn [store lookup].
  - now rewrite N.
  - destruct (RiskLevel_eqb k0 k) eqn:E; cbn [lookup]; [|now rewrite IH].
    apply RiskLevel_eqb_eq in E. subst k0. now rewrite N.
Qed.

Lemma lookup_group_alert (d : risk_dict) (a : Alert) (level : RiskLevel) :
  lookup (group_alert d a) level =
  if RiskLevel_eqb (risk_level a) level
  then Some (match lookup d level with
             | Some group => group ++ [a]
             | None => [a]
             end)%list
  else lookup d level.
Proof.
  unfold group_alert.
  destruct (RiskLevel_eqb (risk_level a) level) eqn:E.
  - apply RiskLevel_eqb_eq in E. subst level.
    destruct (lookup d (risk_level a)) as [group|] eqn:L.
    + rewrite L. apply lookup_store_same.
    + rewrite lookup_store_same. apply lookup_store_same.
  - destruct (lookup d (risk_level a)) as [group|] eqn:L.
    + rewrite L. now apply lookup_store_other.
    + rewrite lookup_store_same. rewrite !lookup_store_other by assumption.
      reflexivity.
Qed.

Lemma lookup_grouped_from (alerts before : list Alert) (d : risk_dict) :
  (forall level, lookup d level = entry (of_level level before)) ->
  forall level,
    lookup (fold_left group_alert alerts d) level =
    entry (of_level level (before ++ alerts)).
Proof.
  revert before d.
  induction alerts as [|a alerts IH]; intros before d H level; cbn [fold_left].
  - now rewrite app_nil_r.
  - replace (before ++ a :: alerts)%list with ((before ++ [a]) ++ alerts)%list
      by now rewrite <- app_assoc.
    apply IH. clear level. intros level.
    rewrite lookup_group_alert, H. unfold of_level.
    rewrite filter_app. cbn [filter].
    destruct (RiskLevel_eqb (risk_level a) level).
    + destruct (filter _ before); reflexivity.
    + now rewrite app_nil_r.
Qed.

Lemma lookup_grouped (alerts : list Alert) (level : RiskLevel) :
  lookup (fold_left group_alert alerts []) level =
  entry (of_level level alerts).
Proof. now apply (lookup_grouped_from alerts [] []). Qed.

Lemma render_level_section (rt : Runtime) (alerts : list Alert)
    (report : string) (level : RiskLevel) :
  render_level rt (fold_left group_alert alerts []) report level =
  report_section rt alerts report level.
Proof.
  unfold render_level, report_section. rewrite lookup_grouped.
  now destruct (of_level level alerts).
Qed.

Lemma length_by_level (alerts : list Alert) :
  List.length alerts =
  (List.length (of_level CRITICAL alerts) + List.length (of_level HIGH alerts) +
   List.length (of_level MEDIUM alerts) + List.length (of_level LOW alerts))%nat.
Proof.
  induction alerts as [|a alerts IH]; [reflexivity|].
  unfold of_level in *. cbn [filter List.length].
  destruct (risk_level a); cbn [RiskLevel_eqb value Z.eqb Pos.eqb List.length];
    lia.
Qed.

Lemma generate_report_sections (rt : Runtime) (alerts : list Alert)
    (account : string) (w : World) :
  alerts <> [] ->
  generate_report rt alerts account w =
  (inr (fold_left (report_section rt alerts) [CRITICAL; HIGH; MEDIUM; LOW]
          (report_header account (wall_clock rt (ticks w)) (len alerts))),
   mkWorld (frame w) (S (ticks w))).
Proof.
  intros N. unfold generate_report, bind, now, ret.
  destruct alerts as [|a alerts]; [contradiction|].
  set (all := a :: alerts). cbn [fold_left].
  rewrite !render_level_section. unfold report_header.
  now rewrite !append_assoc.
Qed.

(** X7.  The reporter's dictionary holds, for every risk level that occurs
    among the alerts, the alerts of that level in the order of the list,
    and no entry for a level that does not occur.  The report of a list
    that is not empty is the header followed by the sections of the levels
    CRITICAL, HIGH, MEDIUM, LOW, in this order; so two lists with the same
    alerts per level, in the same order within each level, have the same
    report, however the levels are interleaved. *)
Theorem report_groups_by_level (rt : Runtime) (alerts : list Alert)
    (account : string) (w : World) :
  (forall level,
      lookup (fold_left group_alert alerts []) level =
      entry (of_level level alerts)) /\
  (alerts <> [] ->
   outcome (generate_report rt alerts account w) =
   inr (fold_left (report_section rt alerts) [CRITICAL; HIGH; MEDIUM; LOW]
          (report_header account (wall_clock rt (ticks w)) (len alerts)))) /\
  (forall others,
      (forall level, of_level level others = of_level level alerts) ->
      outcome (generate_report rt others account w) =
      outcome (generate_report rt alerts account w)).
Proof.
  split; [apply lookup_grouped|]. split.
  - intros N. now rewrite generate_report_sections.
  - intros others H.
    assert (L : List.length others = List.length alerts).
    { rewrite (length_by_level others), (length_by_level alerts).
      now rewrite !H. }
    destruct alerts as [|a alerts].
    + destruct others; [reflexivity|discriminate L].
    + destruct others as [|b others]; [discriminate L|].
      rewrite !generate_report_sections by discriminate.
      cbn [outcome fst fold_left]. unfold report_section, len.
      now rewrite !H, L.
Qed.

(** *** Keywords *)

Lemma prefix_miscellaneous (s : string) :
  prefix "miscellaneous" s = true -> prefix "misc" s = true.
Proof.
  destruct s as [|c1 [|c2 [|c3 [|c4 s]]]]; cbn [prefix];
    repeat match goal with
           | |- context [ascii_dec ?a ?b] => destruct (ascii_dec a b)
           end; try congruence.
  intros _. now destruct s.
Qed.

Lemma find_keyword (s : string) :
  find (fun w => prefix w s) suspicious_keywords <> Some "miscellaneous" /\
  find (fun w => prefix w s)
       (filter (fun k => negb (String.eqb k "miscellaneous"))
               suspicious_keywords) =
  find (fun w => prefix w s) suspicious_keywords.
Proof.
  pose proof (prefix_miscellaneous s) as P.
  change (filter (fun k => negb (String.eqb k "miscellaneous"))
                 suspicious_keywords)
    with [ "consulting"; "advisory"; "services"; "misc";
           "general"; "expenses"; "petty cash"; "discretionary";
           "contingency"; "emergency"; "special projects"; "undefined";
           "various"; "entertainment"; "representation"; "goodwill";
           "hospitality" ].
  unfold suspicious_keywords. cbv beta iota fix delta [find].
  destruct (prefix "consulting" s); [split; [discriminate|reflexivity]|].
  destruct (prefix "advisory" s); [split; [discriminate|reflexivity]|].
  destruct (prefix "services" s); [split; [discriminate|reflexivity]|].
  destruct (prefix "misc" s); [split; [discriminate|reflexivity]|].
  destruct (prefix "miscellaneous" s); [now specialize (P eq_refl)|].
  split; [|reflexivity].
  repeat match goal with
         | |- context [if ?c then _ else _] => destruct c; [discriminate|]
         end.
  discriminate.
Qed.

Lemma search_keyword (s : string) :
  search suspicious_keywords s <> Some "miscellaneous" /\
  search (filter (fun k => negb (String.eqb k "miscellaneous"))
                 suspicious_keywords) s =
  search suspicious_keywords s.
Proof.
  induction s as [|c s (IH1 & IH2)]; cbn [search].
  - destruct (find_keyword ""%string) as (F1 & F2). rewrite F2. revert F1.
    destruct (find _ suspicious_keywords); intros F1;
      [now split|split; [discriminate|reflexivity]].
  - destruct (find_keyword (String c s)) as (G1 & G2). rewrite G2. revert G1.
    destruct (find _ suspicious_keywords); intros G1; now split.
Qed.

(** *** Gaps between transactions *)

Lemma within_two_days (gap : Z) :
  within_a_day (option_map days (Some gap)) = (gap <? 2 * ns_per_day).
Proof.
  cbn [option_map within_a_day]. unfold days.
  assert (P : 0 < ns_per_day) by reflexivity.
  generalize dependent ns_per_day. intros n P.
  pose proof (Z.div_mod gap n ltac:(lia)) as D.
  pose proof (Z.mod_pos_bound gap n P) as B.
  destruct (Z.leb_spec (gap / n) 1), (Z.ltb_spec gap (2 * n)); try reflexivity;
    nia.
Qed.

Lemma diff_from_close_gaps (ts : list Timestamp) :
  forall prev,
    len (filter within_a_day (map (option_map days) (diff_from prev ts))) =
    close_gaps (2 * ns_per_day) (prev :: ts).
Proof.
  induction ts as [|t ts IH]; intros prev; [reflexivity|].
  change (close_gaps (2 * ns_per_day) (prev :: t :: ts))
    with ((if t - prev <? 2 * ns_per_day then 1 else 0) +
          close_gaps (2 * ns_per_day) (t :: ts)).
  cbn [diff_from map filter]. rewrite within_two_days.
  specialize (IH t).
  destruct (t - prev <? 2 * ns_per_day).
  - unfold len in *. cbn [List.length].
    rewrite Nat2Z.inj_succ, IH, <- Z.add_1_l. reflexivity.
  - exact IH.
Qed.

Lemma burst_count_close_gaps (stamps : list Timestamp) :
  burst_count stamps =
  close_gaps (2 * ns_per_day) (sorted (fun t => t) Z.ltb false stamps).
Proof.
  unfold burst_count.
  destruct (sorted (fun t => t) Z.ltb false stamps) as [|t ts]; [reflexivity|].
  cbn [diff map option_map filter within_a_day].
  apply diff_from_close_gaps.
Qed.

Lemma close_gaps_bound (limit : Z) (ts : list Timestamp) :
  0 <= close_gaps limit ts <= Z.max 0 (len ts - 1).
Proof.
  induction ts as [|a [|b ts] IH]; unfold len in *;
    [cbn; lia|cbn; lia|].
  change (close_gaps limit (a :: b :: ts))
    with ((if b - a <? limit then 1 else 0) + close_gaps limit (b :: ts)).
  change (list Timestamp) with (list Z) in *.
  revert IH. generalize (close_gaps limit (b :: ts)). intros k IH.
  cbn [List.length] in *. destruct (b - a <? limit); lia.
Qed.

Lemma sorted_timestamps (stamps : list Timestamp) :
  Permutation stamps (sorted (fun t => t) Z.ltb false stamps) /\
  StronglySorted Z.le (sorted (fun t => t) Z.ltb false stamps).
Proof.
  split; [apply sorted_perm|]. unfold sorted.
  apply StronglySorted_weaken with (R := ascending (fun t => t) Z.ltb).
  - unfold ascending. intros a b H. apply Z.ltb_ge in H. exact H.
  - apply stable_sort_ascending; intros; lia.
Qed.

(** *** Comparisons with the literal thresholds *)

Lemma int_gt_fraction (k n num : Z) (den : positive) :
  int_gt k (inject_Z n * (num # den)) = (num * n <? Zpos den * k).
Proof.
  unfold int_gt, Qltb, Qle_bool, Qmult, inject_Z. cbn [Qnum Qden].
  destruct (Z.leb_spec (k * Z.pos (1 * den)) (n * num * 1)),
           (Z.ltb_spec (num * n) (Z.pos den * k)); cbn [negb];
    try reflexivity; lia.
Qed.

Lemma Qltb_fraction (k n num : Z) (den : positive) :
  0 < n ->
  Qltb (num # den) (inject_Z k / inject_Z n) = (num * n <? Zpos den * k).
Proof.
  intros Hn. unfold Qltb, Qle_bool, Qdiv, Qmult, Qinv, inject_Z.
  cbn [Qnum Qden]. destruct n as [|n|n]; try lia. cbn [Qnum Qden].
  destruct (Z.leb_spec (k * 1 * Z.pos den) (num * Z.pos (1 * n))),
           (Z.ltb_spec (num * Z.pos n) (Z.pos den * k)); cbn [negb];
    try reflexivity; lia.
Qed.

(** [a / b > num / den] for a NumPy quotient: a positive numerator over
    zero is infinite and exceeds every threshold. *)
Lemma np_gt_np_div (a b num : Z) (den : positive) :
  np_gt (np_div a b) (num # den) = true <->
  0 < b /\ num * b < Zpos den * a \/
  b = 0 /\ 0 < a \/
  b < 0 /\ Zpos den * a < num * b.
Proof.
  unfold np_div.
  destruct (Z.eqb_spec b 0) as [->|Hb].
  - destruct (Z.eqb_spec a 0) as [->|Ha]; cbn [np_gt]; [split; [discriminate|lia]|].
    destruct (Z.ltb_spec 0 a); cbn [np_gt]; split; try discriminate; try lia;
      reflexivity.
  - cbn [np_gt]. rewrite Qltb_true.
    unfold Qlt, Qdiv, Qmult, Qinv, inject_Z. cbn [Qnum Qden].
    destruct b as [|b|b]; try lia; cbn [Qnum Qden]; lia.
Qed.

(** X8.  The keyword 'miscellaneous' of [suspicious_keywords] is dead:
    wherever it matches, the keyword 'misc', which stands before it in the
    alternation, matches at the same place.  So no description is ever
    reported with the keyword 'miscellaneous', and the list without it
    finds the same keyword in every text. *)
Theorem miscellaneous_keyword_is_dead :
  In "miscellaneous" suspicious_keywords /\
  (forall cell, keyword_in cell <> Some "miscellaneous") /\
  (forall cells, ~ In "miscellaneous" (dropna (map keyword_in cells))) /\
  (forall s,
      search (filter (fun k => negb (String.eqb k "miscellaneous"))
                     suspicious_keywords) s =
      search suspicious_keywords s).
Proof.
  assert (K : forall cell, keyword_in cell <> Some "miscellaneous").
  { intros [s|]; cbn [keyword_in]; [apply search_keyword|discriminate]. }
  split; [cbn; tauto|]. split; [exact K|]. split.
  - intros cells. unfold dropna. rewrite in_flat_map.
    intros (c & Hc & Hi). apply in_map_iff in Hc. destruct Hc as (cell & <- & _).
    specialize (K cell). destruct (keyword_in cell); [|contradiction Hi].
    destruct Hi as [->|[]]. now apply K.
  - intros s. apply search_keyword.
Qed.

(** X9.  The burst detector counts the transactions that follow their
    predecessor, in order of time, by less than two days (172800 seconds):
    the gap is cut to whole days before it is compared with 1.  The count
    is at most the number of transactions less one; one alert (MEDIUM,
    confidence 65, no amount) is returned when the count exceeds two
    fifths of the number of rows, none otherwise. *)
Theorem burst_is_a_gap_under_two_days (rt : Runtime) (account : string)
    (w : World) (stamps : list Timestamp) :
  date_values (view rt (frame w)) = inr stamps ->
  let n := len (rows (frame w)) in
  let ordered := sorted (fun t => t) Z.ltb false stamps in
  let run := detect_unusual_frequency_patterns rt account w in
  (forall gap,
      within_a_day (option_map days (Some gap)) = (gap <? 2 * ns_per_day)) /\
  Permutation stamps ordered /\ StronglySorted Z.le ordered /\
  burst_count stamps = close_gaps (2 * ns_per_day) ordered /\
  0 <= burst_count stamps <= Z.max 0 (n - 1) /\
  (5 * burst_count stamps <= 2 * n -> outcome run = inr []) /\
  (2 * n < 5 * burst_count stamps ->
   exists a,
     outcome run = inr [a] /\
     alert_type a = "Burst Transaction Pattern" /\
     risk_level a = MEDIUM /\ confidence_score a = 65%Q /\
     amount_involved a = 0%Q).
Proof.
  intros E n ordered run. subst n ordered run.
  assert (L : len stamps = len (rows (frame w))).
  { rewrite date_values_cases in E.
    destruct (has_column "date" (frame w)); [|discriminate].
    unfold len. now rewrite (to_datetime_length rt _ _ E), length_map. }
  destruct (sorted_timestamps stamps) as (P & S).
  pose proof (close_gaps_bound (2 * ns_per_day)
                (sorted (fun t => t) Z.ltb false stamps)) as B.
  rewrite <- burst_count_close_gaps in B.
  assert (L2 : len (sorted (fun t => t) Z.ltb false stamps) = len stamps).
  { exact (f_equal Z.of_nat (eq_sym (Permutation_length P))). }
  assert (B' : 0 <= burst_count stamps <= Z.max 0 (len (rows (frame w)) - 1)).
  { unfold Timestamp in *. rewrite L2, L in B. exact B. }
  clear B. rename B' into B.
  split; [exact within_two_days|]. split; [exact P|]. split; [exact S|].
  split; [apply burst_count_close_gaps|]. split; [exact B|].
  destruct (detect_unusual_frequency_patterns_reads rt account w)
    as (w' & R & _).
  rewrite R. cbn [outcome fst]. unfold frequency_alerts. rewrite E.
  change (size (view rt (frame w))) with (len (rows (frame w))).
  change 0.4%Q with (4 # 10)%Q. rewrite int_gt_fraction.
  split; intros H.
  - destruct (Z.ltb_spec (4 * len (rows (frame w)))
                         (Z.pos 10 * burst_count stamps)); [lia|reflexivity].
  - destruct (Z.ltb_spec (4 * len (rows (frame w)))
                         (Z.pos 10 * burst_count stamps)); [|lia].
    eexists. split; [reflexivity|]. repeat split.
Qed.

(** A payment 47 hours after its predecessor counts, one 48 hours after
    does not. *)
Lemma burst_is_a_gap_under_two_days_witness :
  burst_count (map (fun hours => midnight 2024 1 1 + hours * 3600 * ns_per_second)
                   [0; 47; 95]) = 1 /\
  outcome (detect_unusual_frequency_patterns sample_runtime "ACC-12345"
             (mkWorld two_day_gaps_sample 0)) = inr [].
Proof.
  destruct (burst_is_a_gap_under_two_days sample_runtime "ACC-12345"
              (mkWorld two_day_gaps_sample 0)
              (map (fun hours => midnight 2024 1 1 + hours * 3600 * ns_per_second)
                   [0; 47; 95]) eq_refl)
    as (_ & _ & _ & C & _ & N & _).
  split; [rewrite C; reflexivity|]. apply N. rewrite C. vm_compute. discriminate.
Defined.

(** *** Distinct values and groups *)

Lemma In_dropna (s : string) (col : list (option string)) :
  In s (dropna col) <-> In (Some s) col.
Proof.
  unfold dropna. rewrite in_flat_map. split.
  - intros ([c|] & Hc & Hi); [|contradiction Hi].
    destruct Hi as [->|[]]. exact Hc.
  - intros H. exists (Some s). split; [exact H|now left].
Qed.

Lemma unique_from_In (x : string) (l : list string) :
  forall seen,
    In x l -> existsb (String.eqb x) seen = false ->
    In x (unique_from String.eqb seen l).
Proof.
  induction l as [|y l IH]; intros seen Hx Hs; [contradiction Hx|].
  cbn [unique_from].
  destruct (String.eqb_spec x y) as [->|N].
  - rewrite Hs. now left.
  - destruct Hx as [->|Hx]; [contradiction|].
    destruct (existsb (String.eqb y) seen); [now apply IH|].
    right. apply IH; [exact Hx|]. cbn [existsb].
    destruct (String.eqb_spec x y); [contradiction|exact Hs].
Qed.

Lemma In_unique (x : string) (l : list string) :
  In x (unique String.eqb l) <-> In x l.
Proof.
  split; [apply In_unique_from|].
  intros H. now apply unique_from_In.
Qed.

Lemma In_sorted {A K : Type} (key : A -> K) (lt : K -> K -> bool)
    (reverse : bool) (x : A) (l : list A) :
  In x (sorted key lt reverse l) <-> In x l.
Proof.
  split; apply Permutation_in;
    [apply Permutation_sym|]; apply sorted_perm.
Qed.

(** The groups of [groupby('counterparty')] are the counterparties that
    occur, each with the sum of the amounts of its rows. *)
Lemma In_group_sums (names : list (option string)) (amounts : list Z)
    (k : string) (total : Z) :
  In (k, total) (group_sums names amounts) <->
  In (Some k) names /\
  total = sum (mask_list (map (is_name k) names) amounts).
Proof.
  unfold group_sums. rewrite in_map_iff. split.
  - intros (k' & [= <- <-] & H).
    apply In_sorted, In_unique, In_dropna in H. now split.
  - intros (H & ->). exists k. split; [reflexivity|].
    now apply In_sorted, In_unique, In_dropna.
Qed.

Lemma value_counts_nonempty (names : list (option string)) :
  (0 <? len (value_counts names)) = true <-> exists k, In (Some k) names.
Proof.
  unfold value_counts, len.
  rewrite length_sorted, length_map. split.
  - intros H.
    destruct (unique String.eqb (dropna names)) as [|k l] eqn:E;
      [discriminate H|].
    exists k. apply In_dropna, In_unique. rewrite E. now left.
  - intros (k & H). apply In_dropna, In_unique in H.
    destruct (unique String.eqb (dropna names)); [contradiction H|reflexivity].
Qed.

(** The first entry of the totals in descending order is a greatest one. *)
Lemma top_total (names : list (option string)) (amounts : list Z)
    (top : string * Z) (rest : list (string * Z)) :
  sort_values_descending (group_sums names amounts) = top :: rest ->
  In (Some (fst top)) names /\
  snd top = sum (mask_list (map (is_name (fst top)) names) amounts) /\
  forall k,
    In (Some k) names ->
    sum (mask_list (map (is_name k) names) amounts) <= snd top.
Proof.
  intros E.
  assert (I : forall x, In x (top :: rest) <-> In x (group_sums names amounts)).
  { intros x. rewrite <- E. apply In_sorted. }
  assert (T : In (fst top, snd top) (group_sums names amounts)).
  { rewrite <- surjective_pairing. apply I. now left. }
  apply In_group_sums in T. destruct T as (T1 & T2).
  split; [exact T1|]. split; [exact T2|].
  intros k Hk.
  assert (G : In (k, sum (mask_list (map (is_name k) names) amounts))
                 (top :: rest)).
  { apply I, In_group_sums. now split. }
  destruct G as [G|G]; [rewrite G; cbn [snd]; lia|].
  pose proof (sorted_reverse_descending snd Z.ltb
                ltac:(intros; lia) ltac:(intros; lia)
                (group_sums names amounts)) as S.
  unfold sort_values_descending in E. rewrite E in S.
  inversion S as [|? ? _ F]; subst.
  rewrite Forall_forall in F. specialize (F _ G).
  unfold descending in F. cbn [snd] in F. lia.
Qed.

Lemma np_gt_share (a b num : Z) (den : positive) (num' den' : Z) :
  0 < den' -> num * den' = num' * Zpos den ->
  np_gt (np_div a b) (num # den) = share_exceeds num' den' a b.
Proof.
  intros Hd Hn.
  destruct (np_gt (np_div a b) (num # den)) eqn:E.
  - apply np_gt_np_div in E. unfold share_exceeds.
    destruct (Z.eqb_spec b 0), (Z.ltb_spec 0 b), (Z.ltb_spec 0 a),
      (Z.ltb_spec (num' * b) (den' * a)), (Z.ltb_spec (den' * a) (num' * b));
      try reflexivity; exfalso; nia.
  - assert (N : ~ (0 < b /\ num * b < Zpos den * a \/ b = 0 /\ 0 < a \/
                   b < 0 /\ Zpos den * a < num * b)).
    { rewrite <- np_gt_np_div. congruence. }
    unfold share_exceeds.
    destruct (Z.eqb_spec b 0), (Z.ltb_spec 0 b), (Z.ltb_spec 0 a),
      (Z.ltb_spec (num' * b) (den' * a)), (Z.ltb_spec (den' * a) (num' * b));
      try reflexivity; exfalso; apply N; nia.
Qed.

Lemma mask_list_none {T U : Type} (p : T -> bool) (l : list T) (xs : list U) :
  filter p l = [] -> mask_list (map p l) xs = [].
Proof.
  revert xs. induction l as [|x l IH]; intros xs H; [reflexivity|].
  cbn [filter] in H. cbn [map mask_list].
  destruct xs as [|y xs]; [reflexivity|].
  destruct (p x); [discriminate H|now apply IH].
Qed.

Lemma column_values (rt : Runtime) (f : DataFrame) :
  (forall names, counterparty_values (view rt f) = inr names ->
                 names = map tx_counterparty (rows f)) /\
  (forall types, type_values (view rt f) = inr types ->
                 types = map tx_transaction_type (rows f)) /\
  (forall texts, description_values (view rt f) = inr texts ->
                 texts = map tx_description (rows f)).
Proof.
  unfold view, getitem.
  cbn [counterparty_values type_values description_values].
  repeat split; intros l; destruct (has_column _ f); congruence.
Qed.





(** *** The sample data *)

Lemma length_repeat_list {T : Type} (xs : list T) (n : nat) :
  List.length (repeat_list xs n) = (n * List.length xs)%nat.
Proof.
  induction n as [|n IH]; [reflexivity|].
  cbn [repeat_list]. rewrite length_app, IH. lia.
Qed.

Lemma sample_columns_lengths (r : NumpyRandom) :
  numpy_contract r ->
  map (fun c => (fst c, List.length (snd c))) (sample_columns r) =
  [ ("date", 200%nat); ("amount", 230%nat); ("description", 300%nat);
    ("counterparty", 200%nat); ("transaction_type", 200%nat) ].
Proof.
  intros (C & N & S). unfold sample_columns.
  assert (D : map DateValue
                (date_range (midnight 2024 1 1) (midnight 2024 12 31)) <> []).
  { vm_compute. discriminate. }
  pose proof (C _ 200%nat (seed r 42) D) as C1.
  destruct (choice r _ 200 (seed r 42)) as [sample_dates g1].
  pose proof (N 2500%Q 1000%Q 170%nat g1) as N1.
  destruct (normal r 2500 1000 170 g1) as [normal_amounts g2].
  match goal with
  | |- context [shuffle r ?xs g2] =>
      pose proof (Permutation_length (S xs g2)) as S1;
      destruct (shuffle r xs g2) as [all_amounts g3]
  end.
  match goal with
  | |- context [shuffle r ?xs g3] =>
      pose proof (Permutation_length (S xs g3)) as S2;
      destruct (shuffle r xs g3) as [descriptions g4]
  end.
  match goal with
  | |- context [shuffle r ?xs g4] =>
      pose proof (Permutation_length (S xs g4)) as S3;
      destruct (shuffle r xs g4) as [counterparties g5]
  end.
  match goal with
  | |- context [shuffle r ?xs g5] =>
      pose proof (Permutation_length (S xs g5)) as S4;
      destruct (shuffle r xs g5) as [transaction_types g6]
  end.
  cbn [fst snd] in *.
  rewrite !length_app, ?length_map, !length_repeat_list in *.
  cbn [map fst snd List.length] in *. rewrite length_map.
  rewrite C1, <- S1, <- S2, <- S3, <- S4, N1. reflexivity.
Qed.

Lemma constant_random_contract : numpy_contract constant_random.
Proof.
  unfold numpy_contract, constant_random.
  cbn [choice normal shuffle fst]. repeat split; intros.
  - apply repeat_length.
  - apply repeat_length.
  - apply Permutation_refl.
Qed.

(** X12.  [create_sample_data] never returns a table.  Whatever the random
    generator draws, the five columns it builds have 200, 230, 300, 200
    and 200 entries, and the [DataFrame] constructor raises [ValueError]
    for columns of different lengths. *)
Theorem create_sample_data_raises (r : NumpyRandom) :
  numpy_contract r ->
  map (fun c => (fst c, List.length (snd c))) (sample_columns r) =
    [ ("date", 200%nat); ("amount", 230%nat); ("description", 300%nat);
      ("counterparty", 200%nat); ("transaction_type", 200%nat) ] /\
  create_sample_data r =
    inl (ValueError "All arrays must be of the same length").
Proof.
  intros H. pose proof (sample_columns_lengths r H) as L.
  split; [exact L|]. unfold create_sample_data, DataFrame_from_dict.
  destruct (sample_columns r) as [|[l1 c1] [|[l2 c2] rest]];
    [discriminate L|discriminate L|].
  cbn [map fst snd] in L. injection L as _ L1 _ L2 _.
  cbn [forallb snd]. rewrite L1, L2. reflexivity.
Qed.

(** With the constant generator the constructor raises. *)
Lemma create_sample_data_raises_witness :
  create_sample_data constant_random =
    inl (ValueError "All arrays must be of the same length").
Proof.
  apply (create_sample_data_raises constant_random).
  exact constant_random_contract.
Defined.



Lemma repeated_descriptions_length (texts : list (option string)) :
  List.length (filter (fun dc => 5 <? snd dc) (value_counts texts)) =
  List.length (frequent_descriptions texts).
Proof.
  unfold value_counts, frequent_descriptions, occurrences.
  rewrite <- (Permutation_filter_length _ _ _
                (sorted_perm snd Z.ltb true _)).
  induction (unique String.eqb (dropna texts)) as [|s l IH]; [reflexivity|].
  cbn [map filter snd]. destruct (5 <? _); cbn [List.length]; now rewrite IH.
Qed.





Lemma bands_are_disjoint (a t1 t2 : Z) :
  In t1 thresholds -> In t2 thresholds ->
  in_band t1 a = true -> in_band t2 a = true -> t1 = t2.
Proof.
  unfold thresholds. cbn [In]. rewrite !in_band_iff. lia.
Qed.

Lemma sum_of_bands (amounts : list Z) (b1 b2 b3 b4 : bool) :
  (if b1 then sum (filter (in_band 10000) amounts) else 0) +
  ((if b2 then sum (filter (in_band 5000) amounts) else 0) +
   ((if b3 then sum (filter (in_band 3000) amounts) else 0) +
    ((if b4 then sum (filter (in_band 1000) amounts) else 0) + 0))) =
  sum (filter (fun a => existsb (fun tb => in_band (fst tb) a && snd tb)
                                [ (10000, b1); (5000, b2); (3000, b3);
                                  (1000, b4) ])
              amounts).
Proof.
  induction amounts as [|a amounts IH].
  - destruct b1, b2, b3, b4; reflexivity.
  - cbn [filter existsb fst snd].
    destruct (in_band 10000 a) eqn:E1; destruct (in_band 5000 a) eqn:E2;
      destruct (in_band 3000 a) eqn:E3; destruct (in_band 1000 a) eqn:E4;
      try (apply in_band_iff in E1); try (apply in_band_iff in E2);
      try (apply in_band_iff in E3); try (apply in_band_iff in E4);
      try lia;
      revert IH; cbn [existsb fst snd];
      destruct b1, b2, b3, b4; cbn [andb orb sum fold_right];
      fold (sum (filter (in_band 10000) amounts));
      fold (sum (filter (in_band 5000) amounts));
      fold (sum (filter (in_band 3000) amounts));
      fold (sum (filter (in_band 1000) amounts));
      intros IH; try lia;
      match goal with
      | |- context [fold_right Z.add 0 ?l] => fold (sum l)
      end; lia.
Qed.

(** X16.  The threshold detector counts no transaction twice: the bands
    below the four thresholds are disjoint, every amount they hold lies
    from 900 to below 10000, and the amounts that the alerts of a run
    report add up to the sum of the amounts that lie in a band with more
    than three amounts. *)
Theorem threshold_alerts_count_once (rt : Runtime) (account : string)
    (w : World) :
  has_column "amount" (frame w) = true ->
  let f := frame w in
  (forall a t1 t2,
      In t1 thresholds -> In t2 thresholds ->
      in_band t1 a = true -> in_band t2 a = true -> t1 = t2) /\
  (forall a, counted f a = true -> 900 <= a < 10000) /\
  exists alerts,
    outcome (detect_threshold_avoidance rt account w) = inr alerts /\
    (total_involved alerts ==
     inject_Z (sum (filter (counted f) (amounts_of f))))%Q.
Proof.
  intros Ha f. subst f. split; [exact bands_are_disjoint|]. split.
  - intros a. unfold counted, thresholds. cbn [existsb].
    rewrite !orb_true_iff, !andb_true_iff, !in_band_iff. lia.
  - destruct (detect_threshold_avoidance_reads rt account w) as (w' & R & _).
    rewrite R. cbn [outcome fst]. unfold threshold_alerts.
    rewrite (amount_values_present rt _ Ha). cbn [and_then].
    eexists. split; [reflexivity|].
    unfold total_involved.
    assert (E : map amount_involved
                  (threshold_alerts_over rt account (amounts_of (frame w))
                                         thresholds (ticks w)) =
                map (fun t => inject_Z (sum (filter (in_band t)
                                               (amounts_of (frame w)))))
                    (filter (fun t => 3 <? len (filter (in_band t)
                                                  (amounts_of (frame w))))
                            thresholds)).
    { pose proof (threshold_alerts_over_fields rt account
                    (amounts_of (frame w)) thresholds (ticks w)) as F.
      apply (f_equal (map snd)) in F. rewrite !map_map in F.
      cbn [snd] in F. exact F. }
    rewrite E. unfold counted, near_amounts, thresholds.
    pose proof (sum_of_bands (amounts_of (frame w))
                  (3 <? len (filter (in_band 10000) (amounts_of (frame w))))
                  (3 <? len (filter (in_band 5000) (amounts_of (frame w))))
                  (3 <? len (filter (in_band 3000) (amounts_of (frame w))))
                  (3 <? len (filter (in_band 1000) (amounts_of (frame w)))))
      as S.
    cbn [existsb fst snd] in S. cbn [existsb]. rewrite <- S.
    cbn [filter].
    destruct (3 <? len (filter (in_band 10000) _));
      destruct (3 <? len (filter (in_band 5000) _));
      destruct (3 <? len (filter (in_band 3000) _));
      destruct (3 <? len (filter (in_band 1000) _));
      cbn [map fold_right]; rewrite ?inject_Z_plus;
      change (inject_Z 0) with 0%Q; ring.
Qed.

(** Four payments below 10000: the alerts report their sum, 37600. *)
Lemma threshold_alerts_count_once_witness :
  exists alerts,
    outcome (detect_threshold_avoidance sample_runtime "ACC-12345"
               (mkWorld threshold_sample 0)) = inr alerts /\
    (total_involved alerts == 37600)%Q.
Proof.
  destruct (threshold_alerts_count_once sample_runtime "ACC-12345"
              (mkWorld threshold_sample 0) eq_refl)
    as (_ & _ & alerts & O & T).
  exists alerts. split; [exact O|]. rewrite T. reflexivity.
Defined.

Lemma of_level_above (level : RiskLevel) (a : Alert) (l : list Alert) :
  Forall (outranks a) l -> value (risk_level a) < value level ->
  of_level level l = [].
Proof.
  intros F H. unfold of_level.
  induction F as [|b l Hb _ IH]; [reflexivity|].
  cbn [filter]. rewrite IH.
  destruct (RiskLevel_eqb (risk_level b) level) eqn:E; [|reflexivity].
  apply RiskLevel_eqb_eq in E. unfold outranks in Hb. rewrite E in Hb. lia.
Qed.

Lemma ranked_by_level (alerts : list Alert) :
  StronglySorted outranks alerts ->
  (of_level CRITICAL alerts ++ of_level HIGH alerts ++
   of_level MEDIUM alerts ++ of_level LOW alerts)%list = alerts.
Proof.
  induction 1 as [|a l S IH F]; [reflexivity|].
  unfold of_level in *. cbn [filter].
  destruct (risk_level a) eqn:E;
    cbn [RiskLevel_eqb value Z.eqb Pos.eqb];
    repeat match goal with
           | |- context [filter (fun x => RiskLevel_eqb (risk_level x) ?k) l] =>
               lazymatch k with
               | _ =>
                   let H := fresh in
                   assert (H : of_level k l = [])
                     by (apply (of_level_above k a l F); rewrite E; cbn; lia);
                   unfold of_level in H; rewrite H in *; clear H
               end
           end;
    cbn [app] in *; now rewrite IH.
Qed.

(** X17.  The report of what [analyze_account] returns lists the alerts in
    the order in which they were returned: the alerts of level HIGH
    followed by the alerts of level MEDIUM are the returned list, and the
    report has the section HIGH and the section MEDIUM and never a section
    CRITICAL or LOW. *)
Theorem report_follows_the_ranking (rt : Runtime)
    (account_info : list (string * string)) (w : World)
    (alerts : list Alert) :
  outcome (analyze_account rt account_info w) = inr alerts ->
  of_level CRITICAL alerts = [] /\ of_level LOW alerts = [] /\
  (of_level HIGH alerts ++ of_level MEDIUM alerts)%list = alerts /\
  forall account w',
    alerts <> [] ->
    outcome (generate_report rt alerts account w') =
    inr (fold_left (report_section rt alerts) [HIGH; MEDIUM]
           (report_header account (wall_clock rt (ticks w')) (len alerts))).
Proof.
  intros H.
  destruct (analyze_account rt account_info w) as [r w1] eqn:E.
  cbn [outcome fst] in H. subst r.
  destruct (analyze_account_emits rt account_info w w1 alerts E)
    as (founds & -> & F & _).
  destruct (emitted_well_formed rt _ _ founds F) as (W & _).
  set (alerts := prioritize_alerts (List.concat founds)).
  assert (P : Forall (fun a => risk_level a = MEDIUM \/ risk_level a = HIGH)
                     alerts).
  { eapply Permutation_Forall; [apply sorted_perm|].
    revert W. apply Forall_impl. now intros a (_ & A & _). }
  assert (C : of_level CRITICAL alerts = [] /\ of_level LOW alerts = []).
  { unfold of_level. clearbody alerts.
    induction P as [|a l [Ha|Ha] _ (IH1 & IH2)]; [now split| |];
      cbn [filter]; rewrite Ha, IH1, IH2; now split. }
  destruct C as (C1 & C2).
  pose proof (ranked_by_level alerts (prioritize_alerts_ranked _)) as R.
  rewrite C1, C2, app_nil_r in R. cbn [app] in R.
  split; [exact C1|]. split; [exact C2|]. split; [exact R|].
  intros account w' N. rewrite generate_report_sections by exact N.
  cbn [outcome fst fold_left]. unfold report_section at 1 4.
  now rewrite C1, C2.
Qed.

(** The alerts for four payments below 10000 are the HIGH ones followed by
    the MEDIUM ones. *)
Lemma report_follows_the_ranking_witness :
  exists alerts,
    outcome (analyze_account sample_runtime [("account_id", "ACC-12345")]
               (mkWorld threshold_sample 0)) = inr alerts /\
    (of_level HIGH alerts ++ of_level MEDIUM alerts)%list = alerts.
Proof.
  eexists. split; [vm_compute; reflexivity|].
  apply (report_follows_the_ranking sample_runtime
           [("account_id", "ACC-12345")] (mkWorld threshold_sample 0)).
  vm_compute. reflexivity.
Defined.

(** *** Rows in another order *)

Lemma Permutation_filter {T : Type} (p : T -> bool) (l m : list T) :
  Permutation l m -> Permutation (filter p l) (filter p m).
Proof.
  induction 1 as [|x l m _ IH|x y l|l m n _ IH1 _ IH2]; cbn [filter].
  - constructor.
  - destruct (p x); [now constructor|assumption].
  - destruct (p x), (p y); try apply Permutation_refl; apply perm_swap.
  - now apply Permutation_trans with (filter p m).
Qed.

Lemma sum_Permutation (l m : list Z) : Permutation l m -> sum l = sum m.
Proof.
  unfold sum. induction 1; cbn [fold_right]; lia.
Qed.

Lemma len_Permutation {T : Type} (l m : list T) :
  Permutation l m -> len l = len m.
Proof. intros H. unfold len. now rewrite (Permutation_length H). Qed.

(** Two ascending lists of integers with the same entries are equal. *)
Lemma ascending_unique (l : list Z) :
  forall m,
    StronglySorted Z.le l -> StronglySorted Z.le m -> Permutation l m ->
    l = m.
Proof.
  induction l as [|a l IH]; intros m Sl Sm P.
  - apply Permutation_nil in P. now subst.
  - destruct m as [|b m]; [now apply Permutation_sym, Permutation_nil in P|].
    inversion Sl as [|? ? Sl' Fa]; subst.
    inversion Sm as [|? ? Sm' Fb]; subst.
    rewrite Forall_forall in Fa, Fb.
    assert (a = b).
    { assert (Ia : In a (b :: m)) by (eapply Permutation_in; [exact P|now left]).
      assert (Ib : In b (a :: l))
        by (eapply Permutation_in; [apply Permutation_sym, P|now left]).
      destruct Ia as [->|Ia]; [reflexivity|].
      destruct Ib as [->|Ib]; [reflexivity|].
      specialize (Fa _ Ib). specialize (Fb _ Ia). lia. }
    subst b. f_equal. apply IH; try assumption.
    now apply Permutation_cons_inv with a.
Qed.

Lemma sorted_Permutation (l m : list Z) :
  Permutation l m ->
  sorted (fun t => t) Z.ltb false l = sorted (fun t => t) Z.ltb false m.
Proof.
  intros P.
  destruct (sorted_timestamps l) as (Pl & Sl).
  destruct (sorted_timestamps m) as (Pm & Sm).
  apply ascending_unique; try assumption.
  eapply Permutation_trans; [apply Permutation_sym, Pl|].
  eapply Permutation_trans; [exact P|exact Pm].
Qed.

Section Unique.
Context {T : Type}.
Variable eqb : T -> T -> bool.
Hypothesis eqb_eq : forall x y, eqb x y = true <-> x = y.

Lemma existsb_eqb (x : T) (seen : list T) :
  existsb (eqb x) seen = true <-> In x seen.
Proof.
  rewrite existsb_exists. split.
  - intros (y & Hy & E). apply eqb_eq in E. now subst.
  - intros H. exists x. split; [exact H|now apply eqb_eq].
Qed.

Lemma unique_from_spec (l : list T) :
  forall seen,
    NoDup (unique_from eqb seen l) /\
    forall x, In x (unique_from eqb seen l) <-> In x l /\ ~ In x seen.
Proof.
  induction l as [|y l IH]; intros seen; cbn [unique_from].
  - split; [constructor|]. intros x. cbn [In]. tauto.
  - destruct (existsb (eqb y) seen) eqn:E.
    + apply existsb_eqb in E. destruct (IH seen) as (N & I).
      split; [exact N|]. intros x. rewrite I. cbn [In].
      split; [tauto|]. intros ([<-|H] & S); [contradiction|tauto].
    + assert (Hy : ~ In y seen).
      { intros H. apply existsb_eqb in H. congruence. }
      destruct (IH (y :: seen)) as (N & I). split.
      * constructor; [|exact N]. rewrite I. cbn [In]. tauto.
      * intros x. cbn [In]. rewrite I. cbn [In].
        split.
        -- intros [<-|(H & S)]; [tauto|]. split; [now right|tauto].
        -- intros ([<-|H] & S); [now left|].
           destruct (eqb y x) eqn:Eyx.
           ++ apply eqb_eq in Eyx. now left.
           ++ right. split; [exact H|]. intros [->|S']; [|contradiction].
              assert (eqb x x = true) by now apply eqb_eq. congruence.
Qed.

Lemma unique_NoDup (l : list T) : NoDup (unique eqb l).
Proof. apply unique_from_spec. Qed.

Lemma unique_In (x : T) (l : list T) : In x (unique eqb l) <-> In x l.
Proof.
  unfold unique. rewrite (proj2 (unique_from_spec l [])). cbn [In]. tauto.
Qed.

Lemma unique_Permutation (l m : list T) :
  Permutation l m -> Permutation (unique eqb l) (unique eqb m).
Proof.
  intros P. apply NoDup_Permutation; try apply unique_NoDup.
  intros x. rewrite !unique_In. split; apply Permutation_in;
    [exact P|now apply Permutation_sym].
Qed.
End Unique.

Lemma dropna_Permutation (l m : list (option string)) :
  Permutation l m -> Permutation (dropna l) (dropna m).
Proof. intros P. unfold dropna. now apply Permutation_flat_map. Qed.

Lemma existsb_Permutation {T : Type} (p : T -> bool) (l m : list T) :
  Permutation l m -> existsb p l = existsb p m.
Proof.
  intros P.
  destruct (existsb p l) eqn:E; symmetry.
  - apply existsb_exists in E. destruct E as (x & I & H).
    apply existsb_exists. exists x. split; [|exact H].
    eapply Permutation_in; [exact P|exact I].
  - destruct (existsb p m) eqn:E'; [|reflexivity].
    apply existsb_exists in E'. destruct E' as (x & I & H).
    assert (existsb p l = true); [|congruence].
    apply existsb_exists. exists x. split; [|exact H].
    eapply Permutation_in; [apply Permutation_sym, P|exact I].
Qed.

Lemma filter_pointwise_length {T : Type} (p q : T -> bool) (l m : list T) :
  (forall x, p x = q x) -> Permutation l m ->
  len (filter p l) = len (filter q m).
Proof.
  intros H P. rewrite (filter_ext p q H).
  apply len_Permutation. now apply Permutation_filter.
Qed.

Lemma to_datetime_rows (rt : Runtime) (rs : list Row) :
  forallb (parses rt) (map tx_date rs) = true ->
  to_datetime rt (map tx_date rs) = inr (map (stamp_of rt) rs).
Proof.
  induction rs as [|r rs IH]; [reflexivity|].
  cbn [map forallb to_datetime]. unfold parses at 1, stamp_of at 1.
  intros H. apply andb_true_iff in H. destruct H as (H1 & H2).
  rewrite (IH H2).
  destruct (tx_date r) as [t|s]; [reflexivity|].
  destruct (parse_datetime rt s); [reflexivity|discriminate H1].
Qed.

Lemma forallb_Permutation {T : Type} (p : T -> bool) (l m : list T) :
  Permutation l m -> forallb p l = true -> forallb p m = true.
Proof.
  intros P. rewrite !forallb_forall. intros H x I. apply H.
  eapply Permutation_in; [apply Permutation_sym, P|exact I].
Qed.

Lemma masked_amounts {T : Type} (p : T -> bool) (field : Row -> T)
    (rs : list Row) :
  mask_list (map p (map field rs)) (map tx_amount rs) =
  map tx_amount (filter (fun r => p (field r)) rs).
Proof. now rewrite <- map_mask_list, mask_list_map. Qed.

Section RowOrder.
Variable rt : Runtime.
Variable account : string.
Variables rs rs' : list Row.
Hypothesis order : Permutation rs rs'.

Lemma column_Permutation {T : Type} (field : Row -> T) :
  Permutation (map field rs) (map field rs').
Proof. now apply Permutation_map. Qed.

Lemma count_alike {T : Type} (p : T -> bool) (field : Row -> T) :
  len (filter p (map field rs)) = len (filter p (map field rs')).
Proof. apply len_Permutation, Permutation_filter, column_Permutation. Qed.

Lemma amounts_alike (p : Z -> bool) :
  sum (filter p (map tx_amount rs)) = sum (filter p (map tx_amount rs')).
Proof. apply sum_Permutation, Permutation_filter, column_Permutation. Qed.

Lemma masked_alike {T : Type} (p : T -> bool) (field : Row -> T) :
  sum (mask_list (map p (map field rs)) (map tx_amount rs)) =
  sum (mask_list (map p (map field rs')) (map tx_amount rs')).
Proof.
  rewrite !masked_amounts.
  now apply sum_Permutation, Permutation_map, Permutation_filter.
Qed.

Lemma size_alike : len rs = len rs'.
Proof. now apply len_Permutation. Qed.

Lemma total_alike : sum (map tx_amount rs) = sum (map tx_amount rs').
Proof. apply sum_Permutation, column_Permutation. Qed.

Lemma threshold_alerts_over_alike (ts : list Z) :
  forall k k',
    map essence (threshold_alerts_over rt account (map tx_amount rs) ts k) =
    map essence (threshold_alerts_over rt account (map tx_amount rs') ts k').
Proof.
  induction ts as [|t ts IH]; intros k k'; cbn [threshold_alerts_over];
    [reflexivity|].
  rewrite (count_alike (in_band t) tx_amount), (amounts_alike (in_band t)).
  destruct (3 <? len _); [|apply IH].
  cbn [map]. f_equal. apply IH.
Qed.

Lemma frequent_alike :
  len (filter (fun dc => 5 <? snd dc)
              (value_counts (map tx_description rs))) =
  len (filter (fun dc => 5 <? snd dc)
              (value_counts (map tx_description rs'))).
Proof.
  unfold len. rewrite !repeated_descriptions_length.
  fold (len (frequent_descriptions (map tx_description rs))).
  fold (len (frequent_descriptions (map tx_description rs'))).
  unfold frequent_descriptions.
  pose proof (dropna_Permutation _ _ (column_Permutation tx_description))
    as D.
  apply filter_pointwise_length.
  - intros s. unfold occurrences. f_equal.
    now apply len_Permutation, Permutation_filter.
  - apply unique_Permutation; [exact String.eqb_eq|exact D].
Qed.

Lemma burst_alike (field : Row -> Timestamp) :
  burst_count (map field rs) = burst_count (map field rs').
Proof.
  unfold burst_count.
  now rewrite (sorted_Permutation _ _ (column_Permutation field)).
Qed.
End RowOrder.

(** The view of a table whose dates parse, row by row. *)
Lemma view_rows (rt : Runtime) (cols : list string) (rs : list Row) :
  dates_parse rt (mkFrame cols rs) = true ->
  let has l := existsb (String.eqb l) cols in
  view rt (mkFrame cols rs) =
  mkView (len rs)
    (if has "date" then inr (map (stamp_of rt) rs) else inl (KeyError "date"))
    (if has "amount" then inr (map tx_amount rs) else inl (KeyError "amount"))
    (if has "description" then inr (map tx_description rs)
     else inl (KeyError "description"))
    (if has "counterparty" then inr (map tx_counterparty rs)
     else inl (KeyError "counterparty"))
    (if has "transaction_type" then inr (map tx_transaction_type rs)
     else inl (KeyError "transaction_type")).
Proof.
  intros Hp has. unfold view, getitem, has_column. cbn [columns rows].
  subst has. cbv beta. f_equal.
  unfold dates_parse, has_column in Hp. cbn [columns rows] in Hp.
  destruct (existsb (String.eqb "date") cols); [|reflexivity].
  cbn [negb orb] in Hp. now apply to_datetime_rows.
Qed.

Lemma dates_parse_Permutation (rt : Runtime) (cols : list string)
    (rs rs' : list Row) :
  Permutation rs rs' ->
  dates_parse rt (mkFrame cols rs) = true ->
  dates_parse rt (mkFrame cols rs') = true.
Proof.
  intros P. unfold dates_parse, has_column. cbn [columns rows].
  destruct (existsb (String.eqb "date") cols); cbn [negb orb]; [|easy].
  apply forallb_Permutation. now apply Permutation_map.
Qed.

Ltac same_alerts :=
  repeat match goal with
         | |- context [if ?c then _ else _] => destruct c
         end;
  cbn [essence_of and_then map essence account_id alert_type risk_level
       confidence_score description amount_involved app];
  reflexivity.

Section RowOrderReadings.
Variable rt : Runtime.
Variable account : string.
Variable cols : list string.
Variables rs rs' : list Row.
Hypothesis order : Permutation rs rs'.
Hypothesis parse : dates_parse rt (mkFrame cols rs) = true.

Let v := view rt (mkFrame cols rs).
Let v' := view rt (mkFrame cols rs').

Lemma round_number_alike (t t' : nat) :
  essence_of (round_number_alerts rt account v t) =
  essence_of (round_number_alerts rt account v' t').
Proof.
  unfold v, v'.
  rewrite !view_rows by (try apply (dates_parse_Permutation rt cols rs rs');
                         assumption).
  unfold round_number_alerts. cbn [amount_values size].
  destruct (existsb (String.eqb "amount") cols); cbn [and_then];
    [|reflexivity].
  cbv zeta.
  rewrite (count_alike rs rs' order is_round tx_amount),
    (amounts_alike rs rs' order is_round), (size_alike rs rs' order).
  same_alerts.
Qed.

Lemma description_alike (t t' : nat) :
  essence_of (description_alerts rt account v t) =
  essence_of (description_alerts rt account v' t').
Proof.
  unfold v, v'.
  rewrite !view_rows by (try apply (dates_parse_Permutation rt cols rs rs');
                         assumption).
  unfold description_alerts, vague_alerts, repeated_alerts.
  cbn [amount_values description_values size].
  destruct (existsb (String.eqb "description") cols); [|reflexivity].
  cbv zeta.
  rewrite (count_alike rs rs' order is_vague tx_description),
    (size_alike rs rs' order), (frequent_alike rs rs' order).
  destruct (existsb (String.eqb "amount") cols); cbn [and_then];
    rewrite ?(masked_alike rs rs' order is_vague tx_description);
    same_alerts.
Qed.

Lemma frequency_alike (t t' : nat) :
  essence_of (frequency_alerts rt account v t) =
  essence_of (frequency_alerts rt account v' t').
Proof.
  unfold v, v'.
  rewrite !view_rows by (try apply (dates_parse_Permutation rt cols rs rs');
                         assumption).
  unfold frequency_alerts. cbn [date_values size].
  destruct (existsb (String.eqb "date") cols); [|reflexivity].
  rewrite (burst_alike rs rs' order (stamp_of rt)), (size_alike rs rs' order).
  same_alerts.
Qed.

Lemma threshold_alike (t t' : nat) :
  essence_of (threshold_alerts rt account v t) =
  essence_of (threshold_alerts rt account v' t').
Proof.
  unfold v, v'.
  rewrite !view_rows by (try apply (dates_parse_Permutation rt cols rs rs');
                         assumption).
  unfold threshold_alerts. cbn [amount_values].
  destruct (existsb (String.eqb "amount") cols); cbn [and_then essence_of];
    [|reflexivity].
  f_equal. now apply threshold_alerts_over_alike.
Qed.

Lemma end_of_period_alike (t t' : nat) :
  essence_of (end_of_period_alerts rt account v t) =
  essence_of (end_of_period_alerts rt account v' t').
Proof.
  unfold v, v'.
  rewrite !view_rows by (try apply (dates_parse_Permutation rt cols rs rs');
                         assumption).
  unfold end_of_period_alerts, month_end_alerts, quarter_end_alerts.
  cbn [date_values amount_values size].
  destruct (existsb (String.eqb "date") cols); [|reflexivity].
  cbv zeta.
  rewrite (count_alike rs rs' order is_month_end (stamp_of rt)),
    (count_alike rs rs' order is_quarter_end (stamp_of rt)),
    (size_alike rs rs' order).
  destruct (existsb (String.eqb "amount") cols); cbn [and_then];
    rewrite ?(masked_alike rs rs' order is_month_end (stamp_of rt));
    same_alerts.
Qed.

Lemma cash_alike (t t' : nat) :
  essence_of (cash_alerts rt account v t) =
  essence_of (cash_alerts rt account v' t').
Proof.
  unfold v, v'.
  rewrite !view_rows by (try apply (dates_parse_Permutation rt cols rs rs');
                         assumption).
  unfold cash_alerts. cbn [type_values amount_values size].
  destruct (existsb (String.eqb "transaction_type") cols); [|reflexivity].
  cbv zeta.
  rewrite (count_alike rs rs' order is_cash tx_transaction_type),
    (size_alike rs rs' order).
  destruct (existsb (String.eqb "amount") cols); cbn [and_then];
    rewrite ?(masked_alike rs rs' order is_cash tx_transaction_type),
      ?(total_alike rs rs' order);
    same_alerts.
Qed.
End RowOrderReadings.

Lemma typed_entries_rows (day : Row -> Z) (rs : list Row) :
  typed_entries (map day rs) (map tx_transaction_type rs) (map tx_amount rs) =
  flat_map (fun r => match tx_transaction_type r with
                     | Some t => [(day r, t, tx_amount r)]
                     | None => []
                     end) rs.
Proof.
  induction rs as [|r rs IH]; [reflexivity|].
  cbn [map typed_entries flat_map].
  destruct (tx_transaction_type r); cbn [app]; now rewrite IH.
Qed.

Section RowOrderGroups.
Variable rt : Runtime.
Variable account : string.
Variable cols : list string.
Variables rs rs' : list Row.
Hypothesis order : Permutation rs rs'.
Hypothesis parse : dates_parse rt (mkFrame cols rs) = true.

Let v := view rt (mkFrame cols rs).
Let v' := view rt (mkFrame cols rs').

Lemma named_alike (k : string) :
  In (Some k) (map tx_counterparty rs) <->
  In (Some k) (map tx_counterparty rs').
Proof.
  split; apply Permutation_in;
    [|apply Permutation_sym]; now apply Permutation_map.
Qed.

Lemma counted_alike :
  (0 <? len (value_counts (map tx_counterparty rs))) =
  (0 <? len (value_counts (map tx_counterparty rs'))).
Proof.
  destruct (0 <? len (value_counts (map tx_counterparty rs))) eqn:E;
    symmetry.
  - apply value_counts_nonempty in E. destruct E as (k & Hk).
    apply value_counts_nonempty. exists k. now apply named_alike.
  - destruct (0 <? len (value_counts (map tx_counterparty rs'))) eqn:E';
      [|reflexivity].
    apply value_counts_nonempty in E'. destruct E' as (k & Hk).
    apply named_alike in Hk.
    assert ((0 <? len (value_counts (map tx_counterparty rs))) = true)
      by (apply value_counts_nonempty; now exists k).
    congruence.
Qed.

Lemma top_alike (top top' : string * Z) (rest rest' : list (string * Z)) :
  sort_values_descending
    (group_sums (map tx_counterparty rs) (map tx_amount rs)) = top :: rest ->
  sort_values_descending
    (group_sums (map tx_counterparty rs') (map tx_amount rs')) =
    top' :: rest' ->
  snd top = snd top'.
Proof.
  intros E E'.
  destruct (top_total _ _ _ _ E) as (I & T & M).
  destruct (top_total _ _ _ _ E') as (I' & T' & M').
  apply named_alike in I. apply named_alike in I'.
  specialize (M _ I'). specialize (M' _ I).
  rewrite (masked_alike rs rs' order (is_name (fst top')) tx_counterparty)
    in M.
  rewrite <- (masked_alike rs rs' order (is_name (fst top)) tx_counterparty)
    in M'.
  lia.
Qed.

Lemma counterparty_alike (t t' : nat) :
  essence_of (counterparty_alerts rt account v t) =
  essence_of (counterparty_alerts rt account v' t').
Proof.
  unfold v, v'.
  rewrite !view_rows by (try apply (dates_parse_Permutation rt cols rs rs');
                         assumption).
  unfold counterparty_alerts. cbn [counterparty_values amount_values].
  destruct (existsb (String.eqb "counterparty") cols); [|reflexivity].
  destruct (existsb (String.eqb "amount") cols); cbn [and_then];
    [|reflexivity].
  cbv zeta. rewrite <- counted_alike.
  destruct (0 <? len (value_counts (map tx_counterparty rs))) eqn:C;
    [|reflexivity].
  pose proof (group_sums_nonempty _ (map tx_amount rs) C) as N.
  rewrite counted_alike in C.
  pose proof (group_sums_nonempty _ (map tx_amount rs') C) as N'.
  destruct (sort_values_descending
              (group_sums (map tx_counterparty rs) (map tx_amount rs)))
    as [|top rest] eqn:E; [contradiction|].
  destruct (sort_values_descending
              (group_sums (map tx_counterparty rs') (map tx_amount rs')))
    as [|top' rest'] eqn:E'; [contradiction|].
  rewrite (top_alike _ _ _ _ E E'), (total_alike rs rs' order).
  same_alerts.
Qed.

Let entries (l : list Row) : list (Z * string * Z) :=
  typed_entries (map day_number (map (stamp_of rt) l))
                (map tx_transaction_type l) (map tx_amount l).

Lemma entries_alike : Permutation (entries rs) (entries rs').
Proof.
  unfold entries. rewrite !map_map, !typed_entries_rows.
  now apply Permutation_flat_map.
Qed.

Lemma daily_alike :
  let daily l :=
    unstack_sums (map day_number (map (stamp_of rt) l))
                 (map tx_transaction_type l) (map tx_amount l) in
  daily_index (daily rs) = daily_index (daily rs') /\
  (forall label,
      existsb (String.eqb label) (daily_columns (daily rs)) =
      existsb (String.eqb label) (daily_columns (daily rs'))) /\
  (forall d label,
      daily_value (daily rs) d label = daily_value (daily rs') d label).
Proof.
  intros daily. subst daily. unfold unstack_sums.
  cbn [daily_index daily_columns]. fold (entries rs). fold (entries rs').
  pose proof entries_alike as P. split; [|split].
  - apply sorted_Permutation, unique_Permutation; [exact Z.eqb_eq|].
    now apply Permutation_map.
  - intros label.
    rewrite <- !(existsb_Permutation _ _ _
                   (sorted_perm (fun k => k) String.ltb false _)).
    apply existsb_Permutation, unique_Permutation; [exact String.eqb_eq|].
    now apply Permutation_map.
  - intros d label. unfold daily_value. cbn [daily_entries].
    now apply sum_Permutation, Permutation_map, Permutation_filter.
Qed.

Lemma layering_alike (t t' : nat) :
  essence_of (layering_alerts rt account v t) =
  essence_of (layering_alerts rt account v' t').
Proof.
  unfold v, v'.
  rewrite !view_rows by (try apply (dates_parse_Permutation rt cols rs rs');
                         assumption).
  unfold layering_alerts. cbn [type_values date_values amount_values].
  destruct (existsb (String.eqb "transaction_type") cols); [|reflexivity].
  destruct (existsb (String.eqb "date") cols); [|reflexivity].
  destruct (existsb (String.eqb "amount") cols); cbn [and_then];
    [|reflexivity].
  cbv zeta. destruct daily_alike as (I & C & V).
  unfold same_day_activity. rewrite !C, I.
  rewrite (filter_ext _ (fun d =>
             (0 <? daily_value
                     (unstack_sums (map day_number (map (stamp_of rt) rs'))
                        (map tx_transaction_type rs') (map tx_amount rs'))
                     d "deposit") &&
             (0 <? daily_value
                     (unstack_sums (map day_number (map (stamp_of rt) rs'))
                        (map tx_transaction_type rs') (map tx_amount rs'))
                     d "withdrawal")))
    by (intros d; now rewrite !V).
  same_alerts.
Qed.
End RowOrderGroups.

Lemma readings_row_order (rt : Runtime) (account : string)
    (cols : list string) (rs rs' : list Row) :
  Permutation rs rs' ->
  dates_parse rt (mkFrame cols rs) = true ->
  Forall (fun g => forall t t',
              essence_of (g (view rt (mkFrame cols rs)) t) =
              essence_of (g (view rt (mkFrame cols rs')) t'))
         (readings rt account).
Proof.
  intros P D. apply Forall_readings; intros t t'.
  - now apply round_number_alike.
  - now apply description_alike.
  - now apply frequency_alike.
  - now apply threshold_alike.
  - now apply end_of_period_alike.
  - now apply counterparty_alike.
  - now apply cash_alike.
  - now apply layering_alike.
Qed.

(** Two runs of the detectors on tables whose readings agree in essence
    have outcomes that agree in essence. *)
Lemma run_in_order_alike (rt : Runtime) (v v' : View)
    (ds : list (M (list Alert))) (gs : list (View -> nat -> exn + list Alert)) :
  Forall2 (reads rt) ds gs ->
  Forall (fun g => forall t t',
              essence_of (g v t) = essence_of (g v' t')) gs ->
  forall (start start' : list Alert) (w w' : World),
    view rt (frame w) = v -> view rt (frame w') = v' ->
    map essence start = map essence start' ->
    essence_of (outcome (run_in_order ds start w)) =
    essence_of (outcome (run_in_order ds start' w')).
Proof.
  induction 1 as [|d g ds gs Hd _ IH]; intros U start start' w w' V V' S.
  - cbn [run_in_order]. unfold ret, outcome. cbn [fst essence_of].
    now rewrite S.
  - apply Forall_cons_iff in U. destruct U as (Ug & Ugs).
    cbn [run_in_order]. unfold bind.
    destruct (Hd w) as (w1 & R & V1). destruct (Hd w') as (w1' & R' & V1').
    rewrite V in R, V1. rewrite V' in R', V1'. rewrite R, R'.
    specialize (Ug (ticks w) (ticks w')).
    destruct (g v (ticks w)) as [e|found], (g v' (ticks w')) as [e'|found'];
      cbn [essence_of] in Ug; try discriminate Ug.
    + exact Ug.
    + apply inr_eq in Ug. apply IH; try assumption.
      now rewrite !map_app, S, Ug.
Qed.



Lemma daily_value_rows (rt : Runtime) (rs : list Row) (d : Z)
    (label : string) :
  daily_value
    (unstack_sums (map day_number (map (stamp_of rt) rs))
                  (map tx_transaction_type rs) (map tx_amount rs)) d label =
  day_total rt rs d label.
Proof.
  unfold daily_value, unstack_sums, day_total. cbn [daily_entries].
  rewrite map_map, typed_entries_rows. unfold day_of_row.
  induction rs as [|r rs IH]; [reflexivity|].
  cbn [flat_map filter map]. rewrite filter_app, map_app.
  unfold sum in *. rewrite fold_right_app.
  destruct (tx_transaction_type r) as [t|]; cbn [filter fst snd is_name app].
  - destruct (day_number (stamp_of rt r) =? d); cbn [andb];
      [|cbn [map fold_right]; exact IH].
    destruct (String.eqb t label); cbn [map fold_right]; now rewrite IH.
  - rewrite andb_false_r. cbn [map fold_right]. exact IH.
Qed.

Lemma daily_column_rows (rt : Runtime) (rs : list Row) (label : string) :
  existsb (String.eqb label)
    (daily_columns
       (unstack_sums (map day_number (map (stamp_of rt) rs))
                     (map tx_transaction_type rs) (map tx_amount rs))) =
  existsb (is_name label) (map tx_transaction_type rs).
Proof.
  unfold unstack_sums. cbn [daily_columns].
  rewrite map_map, typed_entries_rows.
  rewrite <- (existsb_Permutation _ _ _
                (sorted_perm (fun k => k) String.ltb false _)).
  destruct (existsb (is_name label) (map tx_transaction_type rs)) eqn:E.
  - apply existsb_exists in E. destruct E as (c & Hc & N).
    destruct c as [c|]; [|discriminate N]. cbn [is_name] in N.
    apply String.eqb_eq in N. subst c.
    apply existsb_exists. exists label. split; [|apply String.eqb_refl].
    apply unique_In; [exact String.eqb_eq|].
    apply in_map_iff in Hc. destruct Hc as (r & Hr & I).
    apply in_map_iff. exists (day_number (stamp_of rt r), label, tx_amount r).
    split; [reflexivity|]. apply in_flat_map. exists r. split; [exact I|].
    rewrite Hr. now left.
  - destruct (existsb (String.eqb label) _) eqn:E'; [|reflexivity].
    apply existsb_exists in E'. destruct E' as (x & Hx & N).
    apply String.eqb_eq in N. subst x.
    apply unique_In in Hx; [|exact String.eqb_eq].
    apply in_map_iff in Hx. destruct Hx as ([[d t] a] & Ht & I).
    cbn [fst snd] in Ht. subst t.
    apply in_flat_map in I. destruct I as (r & Ir & I).
    assert (existsb (is_name label) (map tx_transaction_type rs) = true);
      [|congruence].
    apply existsb_exists. exists (tx_transaction_type r).
    split; [now apply in_map|].
    destruct (tx_transaction_type r) as [t|]; [|contradiction I].
    destruct I as [[= _ -> _]|[]]. cbn [is_name]. apply String.eqb_refl.
Qed.

Lemma daily_index_rows (rt : Runtime) (rs : list Row) :
  let days :=
    daily_index
      (unstack_sums (map day_number (map (stamp_of rt) rs))
                    (map tx_transaction_type rs) (map tx_amount rs)) in
  NoDup days /\ StronglySorted Z.le days /\
  forall d,
    In d days <->
    exists r, In r rs /\ day_of_row rt r = d /\ tx_transaction_type r <> None.
Proof.
  intros days. subst days. unfold unstack_sums. cbn [daily_index].
  rewrite map_map, typed_entries_rows.
  set (entries := flat_map _ rs).
  destruct (sorted_timestamps (unique Z.eqb (map (fun e => fst (fst e)) entries)))
    as (P & S).
  split; [|split; [exact S|]].
  - eapply Permutation_NoDup; [exact P|]. apply unique_NoDup. exact Z.eqb_eq.
  - intros d. rewrite In_sorted, (unique_In Z.eqb Z.eqb_eq), in_map_iff.
    unfold entries. split.
    + intros ([[d' t] a] & <- & I). apply in_flat_map in I.
      destruct I as (r & Ir & I). exists r.
      destruct (tx_transaction_type r) as [t'|]; [|contradiction I].
      destruct I as [[= <- _ _]|[]]. cbn [fst]. now repeat split.
    + intros (r & Ir & <- & N).
      destruct (tx_transaction_type r) as [t|] eqn:E; [|contradiction].
      exists (day_of_row rt r, t, tx_amount r). split; [reflexivity|].
      apply in_flat_map. exists r. split; [exact Ir|]. rewrite E. now left.
Qed.


